(** * showyourwork: the Zenodo cache interface ([src/showyourwork/zenodo.py])

    A shallow embedding of the [Zenodo] class: the ownership probe, the
    three operations that read the hash ledger kept in the [notes] field of
    a deposit's metadata, the search through draft and published records
    ([download_file]), [upload_file], [delete] and the path-traversal guard
    of the tarball extraction.

    Python values decoded from JSON are kept dynamically typed ([json]), and
    the Python operations the code applies to them ([d[k]], [d.get(k, v)],
    [len], truth value, iteration, [in]) raise what Python raises.  Methods
    run in a state-and-exception monad over a [world]: the requests sent so
    far, the log, and the local files. *)

From Stdlib Require Import ZArith Ascii String List Bool.
From stdpp Require Import base option list gmap strings.

Set Warnings "-register-all".
Local Open Scope Z_scope.
Local Open Scope string_scope.

(** ** Values decoded from JSON

    What [r.json()] and [json.loads] return: [None], booleans, numbers,
    text, lists and dictionaries with text keys.  The numbers the code
    meets (identifiers, status codes) are integers. *)

Inductive json : Type :=
| JNone
| JBool (b : bool)
| JInt (n : Z)
| JStr (s : string)
| JList (l : list json)
| JDict (d : gmap string json).

(** ** Exceptions *)

Inductive exn : Type :=
(* showyourwork.exceptions *)
| MissingZenodoAccessToken (token_name : string)
| InvalidZenodoNotesField
| FileNotFoundOnZenodo (name : string)
| ZenodoRecordNotFound (deposit_id : string)
| ZenodoError (status message : json)
| ZenodoDownloadError
| ZenodoUploadError
(* [Exception("Attempted Path Traversal in Tar File")] *)
| PathTraversal
(* Python built-ins *)
| KeyError (k : string)
| IndexError
| TypeError
| AttributeError
| JSONDecodeError
| OSError (path : string)
| ReadError
(* a bare [raise Exception] *)
| BareException
(* anything [requests] or [subprocess.run] itself raises *)
| TransportError (what : string).

Definition result (A : Type) : Type := exn + A.
Abbreviation Ok a := (inr a : result _) (only parsing).
Abbreviation Err e := (inl e : result _) (only parsing).

Module Py.

(** [d[k]] with a string key. *)
Definition getitem (d : json) (k : string) : result json :=
  match d with
  | JDict m => match m !! k with Some v => Ok v | None => Err (KeyError k) end
  | _ => Err TypeError
  end.

(** [d[0]].  The keys of a decoded object are strings, so [0] is never
    one of them. *)
Definition getitem0 (d : json) : result json :=
  match d with
  | JList (x :: _) => Ok x
  | JList [] => Err IndexError
  | JStr (String c _) => Ok (JStr (String c EmptyString))
  | JStr EmptyString => Err IndexError
  | JDict _ => Err (KeyError "0")
  | _ => Err TypeError
  end.

(** [d.get(k, default)]: only dictionaries have the method. *)
Definition get (d : json) (k : string) (default : json) : result json :=
  match d with
  | JDict m => Ok (match m !! k with Some v => v | None => default end)
  | _ => Err AttributeError
  end.

(** [len(x)] *)
Definition len (x : json) : result nat :=
  match x with
  | JList l => Ok (List.length l)
  | JStr s => Ok (String.length s)
  | JDict m => Ok (size m)
  | _ => Err TypeError
  end.

(** Truth value of [x] in [if x], [not x]. *)
Definition truthy (x : json) : bool :=
  match x with
  | JNone => false
  | JBool b => b
  | JInt n => negb (Z.eqb n 0)
  | JStr s => negb (String.eqb s EmptyString)
  | JList l => match l with [] => false | _ => true end
  | JDict m => negb (bool_decide (m = ∅))
  end.

(** The values [for x in v] runs through: the elements of a list, the
    keys of a dictionary (in some order), the characters of a text. *)
Definition iter (v : json) : result (list json) :=
  match v with
  | JList l => Ok l
  | JDict m => Ok (JStr <$> (map_to_list m).*1)
  | JStr s => Ok ((fun c => JStr (String c EmptyString)) <$> list_ascii_of_string s)
  | _ => Err TypeError
  end.

(** [x == s] for a string [s]. *)
Definition eq_str (x : json) (s : string) : bool :=
  match x with JStr t => String.eqb t s | _ => false end.

Definition is_list (x : json) : bool :=
  match x with JList _ => true | _ => false end.

(** [d[k] = v] *)
Definition setitem (d : json) (k : string) (v : json) : result json :=
  match d with
  | JDict m => Ok (JDict (<[k := v]> m))
  | _ => Err TypeError
  end.

(** [v[::-1]]: lists and texts can be sliced. *)
Definition reversed (v : json) : result json :=
  match v with
  | JList l => Ok (JList (rev l))
  | JStr s => Ok (JStr (string_of_list_ascii (rev (list_ascii_of_string s))))
  | _ => Err TypeError
  end.

Fixpoint substring_of (needle hay : string) : bool :=
  String.prefix needle hay
  || match hay with
     | EmptyString => false
     | String _ rest => substring_of needle rest
     end.

(** [s in v] for a string [s] *)
Definition contains (s : string) (v : json) : result bool :=
  match v with
  | JStr t => Ok (substring_of s t)
  | JList l => Ok (existsb (fun x => eq_str x s) l)
  | JDict m => Ok (bool_decide (is_Some (m !! s)))
  | _ => Err TypeError
  end.

End Py.

(** ** [os.path] on POSIX

    [file] arguments are [pathlib.Path] objects; they reach [os.path] through
    [os.fspath], so a path is its text. *)

Module PosixPath.

Definition sep : ascii := "/"%char.

(** [path.split("/")] *)
Fixpoint split (path : string) : list string :=
  match path with
  | EmptyString => [EmptyString]
  | String c rest =>
      if Ascii.eqb c sep then EmptyString :: split rest
      else match split rest with
           | x :: xs => String c x :: xs
           | [] => [String c EmptyString]
           end
  end.

(** ["/".join(comps)] *)
Fixpoint join_comps (comps : list string) : string :=
  match comps with
  | [] => EmptyString
  | [x] => x
  | x :: xs => x ++ "/" ++ join_comps xs
  end.

Definition startswith (p s : string) : bool := String.prefix p s.

Fixpoint endswith_sep (s : string) : bool :=
  match s with
  | EmptyString => false
  | String c EmptyString => Ascii.eqb c sep
  | String _ rest => endswith_sep rest
  end.

Definition isabs (path : string) : bool := startswith "/" path.

(** [os.path.join(a, b)] *)
Definition join (a b : string) : string :=
  if startswith "/" b then b
  else if String.eqb a EmptyString || endswith_sep a then a ++ b
  else a ++ "/" ++ b.

(** One turn of the loop of [normpath]; [new_comps] is kept last
    component first. *)
Definition norm_step (initial_slashes : nat) (new_comps : list string)
    (comp : string) : list string :=
  if String.eqb comp EmptyString || String.eqb comp "." then new_comps
  else if negb (String.eqb comp "..")
          || (Nat.eqb initial_slashes 0 && match new_comps with [] => true | _ => false end)
          || match new_comps with last :: _ => String.eqb last ".." | [] => false end
  then comp :: new_comps
  else match new_comps with _ :: popped => popped | [] => [] end.

Definition initial_slashes (path : string) : nat :=
  if startswith "/" path then
    if startswith "//" path && negb (startswith "///" path) then 2%nat else 1%nat
  else 0%nat.

(** [os.path.normpath(path)] *)
Definition normpath (path : string) : string :=
  if String.eqb path EmptyString then "."
  else
    let n := initial_slashes path in
    let comps := rev (fold_left (norm_step n) (split path) []) in
    let path' := String.concat EmptyString (replicate n "/") ++ join_comps comps in
    if String.eqb path' EmptyString then "." else path'.

(** [os.path.abspath(path)], with [cwd] what [os.getcwd()] returns. *)
Definition abspath (cwd path : string) : string :=
  normpath (if isabs path then path else join cwd path).

(** [os.path.commonprefix([a, b])]: the longest common leading run of
    characters of the two texts. *)
Fixpoint commonprefix (a b : string) : string :=
  match a, b with
  | String c a', String d b' =>
      if Ascii.eqb c d then String c (commonprefix a' b') else EmptyString
  | _, _ => EmptyString
  end.

(** [Path(path).name]: the last of the parts of the path, which leave out
    its empty components and the components [.]; the empty text when there
    is none (as for [.] and [/]). *)
Definition name (path : string) : string :=
  List.last
    (List.filter (fun comp => negb (String.eqb comp EmptyString
                                    || String.eqb comp "."))
                 (split path))
    EmptyString.

End PosixPath.

(** ** The world a method runs in *)

(** An f-string is kept as its pieces: literal text and interpolated values,
    in order. *)
Definition fstring : Type := list json.

Inductive http_method : Type := GET | POST | PUT | DELETE.

(** [requests.<method>(url, params=..., json=.../data=...)].  The body is
    the value before serialisation. *)
Record request : Type := {
  req_method : http_method;
  req_url : fstring;
  req_params : list (string * json);
  req_body : option json
}.

Record response : Type := {
  status_code : Z;
  body : option json;    (* [None]: [r.json()] raises *)
  text : string
}.

(** The two [curl] command lines. *)
Inductive curl_call : Type :=
| CurlDownload (fail_on_error : bool) (url : fstring) (progress_bar : bool)
    (output : string)
| CurlUpload (upload_file : string) (url : fstring) (progress_bar : bool).

Inductive net_event : Type :=
| Http (rq : request)
| Curl (c : curl_call).

(** A request that changes the remote deposit. *)
Definition mutates (e : net_event) : bool :=
  match e with
  | Http rq => match req_method rq with GET => false | _ => true end
  | Curl (CurlUpload _ _ _) => true
  | Curl (CurlDownload _ _ _ _) => false
  end.

Inductive level : Type := Debug | Info | Warning.

(** A local file: plain bytes, or a tar archive given by its members (name
    and bytes; members are regular files). *)
Inductive content : Type :=
| Blob (data : string)
| Tarball (members : list (string * string)).

Record world : Type := {
  net : list net_event;                (* oldest first *)
  logs : list (level * fstring);       (* oldest first *)
  files : gmap string content
}.

Definition M (A : Type) : Type := world → result A * world.

Definition ret {A} (a : A) : M A := fun w => (Ok a, w).
Definition raise {A} (e : exn) : M A := fun w => (Err e, w).
Definition bind {A B} (m : M A) (k : A → M B) : M B :=
  fun w => match m w with
           | (inr a, w') => k a w'
           | (inl e, w') => (inl e, w')
           end.
Definition lift {A} (r : result A) : M A := fun w => (r, w).

Notation "'let!' x ':=' m 'in' k" := (bind m (fun x => k))
  (at level 10, x pattern, m at level 200, k at level 200).
Notation "'do!' m 'in' k" := (bind m (fun _ => k))
  (at level 10, m at level 200, k at level 200).

(** [try: m  except: h] with a handler that sees the exception. *)
Definition try_except {A} (m : M A) (h : exn → M A) : M A :=
  fun w => match m w with
           | (inl e, w') => h e w'
           | ok => ok
           end.

Definition log (l : level) (msg : fstring) : M unit :=
  fun w => (Ok tt, {| net := net w; logs := logs w ++ [(l, msg)]; files := files w |}).

Definition set_files (f : gmap string content → gmap string content) : M unit :=
  fun w => (Ok tt, {| net := net w; logs := logs w; files := f (files w) |}).

Definition get_files : M (gmap string content) := fun w => (Ok (files w), w).

Module Fs.

(** [path.exists()] *)
Definition exists_ (path : string) : M bool :=
  let! fs := get_files in ret (bool_decide (is_Some (fs !! path))).

(** [path.touch()] *)
Definition touch (path : string) : M unit :=
  set_files (fun fs => match fs !! path with
                       | Some _ => fs
                       | None => <[path := Blob EmptyString]> fs
                       end).

(** [os.rename(src, dst)] *)
Definition rename (src dst : string) : M unit :=
  let! fs := get_files in
  match fs !! src with
  | Some c => set_files (fun fs => <[dst := c]> (delete src fs))
  | None => raise (OSError src)
  end.

(** [Path(path).unlink()] *)
Definition unlink (path : string) : M unit :=
  let! fs := get_files in
  match fs !! path with
  | Some _ => set_files (delete path)
  | None => raise (OSError path)
  end.

(** [tarfile.open(path)] followed by [getmembers()] *)
Definition tar_open (path : string) : M (list (string * string)) :=
  let! fs := get_files in
  match fs !! path with
  | Some (Tarball ms) => ret ms
  | Some (Blob _) => raise ReadError
  | None => raise (OSError path)
  end.

End Fs.

(** ** What the class is given *)

(** [self] *)
Record Zenodo : Type := {
  doi : string;
  doi_prefix : string;
  deposit_id : string;
  url : string;
  token_name : string;
  access_token : option string;     (* [os.getenv(token_name, None)] *)
  service : string
}.

(** The collaborators of the class that are not part of it: the remote
    service behind [requests], the [curl] binary, [parse_request] of
    [showyourwork.subproc], the [json] module, and the configuration.  The
    answers of the service and of [curl] may depend on the exchange so far. *)
Record env : Type := {
  (* [requests.get/post/put/delete]: the response, or what the call raises *)
  remote : list net_event → request → result response;
  (* [subprocess.run(["curl", ...])]: what it raises, or the bytes it leaves
     in the output file ([None]: nothing written) *)
  curl : list net_event → curl_call → result (option content);
  parse_request : response → result json;
  (* [json.loads]; [None] where it raises [JSONDecodeError] *)
  json_loads : string → option json;
  (* [json.dumps(v, indent=4)] *)
  json_dumps : json → string;
  (* [get_run_type()] *)
  get_run_type : string;
  (* [snakemake.workflow.config["github_actions"]] *)
  github_actions : bool;
  (* [paths.user().flags] *)
  flags : string;
  (* [os.getcwd()] *)
  getcwd : string;
  (* the members [tb.add(file, arcname=".")] records for a local tree *)
  tar_add : gmap string content → string → result (list (string * string))
}.

Section Methods.

Context (E : env).

(** One call of [requests]: the request is on the wire whatever the
    answer. *)
Definition http (rq : request) : M response :=
  fun w => (remote E (net w) rq,
            {| net := net w ++ [Http rq]; logs := logs w; files := files w |}).

(** One run of [curl]. *)
Definition run_curl (c : curl_call) : M (option content) :=
  fun w => (curl E (net w) c,
            {| net := net w ++ [Curl c]; logs := logs w; files := files w |}).

(** [curl ... --output file]: the bytes received land in [output]. *)
Definition curl_download (fail_on_error : bool) (u : fstring)
    (progress_bar : bool) (output : string) : M unit :=
  let! got := run_curl (CurlDownload fail_on_error u progress_bar output) in
  match got with
  | Some c => set_files (fun fs => <[output := c]> fs)
  | None => ret tt
  end.

(** [r.json()] *)
Definition r_json (r : response) : M json :=
  lift (match body r with Some j => Ok j | None => Err JSONDecodeError end).

Definition token (self : Zenodo) : json :=
  match access_token self with Some t => JStr t | None => JNone end.

(** [@require_access_token] *)
Definition require_access_token {A} (self : Zenodo) (method : M A) : M A :=
  if Py.truthy (token self) then method
  else raise (MissingZenodoAccessToken (token_name self)).

Definition depositions_url (self : Zenodo) : fstring :=
  [JStr ("https://" ++ url self ++ "/api/deposit/depositions")].

(** The search all methods start with: every version of the concept. *)
Definition concept_search (self : Zenodo) : request :=
  {| req_method := GET;
     req_url := depositions_url self;
     req_params := [("q", JStr ("conceptrecid:" ++ deposit_id self));
                    ("all_versions", JInt 1);
                    ("access_token", token self)];
     req_body := None |}.

Definition with_token (self : Zenodo) (m : http_method) (u : fstring)
    (b : option json) : request :=
  {| req_method := m; req_url := u;
     req_params := [("access_token", token self)]; req_body := b |}.

(** *** [check_if_user_is_owner] *)

Definition cache_file_true (self : Zenodo) : string :=
  flags E ++ "/" ++ deposit_id self ++ "_AUTH_VALID".
Definition cache_file_false (self : Zenodo) : string :=
  flags E ++ "/" ++ deposit_id self ++ "_AUTH_INVALID".

Definition owner_probe (self : Zenodo) : request :=
  {| req_method := GET;
     req_url := depositions_url self;
     req_params := [("q", JStr ("recid:" ++ deposit_id self
                                ++ " conceptrecid:" ++ deposit_id self));
                    ("all_versions", JInt 1);
                    ("access_token", token self)];
     req_body := None |}.

Definition check_if_user_is_owner (self : Zenodo) : M bool :=
  let! cached_true := Fs.exists_ (cache_file_true self) in
  if cached_true then ret true else
  let! cached_false := Fs.exists_ (cache_file_false self) in
  if cached_false then ret false else
  let! valid :=
    if Py.truthy (token self) then
      do! log Debug [JStr ("Testing if user is authenticated for "
                           ++ doi self ++ "...")] in
      let! r := http (owner_probe self) in
      if (status_code r <=? 204)%Z then
        let! j := r_json r in
        let! owned :=
          if Py.is_list j
          then let! n := lift (Py.len j) in ret (negb (Nat.eqb n 0))
          else ret false in
        if owned then
          do! log (if String.eqb (get_run_type E) "build" then Info else Debug)
                  [JStr ("User authentication for " ++ doi self ++ " is valid.")] in
          do! Fs.touch (cache_file_true self) in
          ret true
        else
          do! log Debug [JStr "Error establishing whether user is authenticated."] in
          do! log Debug [JStr "HTTP response:"] in
          do! log Debug [JStr (text r)] in
          ret false
      else ret false
    else ret false in
  if valid then ret true else
  (* No dice *)
  do! log Warning [JStr ("User is not authenticated to edit " ++ doi self ++ ".")] in
  do! Fs.touch (cache_file_false self) in
  ret false.

(** *** The hash ledger

    The three methods below begin with the same lines: the [notes] field
    of the metadata, ["{}"] when it is absent, decoded by [json.loads]. *)

Definition get_rule_hashes (metadata : json) : result json :=
  match Py.get metadata "notes" (JStr "{}") with
  | inl e => Err e
  | inr (JStr s) =>
      match json_loads E s with
      | Some rule_hashes => Ok rule_hashes
      | None => Err InvalidZenodoNotesField
      end
  | inr _ => Err TypeError   (* [json.loads] of a value that is no text *)
  end.

(** *** The guarded extraction (nested in both download methods) *)

Definition is_within_directory (directory target : string) : bool :=
  let abs_directory := PosixPath.abspath (getcwd E) directory in
  let abs_target := PosixPath.abspath (getcwd E) target in
  let prefix := PosixPath.commonprefix abs_directory abs_target in
  String.eqb prefix abs_directory.

(** The loop of [safe_extract] over [tar.getmembers()]. *)
Fixpoint check_members (path : string) (members : list (string * string))
    : result unit :=
  match members with
  | [] => Ok tt
  | member :: rest =>
      let member_path := PosixPath.join path member.1 in
      if negb (is_within_directory path member_path) then Err PathTraversal
      else check_members path rest
  end.

(** Where [TarFile.extractall] puts a member. *)
Definition destination (path : string) (member_name : string) : string :=
  PosixPath.abspath (getcwd E) (PosixPath.join path member_name).

Definition unpack (path : string) (members : list (string * string))
    (fs : gmap string content) : gmap string content :=
  fold_left (fun fs member => <[destination path member.1 := Blob member.2]> fs)
            members fs.

(** [TarFile.extractall(self, path=".", members=None, *, numeric_owner=False)]
    of the standard library, called with [positional] arguments given by
    position after [self].  [numeric_owner] is keyword-only: a call that
    passes more than two arguments by position raises [TypeError] before
    anything is unpacked. *)
Definition extractall (positional : nat) (path : string)
    (members : list (string * string)) : M unit :=
  if (2 <? positional)%nat then raise TypeError
  else set_files (unpack path members).

(** [safe_extract(tb, file)]; its last line is
    [tar.extractall(path, members, numeric_owner)], three arguments by
    position. *)
Definition safe_extract (members : list (string * string)) (path : string)
    : M unit :=
  do! lift (check_members path members) in
  extractall 3 path members.

(** [if tarball: ...] after a download to [file]. *)
Definition extract_tarball (file : string) : M unit :=
  do! Fs.rename file (file ++ ".tar.gz") in
  let! members := Fs.tar_open (file ++ ".tar.gz") in
  do! safe_extract members file in
  Fs.unlink (file ++ ".tar.gz").

(** *** [upload_file_to_draft] *)

(** The loop that deletes the file a rule left on the draft. *)
Fixpoint delete_existing (self : Zenodo) (files_url : json) (rule_name : string)
    (data : list json) : M unit :=
  match data with
  | [] => ret tt
  | entry :: rest =>
      let! filename := lift (Py.getitem entry "filename") in
      if Py.eq_str filename rule_name then
        let! file_id := lift (Py.getitem entry "id") in
        let! r := http (with_token self DELETE [files_url; JStr "/"; file_id] None) in
        let! _ := lift (parse_request E r) in
        ret tt   (* break *)
      else delete_existing self files_url rule_name rest
  end.

Definition upload_file_to_draft (self : Zenodo) (draft : json) (file : string)
    (rule_name : string) (tarball : bool) : M unit :=
  require_access_token self (
    (* Get rule hashes for the files currently on Zenodo *)
    let! metadata := lift (Py.getitem draft "metadata") in
    let! rule_hashes := lift (get_rule_hashes metadata) in
    (* Search for an existing file on Zenodo *)
    let! rule_hash_on_zenodo := lift (Py.get rule_hashes rule_name JNone) in
    if Py.eq_str rule_hash_on_zenodo (PosixPath.name file) then
      (* The file is up to date *)
      ret tt
    else
      do! (if Py.truthy rule_hash_on_zenodo then
             (* Delete the existing file *)
             let! links := lift (Py.getitem draft "links") in
             let! files_url := lift (Py.getitem links "files") in
             let! r := http (with_token self GET [files_url] None) in
             let! data := lift (parse_request E r) in
             let! entries := lift (Py.iter data) in
             delete_existing self files_url rule_name entries
           else ret tt) in
      (* If it's a directory, tar it up *)
      let! file_to_upload :=
        if tarball then
          let! fs := get_files in
          do! set_files (fun fs => <[file ++ ".tar.gz" := Tarball []]> fs) in
          let! members := lift (tar_add E fs file) in
          do! set_files (fun fs => <[file ++ ".tar.gz" := Tarball members]> fs) in
          ret (file ++ ".tar.gz")
        else ret file in
      (* Use curl to upload the file *)
      let! links := lift (Py.getitem draft "links") in
      let! bucket_url := lift (Py.getitem links "bucket") in
      let progress_bar := negb (github_actions E) in
      let! _ := try_except
        (run_curl (CurlUpload file_to_upload
                     [bucket_url; JStr ("/" ++ rule_name ++ "?access_token=");
                      token self] progress_bar))
        (fun _ => raise ZenodoUploadError) in
      (* Delete the tarball if we created it *)
      do! (if tarball then Fs.unlink file_to_upload else ret tt) in
      (* Update the provenance *)
      let! rule_hashes := lift (Py.setitem rule_hashes rule_name
                                  (JStr (PosixPath.name file))) in
      let! metadata := lift (Py.setitem metadata "notes"
                               (JStr (json_dumps E rule_hashes))) in
      let! links := lift (Py.getitem draft "links") in
      let! latest_draft := lift (Py.getitem links "latest_draft") in
      let! r := http (with_token self PUT [latest_draft]
                        (Some (JDict {[ "metadata" := metadata ]}))) in
      let! _ := lift (parse_request E r) in
      ret tt).

(** *** [download_file_from_draft] *)

(** The loop over the files of the draft.  [true]: the method returned
    from inside the loop (name and hash matched); [false]: the loop was
    left, by [break] or at its end. *)
Fixpoint scan_draft (self : Zenodo) (rule_hashes : json) (file rule_name : string)
    (tarball dry_run : bool) (data : list json) : M bool :=
  match data with
  | [] => ret false
  | entry :: rest =>
      let! filename := lift (Py.getitem entry "filename") in
      let! ledger_hash := lift (Py.get rule_hashes rule_name JNone) in
      do! log Debug [JStr "Inspecting candidate file `"; filename;
                     JStr "` with hash `"; ledger_hash; JStr "`..."] in
      if Py.eq_str filename rule_name
         && Py.eq_str ledger_hash (PosixPath.name file) then
        (* Download it *)
        do! log Debug [JStr "File name and hash both match."] in
        do! (if negb dry_run then
               do! log Debug [JStr "Downloading..."] in
               let! links := lift (Py.getitem entry "links") in
               let! download := lift (Py.getitem links "download") in
               let progress_bar := negb (github_actions E) in
               do! try_except
                 (curl_download true
                    [download; JStr "?access_token="; token self]
                    progress_bar file)
                 (fun _ => raise ZenodoDownloadError) in
               (* If it's a directory tarball, extract it *)
               if tarball then extract_tarball file else ret tt
             else ret tt) in
        ret true
      else if Py.eq_str filename rule_name then
        (* We're done with this deposit *)
        do! log Debug [JStr ("File " ++ rule_name
                             ++ " found, but it has the wrong hash. Skipping...")] in
        ret false
      else
        (* Keep looking in this deposit for a file with the right name *)
        do! log Debug [JStr "Cache miss for file "; filename; JStr ". Skipping..."] in
        scan_draft self rule_hashes file rule_name tarball dry_run rest
  end.

Definition download_file_from_draft (self : Zenodo) (draft : json)
    (file rule_name : string) (tarball dry_run : bool) : M unit :=
  require_access_token self (
    (* Get rule hashes for the files currently on Zenodo *)
    let! metadata := lift (Py.getitem draft "metadata") in
    let! rule_hashes := lift (get_rule_hashes metadata) in
    (* Get the files currently on the remote *)
    let! links := lift (Py.getitem draft "links") in
    let! files_url := lift (Py.getitem links "files") in
    let! r := http (with_token self GET [files_url] None) in
    let! data := lift (parse_request E r) in
    (* Look for a match *)
    do! log Debug [JStr ("Searching for file `" ++ rule_name ++ "` with hash `"
                         ++ PosixPath.name file ++ "`...")] in
    let! entries := lift (Py.iter data) in
    let! returned := scan_draft self rule_hashes file rule_name tarball dry_run
                       entries in
    if returned then ret tt
    else
      (* This is caught in the enclosing scope and treated as a cache miss *)
      raise (FileNotFoundOnZenodo rule_name)).

(** *** [download_file_from_record] *)

Fixpoint scan_record (rule_hashes : json) (file rule_name : string)
    (tarball dry_run : bool) (entries : list json) : M bool :=
  match entries with
  | [] => ret false
  | entry :: rest =>
      let! key := lift (Py.getitem entry "key") in
      let! matched :=
        if Py.eq_str key rule_name then
          let! ledger_hash := lift (Py.get rule_hashes rule_name JNone) in
          ret (Py.eq_str ledger_hash (PosixPath.name file))
        else ret false in
      if matched then
        (* Download it *)
        do! log Debug [JStr "File name and hash both match."] in
        do! (if negb dry_run then
               do! log Debug [JStr "Downloading..."] in
               let! links := lift (Py.getitem entry "links") in
               let! self_link := lift (Py.getitem links "self") in
               let progress_bar := negb (github_actions E) in
               do! curl_download false [self_link] progress_bar file in
               (* If it's a directory tarball, extract it *)
               if tarball then extract_tarball file else ret tt
             else ret tt) in
        ret true
      else if Py.eq_str key rule_name then
        do! log Debug [JStr ("File " ++ rule_name
                             ++ " found, but it has the wrong hash. Skipping...")] in
        ret false
      else scan_record rule_hashes file rule_name tarball dry_run rest
  end.

Definition download_file_from_record (self : Zenodo) (record : json)
    (file rule_name : string) (tarball dry_run : bool) : M unit :=
  (* Get rule hashes for the files currently on Zenodo *)
  let! metadata := lift (Py.getitem record "metadata") in
  let! rule_hashes := lift (get_rule_hashes metadata) in
  (* Look for a match *)
  let! listing := lift (Py.getitem record "files") in
  let! entries := lift (Py.iter listing) in
  let! returned := scan_record rule_hashes file rule_name tarball dry_run entries in
  if returned then ret tt
  else
    (* This is caught in the enclosing scope and treated as a cache miss *)
    raise (FileNotFoundOnZenodo rule_name).

(** *** [delete] *)

(** [for data in r.json(): if not data["submitted"]: break] with its
    [else: raise Exception]. *)
Fixpoint first_unsubmitted (versions : list json) : result json :=
  match versions with
  | [] => Err BareException
  | data :: rest =>
      match Py.getitem data "submitted" with
      | inl e => Err e
      | inr submitted =>
          if negb (Py.truthy submitted) then Ok data
          else first_unsubmitted rest
      end
  end.

Definition delete_ (self : Zenodo) : M unit :=
  require_access_token self (
    (* Grab the version id *)
    do! log Info [JStr ("Deleting " ++ service self
                        ++ " deposit with concept DOI " ++ doi self ++ "...")] in
    let! r := http (concept_search self) in
    let! data := try_except
      (let! j := r_json r in
       let! versions := lift (Py.iter j) in
       lift (first_unsubmitted versions))
      (fun _ => raise (ZenodoRecordNotFound (deposit_id self))) in
    let! version_id := lift (Py.getitem data "id") in
    let! r := http (with_token self DELETE
                      [JStr ("https://" ++ url self ++ "/api/deposit/depositions/");
                       version_id] None) in
    let! _ := lift (parse_request E r) in
    log Info [JStr ("Successfully deleted deposit " ++ doi self ++ ".")]).

(** *** [download_file] *)

(** [try: data = r.json()  except: pass  else: logger.debug(data["message"])] *)
Definition debug_message (r : response) : M unit :=
  let! decoded := try_except (let! j := r_json r in ret (Some j))
                             (fun _ => ret None) in
  match decoded with
  | Some data =>
      let! message := lift (Py.getitem data "message") in
      log Debug [message]
  | None => ret tt
  end.

(** [raise exceptions.ZenodoError(status=data.get("status", "unknown"),
    message=data.get("message", "An error occurred ..."))] *)
Definition raise_zenodo_error {A} (self : Zenodo) (data : json) : M A :=
  let! status := lift (Py.get data "status" (JStr "unknown")) in
  let! message := lift (Py.get data "message"
      (JStr ("An error occurred while accessing " ++ service self ++ "."))) in
  raise (ZenodoError status message).

(** The draft: [true] when the file was found there and the method
    returns. *)
Definition search_draft (self : Zenodo) (file rule_name : string)
    (tarball dry_run : bool) : M bool :=
  do! log Debug [JStr ("Attempting to access " ++ service self
                       ++ " deposit with DOI " ++ doi self ++ "...")] in
  let! r := http (concept_search self) in
  if (status_code r <=? 204)%Z then
    let! data := try_except (r_json r) (fun _ => ret (JList [])) in
    let! n := lift (Py.len data) in
    if negb (Nat.eqb n 0) then
      let! data := lift (Py.getitem0 data) in
      let! links := lift (Py.get data "links" (JDict ∅)) in
      let! draft_url := lift (Py.get links "latest_draft" JNone) in
      if Py.truthy draft_url then
        let! r := http (with_token self GET [draft_url] None) in
        if (status_code r <=? 204)%Z then
          try_except
            (let! draft := r_json r in
             do! download_file_from_draft self draft file rule_name tarball dry_run in
             ret true)
            (fun e =>
               match e with
               | FileNotFoundOnZenodo _ =>
                   (* [exceptions.restore_trace()] leaves the world as it is *)
                   do! log Debug [JStr ("File " ++ rule_name
                         ++ " not found in deposit with DOI " ++ doi self ++ ".")] in
                   ret false
               | _ => raise e
               end)
        else
          do! log Debug [JStr "Something went wrong accessing "; draft_url; JStr "."] in
          do! debug_message r in
          ret false
      else ret false
    else
      do! log Debug [JStr ("Failed to access " ++ service self
                           ++ " deposit with DOI " ++ doi self ++ ".")] in
      ret false
  else
    do! log Debug [JStr ("Failed to access " ++ service self
                         ++ " deposit with DOI " ++ doi self ++ ".")] in
    do! debug_message r in
    ret false.

(** [for record in records[::-1]], given the reversed list; a cache miss
    in one record is caught and the loop goes on. *)
Fixpoint search_records (self : Zenodo) (file rule_name : string)
    (tarball dry_run : bool) (records : list json) : M bool :=
  match records with
  | [] => ret false
  | record :: rest =>
      let! found := try_except
        (do! download_file_from_record self record file rule_name tarball dry_run in
         ret true)
        (fun e =>
           match e with
           | FileNotFoundOnZenodo _ =>
               do! log Debug [JStr ("File " ++ rule_name
                     ++ " not found in record with DOI " ++ doi self ++ ".")] in
               ret false
           | _ => raise e
           end) in
      if found then ret true
      else search_records self file rule_name tarball dry_run rest
  end.

(** The double quote character, as text. *)
Definition dquote : string := String (ascii_of_nat 34) EmptyString.

Definition record_probe (self : Zenodo) : request :=
  {| req_method := GET;
     req_url := [JStr ("https://" ++ url self ++ "/api/records/" ++ deposit_id self)];
     req_params := [];
     req_body := None |}.

Definition records_search (self : Zenodo) : request :=
  {| req_method := GET;
     req_url := [JStr ("https://" ++ url self ++ "/api/records")];
     req_params := [("q", JStr ("conceptdoi:" ++ dquote ++ doi_prefix self
                                  ++ deposit_id self ++ dquote));
                    ("access_token", token self);
                    ("all_versions", JInt 1)];
     req_body := None |}.

(** The published records: [true] when the file was found in one. *)
Definition search_published (self : Zenodo) (file rule_name : string)
    (tarball dry_run : bool) : M bool :=
  do! log Debug [JStr ("Attempting to access " ++ service self
                       ++ " record with DOI " ++ doi self ++ "...")] in
  let! r := http (record_probe self) in
  if (status_code r >? 204)%Z then
    let! data := try_except (r_json r) (fun _ => ret (JDict ∅)) in
    let! message := lift (Py.get data "message" (JStr EmptyString)) in
    let! unregistered := lift (Py.contains "PID is not registered" message) in
    if unregistered then
      (* There is no published record with this id *)
      ret false
    else
      (* Something unexpected happened *)
      raise_zenodo_error self data
  else
    (* There's a published record. Let's search all versions for a file
       match. *)
    let! r := http (records_search self) in
    if (status_code r <=? 204)%Z then
      let! records := try_except
        (let! j := r_json r in
         let! hits := lift (Py.get j "hits" (JDict ∅)) in
         lift (Py.get hits "hits" (JList [])))
        (fun _ =>
           do! log Debug [JStr ("File " ++ rule_name
                 ++ " not found in record with DOI " ++ doi self ++ ".")] in
           ret (JList [])) in
      let! reversed := lift (Py.reversed records) in
      let! records := lift (Py.iter reversed) in
      search_records self file rule_name tarball dry_run records
    else
      (* Something unexpected happened *)
      let! data := try_except (r_json r) (fun _ => ret (JDict ∅)) in
      raise_zenodo_error self data.

Definition download_file (self : Zenodo) (file rule_name : string)
    (tarball dry_run : bool) : M unit :=
  (* Check for an existing draft; if found, check for the file in that
     draft and return if found. *)
  let! found := search_draft self file rule_name tarball dry_run in
  if found then ret tt else
  (* Check for a published record *)
  let! found := search_published self file rule_name tarball dry_run in
  if found then ret tt else
  (* This is caught in the enclosing scope and treated as a cache miss *)
  raise (FileNotFoundOnZenodo (PosixPath.name file)).

(** *** [upload_file] *)

Definition upload_file (self : Zenodo) (file rule_name : string)
    (tarball : bool) : M unit :=
  require_access_token self (
    (* Check if a draft already exists, and create it if not.
       If authentication fails, return with a gentle warning *)
    let! r := http (concept_search self) in
    if (status_code r >? 204)%Z then
      do! log Warning [JStr (service self
            ++ " authentication failed. Unable to upload cache for rule "
            ++ rule_name ++ ".")] in
      debug_message r
    else
      let! data := try_except (r_json r) (fun _ => ret (JList [])) in
      let! n := lift (Py.len data) in
      if Nat.eqb n 0 then
        do! log Warning [JStr (service self
              ++ " authentication failed. Unable to upload cache for rule "
              ++ rule_name ++ ".")] in
        ret tt
      else
        let! data := lift (Py.getitem0 data) in
        let! links := lift (Py.get data "links" (JDict ∅)) in
        let! draft_url := lift (Py.get links "latest_draft" JNone) in
        let! draft_url :=
          if negb (Py.truthy draft_url) then
            let! submitted := lift (Py.getitem data "submitted") in
            if negb (Py.truthy submitted) then
              let! links := lift (Py.getitem data "links") in
              lift (Py.getitem links "self")
            else ret draft_url
          else ret draft_url in
        let! draft :=
          if Py.truthy draft_url then
            (* Draft exists *)
            let! r := http (with_token self GET [draft_url] None) in
            lift (parse_request E r)
          else
            (* Create a new draft *)
            let! id := lift (Py.getitem data "id") in
            let! r := http (with_token self POST
                [JStr ("https://" ++ url self ++ "/api/deposit/depositions/"); id;
                 JStr "/actions/newversion"] None) in
            let! data := lift (parse_request E r) in
            let! links := lift (Py.getitem data "links") in
            let! draft_url := lift (Py.getitem links "latest_draft") in
            let! r := http (with_token self GET [draft_url] None) in
            lift (parse_request E r) in
        upload_file_to_draft self draft file rule_name tarball).

End Methods.

(** ** A concrete deposit for the examples *)

Module Demo.

Definition self : Zenodo :=
  {| doi := "10.5072/zenodo.1234";
     doi_prefix := "10.5072/zenodo.";
     deposit_id := "1234";
     url := "sandbox.zenodo.org";
     token_name := "SANDBOX_TOKEN";
     access_token := Some "s3cr3t";
     service := "Zenodo Sandbox" |}.

Definition anonymous : Zenodo :=
  {| doi := "10.5072/zenodo.1234";
     doi_prefix := "10.5072/zenodo.";
     deposit_id := "1234";
     url := "sandbox.zenodo.org";
     token_name := "SANDBOX_TOKEN";
     access_token := None;
     service := "Zenodo Sandbox" |}.

(** The notes of a deposit that caches [a.csv] for rule [make_data]. *)
Definition ledger_text : string :=
  "{" ++ dquote ++ "make_data" ++ dquote ++ ": "
      ++ dquote ++ "a.csv" ++ dquote ++ "}".

(** [json.loads] on the three texts the examples use: the empty object,
    [ledger_text], and a text that is not JSON. *)
Definition loads (s : string) : option json :=
  if String.eqb s "{}" then Some (JDict ∅)
  else if String.eqb s ledger_text then Some (JDict {[ "make_data" := JStr "a.csv" ]})
  else None.

(** [json.dumps] on the two ledgers of the examples. *)
Definition dumps (v : json) : string :=
  match v with
  | JDict m => if bool_decide (m = ∅) then "{}" else ledger_text
  | _ => "null"
  end.

Definition ok (j : json) : response :=
  {| status_code := 200; body := Some j; text := EmptyString |}.

Definition failure (code : Z) (message : string) : response :=
  {| status_code := code;
     body := Some (JDict {[ "message" := JStr message; "status" := JInt code ]});
     text := message |}.

(** Modelled from the spec: [parse_request] of [showyourwork/subproc.py],
    which is not among the sources.  A response with status at most 204
    is a success and yields its decoded body; anything else is an API
    failure whose message is taken from the [message] field of the body. *)
Definition parse_request_spec (r : response) : result json :=
  if (status_code r <=? 204)%Z then
    match body r with Some j => Ok j | None => Err JSONDecodeError end
  else
    match body r with
    | Some (JDict d) =>
        Err (ZenodoError (default JNone (d !! "status"))
                         (default JNone (d !! "message")))
    | _ => Err (ZenodoError JNone (JStr (text r)))
    end.

Definition env_with (remote : list net_event → request → result response)
    (curl : list net_event → curl_call → result (option content)) : env :=
  {| remote := remote;
     curl := curl;
     parse_request := parse_request_spec;
     json_loads := loads;
     json_dumps := dumps;
     get_run_type := "build";
     github_actions := true;
     flags := "/home/u/.showyourwork/flags";
     getcwd := "/home/u/paper";
     tar_add := fun _ _ => Ok [] |}.

(** A service that answers by URL, whatever came before; a URL built from
    several pieces (the action on one version or file) is accepted. *)
Definition answers (table : list (string * response))
    : list net_event → request → result response :=
  fun _ rq =>
    match req_url rq with
    | [JStr u] =>
        match List.find (fun row => String.eqb row.1 u) table with
        | Some row => Ok row.2
        | None => Ok (failure 404 "PID is not registered")
        end
    | _ => Ok (ok (JDict ∅))
    end.

(** A [curl] that always fetches the same bytes. *)
Definition fetches (c : content) : list net_event → curl_call → result (option content) :=
  fun _ _ => Ok (Some c).

Definition offline : env :=
  env_with (fun _ _ => Err (TransportError "ConnectionError"))
           (fun _ _ => Err (TransportError "curl")).

Definition nothing : world := {| net := []; logs := []; files := ∅ |}.

(** The file of rule [make_data] as a draft lists it, and as a published
    record of version [v] lists it. *)
Definition draft_entry : json :=
  JDict {[ "filename" := JStr "make_data";
           "id" := JStr "f1";
           "links" := JDict {[ "download" :=
                       JStr "https://sandbox.zenodo.org/draft/make_data" ]} ]}.

Definition record_entry (v : string) : json :=
  JDict {[ "key" := JStr "make_data";
           "links" := JDict {[ "self" :=
                       JStr ("https://sandbox.zenodo.org/" ++ v ++ "/make_data") ]} ]}.

Definition draft_url : string := "https://sandbox.zenodo.org/draft".

Definition files_request : string := "https://sandbox.zenodo.org/files".

Definition depositions_request : string :=
  "https://sandbox.zenodo.org/api/deposit/depositions".

Definition metadata_with (notes : option string) : gmap string json :=
  match notes with
  | Some s => {[ "title" := JStr "Data"; "notes" := JStr s ]}
  | None => {[ "title" := JStr "Data" ]}
  end.

(** A deposit version: a draft, or a published record with its files. *)
Definition version_with (notes : option string) (listing : list json)
    : gmap string json :=
  {[ "metadata" := JDict (metadata_with notes);
     "files" := JList listing;
     "links" := JDict {[ "files" := JStr files_request;
                         "bucket" := JStr "https://sandbox.zenodo.org/bucket";
                         "latest_draft" := JStr draft_url ]} ]}.

(** The newest deposition of the concept, with the link to its draft. *)
Definition newest : gmap string json :=
  {[ "id" := JInt 1236;
     "submitted" := JBool true;
     "links" := JDict {[ "latest_draft" := JStr draft_url ]} ]}.

(** The answer of the records search. *)
Definition hits (records : list json) : json :=
  JDict {[ "hits" := JDict {[ "hits" := JList records ]} ]}.

(** The sandbox with a draft whose notes are [notes] and which lists the
    file of [make_data], and with the published [records], as the search
    lists them. *)
Definition sandbox (notes : option string) (records : list json)
    : list net_event → request → result response :=
  answers
    [(depositions_request, ok (JList [JDict newest]));
     (draft_url, ok (JDict (version_with notes [])));
     (files_request, ok (JList [draft_entry]));
     ("https://sandbox.zenodo.org/api/records/1234", ok (JDict ∅));
     ("https://sandbox.zenodo.org/api/records", ok (hits records))].

End Demo.

(** ** Vocabulary of the properties *)

(** Only the log differs between two worlds: nothing was sent and no local
    file was touched. *)
Definition quiet (w w' : world) : Prop :=
  net w' = net w ∧ files w' = files w.

(** The hash the ledger of a draft or record holds for a rule is not the
    name of the local file (possibly because it holds none). *)
Definition stale (rule_hashes : json) (file rule_name : string) : Prop :=
  ∃ h, Py.get rule_hashes rule_name JNone = inr h
       ∧ Py.eq_str h (PosixPath.name file) = false.

(** Every entry of a listing carries the field the scan reads. *)
Definition listed (key : string) (entries : list json) : Prop :=
  Forall (fun entry => ∃ v, Py.getitem entry key = inr v) entries.

(** A deposition that is published, and one that is not (a draft). *)
Definition submitted (version : json) : Prop :=
  ∃ flag, Py.getitem version "submitted" = inr flag ∧ Py.truthy flag = true.

Definition unsubmitted (version : json) : Prop :=
  ∃ flag, Py.getitem version "submitted" = inr flag ∧ Py.truthy flag = false.

(** The request that deletes one version of the deposit. *)
Definition delete_request (self : Zenodo) (version_id : json) : request :=
  with_token self DELETE
    [JStr ("https://" ++ url self ++ "/api/deposit/depositions/"); version_id] None.

(** The body of an answer with a status above 204, as [download_file] reads
    it: the decoded object ([{}] when the body does not decode) and the text
    of its [message]. *)
Definition error_fields (r : response) : gmap string json :=
  match body r with Some (JDict d) => d | _ => ∅ end.

Definition error_message (r : response) : string :=
  match error_fields r !! "message" with Some (JStr m) => m | _ => EmptyString end.

(** The body does not decode, or is an object whose [message], if any, is
    text. *)
Definition error_shaped (r : response) : Prop :=
  match body r with
  | None => True
  | Some (JDict d) =>
      match d !! "message" with
      | None | Some (JStr _) => True
      | Some _ => False
      end
  | Some _ => False
  end.

(** The service says that no record is registered under the identifier. *)
Definition unregistered (r : response) : bool :=
  Py.substring_of "PID is not registered" (error_message r).

(** [target] is the directory [root] or lies below it (both absolute and
    normalised): what staying within the extraction root means. *)
Definition below (root target : string) : bool :=
  String.eqb target root || String.prefix (root ++ "/") target.

(** An entry of a file listing carries the rule name under [key]
    ([filename] in a draft, [key] in a record), or another name. *)
Definition named (key rule_name : string) (entry : json) : Prop :=
  Py.getitem entry key = inr (JStr rule_name).

Definition other (key rule_name : string) (entry : json) : Prop :=
  ∃ v, Py.getitem entry key = inr v ∧ Py.eq_str v rule_name = false.

(** The ledger holds the name of the local file for the rule. *)
Definition fresh (rule_hashes : json) (file rule_name : string) : Prop :=
  Py.get rule_hashes rule_name JNone = inr (JStr (PosixPath.name file)).

(** A version (draft with [key = "filename"], [link = "download"]; record
    with [key = "key"], [link = "self"]) whose ledger and listing [entries]
    match the rule and the local file; [u] is the link of the first entry
    under the rule name. *)
Definition holds (E : env) (key link : string) (version : json)
    (entries : list json) (file rule_name : string) (u : json) : Prop :=
  ∃ metadata rule_hashes pre entry post (links : gmap string json),
    Py.getitem version "metadata" = inr metadata
    ∧ get_rule_hashes E metadata = inr rule_hashes
    ∧ fresh rule_hashes file rule_name
    ∧ entries = (pre ++ entry :: post)%list
    ∧ Forall (other key rule_name) pre
    ∧ named key rule_name entry
    ∧ Py.getitem entry "links" = inr (JDict links)
    ∧ links !! link = Some u.

(** A version whose listing has an entry under the rule name while its
    ledger holds another hash for the rule, or none.  Nothing is asked of
    the entries after that one. *)
Definition outdated (E : env) (key : string) (version : json)
    (entries : list json) (file rule_name : string) : Prop :=
  ∃ metadata rule_hashes pre entry post,
    Py.getitem version "metadata" = inr metadata
    ∧ get_rule_hashes E metadata = inr rule_hashes
    ∧ stale rule_hashes file rule_name
    ∧ entries = (pre ++ entry :: post)%list
    ∧ Forall (other key rule_name) pre
    ∧ named key rule_name entry.

(** A version that lists no file under the rule name. *)
Definition lacks (E : env) (key : string) (version : json)
    (entries : list json) (rule_name : string) : Prop :=
  ∃ metadata rule_hashes,
    Py.getitem version "metadata" = inr metadata
    ∧ get_rule_hashes E metadata = inr rule_hashes
    ∧ Forall (other key rule_name) entries.

(** The listing of a published record. *)
Definition record_files (record : json) (entries : list json) : Prop :=
  Py.getitem record "files" = inr (JList entries).

(** A published record in which the search finds nothing. *)
Definition misses (E : env) (record : json) (file rule_name : string) : Prop :=
  ∃ entries, record_files record entries
             ∧ (outdated E "key" record entries file rule_name
                ∨ lacks E "key" record entries rule_name).

(** A published record that holds the file, at link [u]. *)
Definition matches (E : env) (record : json) (file rule_name : string)
    (u : json) : Prop :=
  ∃ entries, record_files record entries
             ∧ holds E "key" "self" record entries file rule_name u.

(** The download from a record: one run of [curl] on the link of the
    entry, without the access token. *)
Definition record_download (E : env) (file : string) (u : json) : curl_call :=
  CurlDownload false [u] (negb (github_actions E)) file.

(** The request for the latest draft, and for its file listing. *)
Definition draft_request (self : Zenodo) (draft_url : json) : request :=
  with_token self GET [draft_url] None.

Definition listing_request (self : Zenodo) (files_url : json) : request :=
  with_token self GET [files_url] None.

(** The download from a draft: one run of [curl -f] on the link of the
    entry, with the access token. *)
Definition draft_download (E : env) (self : Zenodo) (file : string) (u : json)
    : curl_call :=
  CurlDownload true [u; JStr "?access_token="; token self]
    (negb (github_actions E)) file.

(** From the exchange [sent] on, the service answers the search of the
    concept with a list whose first deposition links to a latest draft at
    [draft_url], and the request for that draft with [draft]. *)
Definition serves_draft (E : env) (self : Zenodo) (sent : list net_event)
    (draft_url draft : json) : Prop :=
  ∃ r (first links : gmap string json) versions r',
    remote E sent (concept_search self) = inr r
    ∧ (status_code r <= 204)%Z
    ∧ body r = Some (JList (JDict first :: versions))
    ∧ first !! "links" = Some (JDict links)
    ∧ links !! "latest_draft" = Some draft_url
    ∧ Py.truthy draft_url = true
    ∧ remote E (sent ++ [Http (concept_search self)]) (draft_request self draft_url)
      = inr r'
    ∧ (status_code r' <= 204)%Z
    ∧ body r' = Some draft.

(** From the exchange [sent] on, the file listing of [draft], at
    [files_url], is answered with [entries]. *)
Definition serves_listing (E : env) (self : Zenodo) (sent : list net_event)
    (draft files_url : json) (entries : list json) : Prop :=
  ∃ links r,
    Py.getitem draft "links" = inr links
    ∧ Py.getitem links "files" = inr files_url
    ∧ remote E sent (listing_request self files_url) = inr r
    ∧ parse_request E r = inr (JList entries).

(** From the exchange [sent] on, the probe for a published record succeeds
    and the search lists [records], in the order of the answer. *)
Definition serves_records (E : env) (self : Zenodo) (sent : list net_event)
    (records : list json) : Prop :=
  ∃ rp rs (top hits : gmap string json),
    remote E sent (record_probe self) = inr rp
    ∧ (status_code rp <= 204)%Z
    ∧ remote E (sent ++ [Http (record_probe self)]) (records_search self) = inr rs
    ∧ (status_code rs <= 204)%Z
    ∧ body rs = Some (JDict top)
    ∧ top !! "hits" = Some (JDict hits)
    ∧ hits !! "hits" = Some (JList records).

(** The line [download_file_from_record] logs when it gives a record up. *)
Definition wrong_hash_line (rule_name : string) : level * fstring :=
  (Debug, [JStr ("File " ++ rule_name
                 ++ " found, but it has the wrong hash. Skipping...")]).

(** ** [publish] *)

Section Publish.

Context (E : env).

(** The request that publishes one version of the deposit. *)
Definition publish_request (self : Zenodo) (version_id : json) : request :=
  with_token self POST
    [JStr ("https://" ++ url self ++ "/api/deposit/depositions/"); version_id;
     JStr "/actions/publish"] None.

Definition publish (self : Zenodo) : M unit :=
  require_access_token self (
    (* Grab the version id *)
    do! log Info [JStr ("Publishing " ++ service self
                        ++ " deposit with concept DOI " ++ doi self ++ "...")] in
    let! r := http E (concept_search self) in
    let! data := try_except
      (let! j := r_json r in
       let! versions := lift (Py.iter j) in
       lift (first_unsubmitted versions))
      (fun _ => raise (ZenodoRecordNotFound (deposit_id self))) in
    let! version_id := lift (Py.getitem data "id") in
    let! r := http E (with_token self POST
                        [JStr ("https://" ++ url self ++ "/api/deposit/depositions/");
                         version_id; JStr "/actions/publish"] None) in
    let! _ := lift (parse_request E r) in
    log Info [JStr ("Successfully published deposit " ++ doi self ++ ".")]).

End Publish.

(** ** What a run may do

    A method [m] obeys [R] and [Q] when every run of it, from any world,
    leaves a world related to the first by [R] and, if it returns, returns a
    value in [Q]. *)

Definition obeys {A} (R : relation world) (Q : A → Prop) (m : M A) : Prop :=
  ∀ w, R w (m w).2 ∧ ∀ a, (m w).1 = inr a → Q a.

(** The exchange has grown by events that all satisfy [P]. *)
Definition sent_only (P : net_event → Prop) : relation world :=
  fun w w' => ∃ events, net w' = (net w ++ events)%list ∧ Forall P events.

(** A request that only reads: a [GET]. *)
Definition reads (e : net_event) : Prop :=
  ∃ rq, e = Http rq ∧ req_method rq = GET.

(** Nothing but [GET] requests went out and no local file changed. *)
Definition looked_only : relation world :=
  fun w w' => sent_only reads w w' ∧ files w' = files w.

(** Nothing went out that changes the deposit. *)
Definition left_remote : relation world :=
  sent_only (fun e => mutates e = false).

(** Nothing local changed. *)
Definition same_files : relation world :=
  fun w w' => files w' = files w.

(** What a relation has to allow for the primitives to obey it. *)
Definition allows_log (R : relation world) : Prop :=
  ∀ w lg, R w {| net := net w; logs := lg; files := files w |}.

Definition allows_files (R : relation world) : Prop :=
  ∀ w fs, R w {| net := net w; logs := logs w; files := fs |}.

Definition allows (R : relation world) (e : net_event) : Prop :=
  ∀ w, R w {| net := net w ++ [e]; logs := logs w; files := files w |}.

(** No constraint on the world. *)
Definition any_world : relation world := fun _ _ => True.

(** ** The two requests that end an upload *)

(** The [curl] run that sends the file to the bucket of the draft. *)
Definition upload_call (E : env) (self : Zenodo) (file_to_upload : string)
    (bucket_url : json) (rule_name : string) : curl_call :=
  CurlUpload file_to_upload
    [bucket_url; JStr ("/" ++ rule_name ++ "?access_token="); token self]
    (negb (github_actions E)).

(** The request that writes the metadata, with the ledger in its notes. *)
Definition ledger_update (self : Zenodo) (latest_draft metadata : json) : request :=
  with_token self PUT [latest_draft] (Some (JDict {[ "metadata" := metadata ]})).

(** What was sent from [w] to [w']. *)
Definition sent_between (w w' : world) (events : list net_event) : Prop :=
  net w' = (net w ++ events)%list.

(** The request that opens a new version of the deposit. *)
Definition new_version_request (self : Zenodo) (id : json) : request :=
  with_token self POST
    [JStr ("https://" ++ url self ++ "/api/deposit/depositions/"); id;
     JStr "/actions/newversion"] None.

(** A POST request. *)
Definition posts (e : net_event) : Prop :=
  ∃ rq, e = Http rq ∧ req_method rq = POST.


(** ** The constructor and the functions around it

    [__init__], [_create], [get_id_type], [get_dataset_dois] and
    [get_dataset_urls] read the process environment, the repository and the
    local directories, and raise two exceptions the methods above do not. *)

Inductive error : Type :=
| Exn (e : exn)                     (* an exception of the methods above *)
| InvalidZenodoDOI (doi : string)   (* [exceptions.InvalidZenodoDOI(doi)] *)
| ValueError.                       (* of [int], of a file that is no text *)

Definition N (A : Type) : Type := world → (error + A) * world.

Definition retN {A} (a : A) : N A := fun w => (inr a, w).
Definition raiseN {A} (e : error) : N A := fun w => (inl e, w).
Definition bindN {A B} (m : N A) (k : A → N B) : N B :=
  fun w => match m w with
           | (inr a, w') => k a w'
           | (inl e, w') => (inl e, w')
           end.
Definition liftN {A} (r : error + A) : N A := fun w => (r, w).

(** A method above, run here. *)
Definition up {A} (m : M A) : N A :=
  fun w => match m w with
           | (inr a, w') => (inr a, w')
           | (inl e, w') => (inl (Exn e), w')
           end.

Notation "'let!!' x ':=' m 'in' k" := (bindN m (fun x => k))
  (at level 10, x pattern, m at level 200, k at level 200).
Notation "'do!!' m 'in' k" := (bindN m (fun _ => k))
  (at level 10, m at level 200, k at level 200).

(** Methods of [str] *)
Module Str.

Definition lower_char (c : ascii) : ascii :=
  let n := nat_of_ascii c in
  if (65 <=? n)%nat && (n <=? 90)%nat then ascii_of_nat (n + 32) else c.

(** [s.lower()] on the letters of ASCII.  (Of the characters beyond ASCII,
    [str.lower] maps two to a text with an ASCII letter in it, [k] and [i];
    neither letter occurs in the name of a service.) *)
Fixpoint lower (s : string) : string :=
  match s with
  | EmptyString => EmptyString
  | String c rest => String (lower_char c) (lower rest)
  end.

(** The loop of [s.split(sep)]: [piece] is the text since the last
    separator, [skip] what is left to pass of a separator just met. *)
Fixpoint split_from (sep : string) (skip : nat) (piece s : string) : list string :=
  match s with
  | EmptyString => [piece]
  | String c rest =>
      match skip with
      | S skip' => split_from sep skip' piece rest
      | O =>
          if String.prefix sep s
          then piece :: split_from sep (String.length sep - 1) EmptyString rest
          else split_from sep 0 (piece ++ String c EmptyString) rest
      end
  end.

(** [s.split(sep)], for a separator that is not empty. *)
Definition split (s sep : string) : list string :=
  split_from sep 0 EmptyString s.

Definition newline : string := String (ascii_of_nat 10) EmptyString.

(** [line.replace("\n", "")] *)
Fixpoint without_newlines (s : string) : string :=
  match s with
  | EmptyString => EmptyString
  | String c rest =>
      if Ascii.eqb c (ascii_of_nat 10) then without_newlines rest
      else String c (without_newlines rest)
  end.

(** [f.readline()] at the start of a file opened as text: the first line
    with its end, which reads as a newline whether the file has a line
    feed, a carriage return or both there. *)
Fixpoint readline (data : string) : string :=
  match data with
  | EmptyString => EmptyString
  | String c rest =>
      if Ascii.eqb c (ascii_of_nat 10) || Ascii.eqb c (ascii_of_nat 13)
      then newline
      else String c (readline rest)
  end.

End Str.

(** What the process environment, the repository and the interpreter
    answer. *)
Record host : Type := {
  (* [os.getenv(name, None)] *)
  getenv : string → option string;
  (* [paths.user().zenodo] and [paths.user().sandbox] *)
  zenodo_path : string;
  sandbox_path : string;
  (* [git.get_repo_branch()], [git.get_repo_slug()] *)
  get_repo_branch : result string;
  get_repo_slug : result string;
  (* [str(e)] *)
  str_exn : exn → string;
  (* the text of a value in an f-string *)
  format : json → string;
  (* [int(x)] *)
  py_int : json → error + Z;
  (* [Path(path).mkdir(exist_ok=True)] *)
  mkdir : string → result unit
}.

(** An entry of [services]. *)
Record service_entry : Type := {
  entry_url : string;
  entry_doi_prefix : string;
  entry_token_name : string;
  entry_path : unit → string;     (* a [lambda] *)
  entry_name : string
}.

(** The object [__init__] leaves: the attributes the methods above read,
    [path] and [user_is_owner]. *)
Record instance : Type := {
  this : Zenodo;
  path : unit → string;
  user_is_owner : bool
}.

(** An entry of the [datasets] of the configuration. *)
Record dataset : Type := {
  contents : list (string * string);
  zip_files : list (string * list (string * string))
}.

Section Construction.

Context (E : env) (sys : host).

(** The dictionary [services], in the order it is written. *)
Definition services : list (string * service_entry) :=
  [("zenodo",
    {| entry_url := "zenodo.org";
       entry_doi_prefix := "10.5281/zenodo.";
       entry_token_name := "ZENODO_TOKEN";
       entry_path := fun _ => zenodo_path sys;
       entry_name := "Zenodo" |});
   ("sandbox",
    {| entry_url := "sandbox.zenodo.org";
       entry_doi_prefix := "10.5072/zenodo.";
       entry_token_name := "SANDBOX_TOKEN";
       entry_path := fun _ => sandbox_path sys;
       entry_name := "Zenodo Sandbox" |})].

(** [services[key]] *)
Definition services_getitem (key : string) : result service_entry :=
  match List.find (fun row => String.eqb row.1 key) services with
  | Some row => Ok row.2
  | None => Err (KeyError key)
  end.

(** [self._get_access_token()] *)
Definition _get_access_token (token_name : string) : option string :=
  getenv sys token_name.

Definition description : string :=
  "Data automatically uploaded by the <code>showyourwork</code> workflow. "
  ++ "Each of the files in this deposit were generated from a user-defined "
  ++ "<code>Snakemake</code> rule with the same name and hash specified "
  ++ "below. Please visit "
  ++ "<a href='https://github.com/showyourwork'>github.com/showyourwork</a> "
  ++ "and/or the article source repository for more information.".

(** The minimal metadata of a new draft. *)
Definition minimal_metadata (title : string) : json :=
  JDict {[ "metadata" :=
    JDict {[ "title" := JStr title;
             "upload_type" := JStr "dataset";
             "description" := JStr description;
             "creators" := JList [JDict {[ "name" := JStr "showyourwork" ]}];
             "notes" := JStr "{}" ]} ]}.

Definition create_request (self : Zenodo) : request :=
  with_token self POST [JStr ("https://" ++ url self ++ "/api/deposit/depositions")]
    (Some (JDict ∅)).

(** [self._create(slug, branch)].  It reads [service], [url],
    [access_token] and [doi_prefix] of [self]; [doi] and [deposit_id] are
    not set yet when it runs. *)
Definition _create (self : Zenodo) (slug branch : option string) : M string :=
  do! log Info [JStr ("Creating a draft deposit on " ++ service self ++ "...")] in
  (* Get the deposit title *)
  let! branch := match branch with
                 | None => lift (get_repo_branch sys)
                 | Some branch => ret branch
                 end in
  let! slug := match slug with
               | None => lift (get_repo_slug sys)
               | Some slug => ret slug
               end in
  let title := "Data for " ++ slug ++ " [" ++ branch ++ "]" in
  (* Create the draft *)
  let! r := http E (create_request self) in
  let! data := lift (parse_request E r) in
  (* Add some minimal metadata *)
  let metadata := minimal_metadata title in
  let! links := lift (Py.getitem data "links") in
  let! latest_draft := lift (Py.getitem links "latest_draft") in
  let! r := http E (with_token self PUT [latest_draft] (Some metadata)) in
  let! data := lift (parse_request E r) in
  let! conceptrecid := lift (Py.getitem data "conceptrecid") in
  let doi := doi_prefix self ++ format sys conceptrecid in
  do! log Info [JStr ("Created draft with concept DOI " ++ doi ++ " on "
                      ++ service self ++ ".")] in
  ret doi.

(** [self.doi.split(self.doi_prefix)[1]] *)
Definition after_prefix (doi prefix : string) : result string :=
  match Str.split doi prefix with
  | _ :: id :: _ => Ok id
  | _ => Err IndexError
  end.

(** The attributes [__init__] copies from an entry of [services]. *)
Definition attributes (entry : service_entry) (doi deposit_id : string) : Zenodo :=
  {| doi := doi;
     doi_prefix := entry_doi_prefix entry;
     deposit_id := deposit_id;
     url := entry_url entry;
     token_name := entry_token_name entry;
     access_token := _get_access_token (entry_token_name entry);
     service := entry_name entry |}.

(** [Zenodo(doi_or_service, slug=..., branch=...)] *)
Definition __init__ (doi_or_service : string) (slug branch : option string)
    : N instance :=
  (* Parse input *)
  if existsb (String.eqb (Str.lower doi_or_service)) services.*1 then
    (* Create a new draft on the given service *)
    let!! entry := up (lift (services_getitem doi_or_service)) in
    let!! doi := up (_create (attributes entry EmptyString EmptyString) slug branch) in
    let!! deposit_id := up (lift (after_prefix doi (entry_doi_prefix entry))) in
    retN {| this := attributes entry doi deposit_id;
            path := entry_path entry;
            user_is_owner := true |}
  else
    (* Parse the DOI *)
    let doi := doi_or_service in
    match List.find (fun entry => String.prefix (entry_doi_prefix entry) doi)
                    services.*2 with
    | None => raiseN (InvalidZenodoDOI doi)
    | Some entry =>
        match after_prefix doi (entry_doi_prefix entry) with
        | inl _ => raiseN (InvalidZenodoDOI doi)
        | inr deposit_id =>
            let self := attributes entry doi deposit_id in
            (* Check if the user is an owner *)
            let!! owner := up (try_except (check_if_user_is_owner E self)
              (fun e =>
                 (* Fail silently on connection errors *)
                 do! log Debug [JStr ("Error accessing the " ++ url self ++ " API:")] in
                 do! log Debug [JStr (str_exn sys e)] in
                 ret false)) in
            retN {| this := self; path := entry_path entry; user_is_owner := owner |}
        end
    end.

(** *** [get_id_type] *)

Definition id_type_file (self : instance) : string :=
  path self tt ++ "/" ++ deposit_id (this self) ++ "/id_type.txt".

(** [open(cache_file, "r")] and [f.readline()].  A file that is no text (an
    archive) cannot be decoded: [UnicodeDecodeError], a [ValueError]. *)
Definition read_first_line (file : string) : N string :=
  fun w => match files w !! file with
           | Some (Blob data) => (inr (Str.readline data), w)
           | Some (Tarball _) => (inl ValueError, w)
           | None => (inl (Exn (OSError file)), w)
           end.

(** [if int(self.deposit_id) == int(data["conceptrecid"]) ... elif ...] *)
Definition classify (self : instance) (data : json) : N string :=
  let!! id := liftN (py_int sys (JStr (deposit_id (this self)))) in
  let!! conceptrecid := up (lift (Py.getitem data "conceptrecid")) in
  let!! concept := liftN (py_int sys conceptrecid) in
  if Z.eqb id concept then retN "concept"
  else
    let!! id := liftN (py_int sys (JStr (deposit_id (this self)))) in
    let!! version_id := up (lift (Py.getitem data "id")) in
    let!! version := liftN (py_int sys version_id) in
    if Z.eqb id version then retN "version" else retN "unknown".

Definition get_id_type (self : instance) : N string :=
  let cache_file := id_type_file self in
  let!! cached := up (Fs.exists_ cache_file) in
  if cached then
    (* Restore from cache *)
    let!! line := read_first_line cache_file in
    retN (Str.without_newlines line)
  else
    (* Try to find a published record (no authentication needed) *)
    let!! answer := up (try_except
      (let! r := http E (record_probe (this self)) in
       let! data := r_json r in
       ret (Some (r, data)))
      (fun _ => ret None)) in
    match answer with
    | None =>
        (* Either is private or doesn't exist.
           In any event, don't cache it, as this could change. *)
        retN "unknown"
    | Some (r, data) =>
        if (status_code r >? 204)%Z then retN "unknown"
        else
          (* This is a public record *)
          let!! id_type := classify self data in
          (* Cache it *)
          do!! up (lift (mkdir sys (path self tt ++ "/" ++ deposit_id (this self)))) in
          (* [print(id_type, file=f)] *)
          do!! up (set_files (fun fs =>
                     <[cache_file := Blob (id_type ++ Str.newline)]> fs)) in
          retN id_type
    end.

(** *** [get_dataset_dois] and [get_dataset_urls] *)

(** [file in d.values()] *)
Definition in_values (file : string) (d : list (string * string)) : bool :=
  existsb (String.eqb file) d.*2.

(** The loop over the zip files of a dataset, left at the first that holds
    the file: whether there is one. *)
Fixpoint in_zip_files (file : string)
    (zips : list (string * list (string * string))) : bool :=
  match zips with
  | [] => false
  | zip_file :: rest =>
      if in_values file zip_file.2 then true   (* append; break *)
      else in_zip_files file rest
  end.

(** The loop over [files] for one dataset: what it appends to [result]. *)
Fixpoint appended (label : string) (entry : dataset) (files : list string)
    : list string :=
  match files with
  | [] => []
  | file :: rest =>
      if in_values file (contents entry) then label :: appended label entry rest
      else if in_zip_files file (zip_files entry)
           then label :: appended label entry rest
           else appended label entry rest
  end.

(** [for doi in datasets] of [get_dataset_dois], with [result] so far. *)
Fixpoint get_dataset_dois_loop (files : list string)
    (datasets : list (string * dataset)) (result : list string)
    : N (list string) :=
  match datasets with
  | [] => retN result
  | (doi, entry) :: rest =>
      let!! deposit := __init__ doi None None in
      get_dataset_dois_loop files rest (result ++ appended doi entry files)%list
  end.

(** [list(set(result))]: each element once, in no order one can rely on. *)
Definition list_set (result : list string) : list string :=
  elements (list_to_set result : gset string).

Definition get_dataset_dois (files : list string)
    (datasets : list (string * dataset)) : N (list string) :=
  let!! result := get_dataset_dois_loop files datasets [] in
  retN (list_set result).

Definition record_url (deposit : instance) : string :=
  "https://" ++ url (this deposit) ++ "/record/" ++ deposit_id (this deposit).

Fixpoint get_dataset_urls_loop (files : list string)
    (datasets : list (string * dataset)) (result : list string)
    : N (list string) :=
  match datasets with
  | [] => retN result
  | (doi, entry) :: rest =>
      let!! deposit := __init__ doi None None in
      let url := record_url deposit in
      get_dataset_urls_loop files rest (result ++ appended url entry files)%list
  end.

Definition get_dataset_urls (files : list string)
    (datasets : list (string * dataset)) : N (list string) :=
  let!! result := get_dataset_urls_loop files datasets [] in
  retN (list_set result).

End Construction.

(** The request of [get_id_type] for the public record raised, or its
    answer has a body that does not decode or a status above 204. *)
Definition probe_failed (E : env) (self : instance) (w : world) : Prop :=
  match remote E (net w) (record_probe (this self)) with
  | inl _ => True
  | inr r => body r = None ∨ (status_code r > 204)%Z
  end.

(** A dataset holds [file]: among its contents, or in one of its zip
    files. *)
Definition holds_file (entry : dataset) (file : string) : Prop :=
  file ∈ (contents entry).*2
  ∨ ∃ zip_file, zip_file ∈ zip_files entry ∧ file ∈ zip_file.2.*2.

(** The text names a service, whatever its case. *)
Definition names_service (sys : host) (text : string) : bool :=
  existsb (String.eqb (Str.lower text)) (services sys).*1.

(** The text starts with the DOI prefix of a service. *)
Definition under_service (sys : host) (text : string) : Prop :=
  ∃ service, In service (services sys).*2
             ∧ String.prefix (entry_doi_prefix service) text = true.

(** [url] is the address of the record of [doi] on its service. *)
Definition record_of (sys : host) (doi url : string) : Prop :=
  ∃ service id,
    In service (services sys).*2
    ∧ String.prefix (entry_doi_prefix service) doi = true
    ∧ after_prefix doi (entry_doi_prefix service) = inr id
    ∧ url = "https://" ++ entry_url service ++ "/record/" ++ id.

(** ** A host for the examples *)

Module Site.

(** [int] on the texts and numbers of the examples: a run of decimal
    digits, or a number. *)
Fixpoint digits (value : Z) (s : string) : option Z :=
  match s with
  | EmptyString => Some value
  | String c rest =>
      let n := nat_of_ascii c in
      if (48 <=? n)%nat && (n <=? 57)%nat
      then digits (10 * value + Z.of_nat (n - 48))%Z rest
      else None
  end.

Definition int_of (x : json) : error + Z :=
  match x with
  | JInt n => inr n
  | JStr (String c rest) =>
      match digits 0 (String c rest) with
      | Some n => inr n
      | None => inl ValueError
      end
  | JStr EmptyString => inl ValueError
  | _ => inl (Exn TypeError)
  end.

Definition host_with (sandbox_token : option string) : host :=
  {| getenv := fun name =>
       if String.eqb name "SANDBOX_TOKEN" then sandbox_token else None;
     zenodo_path := "/home/u/.showyourwork/zenodo";
     sandbox_path := "/home/u/.showyourwork/sandbox";
     get_repo_branch := Ok "main";
     get_repo_slug := Ok "u/paper";
     str_exn := fun _ => "ConnectionError";
     format := fun v => match v with JStr s => s | _ => "None" end;
     py_int := int_of;
     mkdir := fun _ => Ok tt |}.

End Site.

(** * Properties

    A run [m w = (inr a, w')] returns [a] and leaves the world [w']; a run
    [m w = (inl e, w')] raises [e], with [w'] what had been done by then. *)

(** ** [os.path] *)

Example normpath_dotdot :
  PosixPath.normpath "/tmp/foo/../foobar/x" = "/tmp/foobar/x".
Proof. reflexivity. Qed.

Example normpath_relative :
  PosixPath.abspath "/home/u" "src/data/./out/../cache" = "/home/u/src/data/cache".
Proof. reflexivity. Qed.

Example commonprefix_chars :
  PosixPath.commonprefix "/tmp/foo" "/tmp/foobar/x" = "/tmp/foo".
Proof. reflexivity. Qed.

Example name_of_path :
  PosixPath.name "src/data/a.csv" = "a.csv"
  ∧ PosixPath.name "a/b/" = "b"
  ∧ PosixPath.name "a/.." = ".."
  ∧ PosixPath.name "." = EmptyString
  ∧ PosixPath.name "/" = EmptyString.
Proof. vm_compute. repeat split. Qed.

(** ** Running the monad *)

Lemma bind_ok {A B} (m : M A) (k : A → M B) w a w' :
  m w = (inr a, w') → bind m k w = k a w'.
Proof. intros H. unfold bind. by rewrite H. Qed.

Lemma bind_err {A B} (m : M A) (k : A → M B) w e w' :
  m w = (inl e, w') → bind m k w = (inl e, w').
Proof. intros H. unfold bind. by rewrite H. Qed.

Lemma bind_ext {A B} (m : M A) (k k' : A → M B) w :
  (∀ a w', k a w' = k' a w') → bind m k w = bind m k' w.
Proof. intros H. unfold bind. destruct (m w) as [[e|a] w']; [done | apply H]. Qed.

Lemma eq_str_true x s : Py.eq_str x s = true ↔ x = JStr s.
Proof.
  destruct x; simpl; try (split; [discriminate | intros; discriminate]).
  rewrite String.eqb_eq. split; [by intros -> | by intros [= ->]].
Qed.

Lemma eq_str_refl s : Py.eq_str (JStr s) s = true.
Proof. by apply eq_str_true. Qed.

Lemma quiet_trans w1 w2 w3 : quiet w1 w2 → quiet w2 w3 → quiet w1 w3.
Proof. intros [? ?] [? ?]. split; congruence. Qed.

(** ** The hash ledger *)

Example ledger_text_decodes :
  get_rule_hashes (Demo.offline)
    (JDict {[ "notes" := JStr Demo.ledger_text ]})
  = inr (JDict {[ "make_data" := JStr "a.csv" ]}).
Proof. vm_compute. reflexivity. Qed.


Section Ledger.

Context (E : env) (self : Zenodo).

Lemma get_rule_hashes_corrupt (m : gmap string json) s :
  m !! "notes" = Some (JStr s) → json_loads E s = None →
  get_rule_hashes E (JDict m) = inl InvalidZenodoNotesField.
Proof. intros Hn Hl. unfold get_rule_hashes. cbn. by rewrite Hn, Hl. Qed.

Lemma get_rule_hashes_absent (m : gmap string json) :
  m !! "notes" = None →
  get_rule_hashes E (JDict m)
  = match json_loads E "{}" with
    | Some h => inr h
    | None => inl InvalidZenodoNotesField
    end.
Proof. intros Hn. unfold get_rule_hashes. cbn. by rewrite Hn. Qed.

Lemma scan_record_stale rule_hashes file rule_name tarball dry_run entries w :
  stale rule_hashes file rule_name →
  listed "key" entries →
  ∃ w', scan_record E rule_hashes file rule_name tarball dry_run entries w
        = (inr false, w') ∧ quiet w w'.
Proof.
  intros (h & Hget & Hne) Hl. revert w.
  induction Hl as [|entry rest [v Hv] _ IH]; intros w; simpl.
  - eexists; split; [reflexivity | done].
  - unfold bind at 1, lift. rewrite Hv.
    destruct (Py.eq_str v rule_name) eqn:Hname.
    + unfold bind, lift, ret. rewrite Hget, Hne. cbn.
      eexists; split; [reflexivity | done].
    + unfold bind at 1, ret. apply IH.
Qed.

Lemma scan_draft_stale rule_hashes file rule_name tarball dry_run entries w :
  stale rule_hashes file rule_name →
  listed "filename" entries →
  ∃ w', scan_draft E self rule_hashes file rule_name tarball dry_run entries w
        = (inr false, w') ∧ quiet w w'.
Proof.
  intros (h & Hget & Hne) Hl. revert w.
  induction Hl as [|entry rest [v Hv] _ IH]; intros w; simpl.
  - eexists; split; [reflexivity | done].
  - unfold bind at 1, lift. rewrite Hv.
    unfold bind at 1. rewrite Hget.
    unfold bind at 1, log. rewrite Hne, andb_false_r.
    destruct (Py.eq_str v rule_name) eqn:Hname.
    + cbn. eexists; split; [reflexivity | done].
    + unfold bind at 1, log.
      match goal with |- context [scan_draft _ _ _ _ _ _ _ _ ?w1] =>
        destruct (IH w1) as (w' & Hw' & Hq) end.
      exists w'. split; [exact Hw' | ].
      eapply quiet_trans; [| exact Hq]. done.
Qed.

End Ledger.

Lemma getitem_lookup (d : gmap string json) k v :
  d !! k = Some v → Py.getitem (JDict d) k = inr v.
Proof. intros H. cbn. by rewrite H. Qed.

Lemma getitem_insert_eq (d : gmap string json) k v :
  Py.getitem (JDict (<[k := v]> d)) k = inr v.
Proof. cbn. by rewrite lookup_insert_eq. Qed.

Lemma getitem_insert_ne (d : gmap string json) k k' v :
  k ≠ k' → Py.getitem (JDict (<[k := v]> d)) k' = Py.getitem (JDict d) k'.
Proof. intros H. cbn. by rewrite lookup_insert_ne. Qed.

(** Going through two runs that differ only below a [bind]. *)
Ltac peel :=
  repeat first
    [ reflexivity
    | rewrite insert_insert_eq
    | apply bind_ext; intros ? ?
    | match goal with |- (if ?c then _ else _) _ = _ => destruct c end
    | match goal with |- (if ?c then _ else _) = _ => destruct c end
    | match goal with |- (match ?x with _ => _ end) _ = _ => destruct x end
    | match goal with |- (match ?x with _ => _ end) = _ => destruct x end ].

Section LedgerClaims.

Context (E : env) (self : Zenodo).

Lemma get_rule_hashes_default (m : gmap string json) :
  m !! "notes" = None →
  get_rule_hashes E (JDict (<["notes" := JStr "{}"]> m)) = get_rule_hashes E (JDict m).
Proof.
  intros H. unfold get_rule_hashes. cbn. by rewrite lookup_insert_eq, H.
Qed.

Lemma upload_file_to_draft_notes_default (d m : gmap string json)
    file rule_name tarball w :
  d !! "metadata" = Some (JDict m) →
  m !! "notes" = None →
  upload_file_to_draft E self (JDict d) file rule_name tarball w
  = upload_file_to_draft E self
      (JDict (<["metadata" := JDict (<["notes" := JStr "{}"]> m)]> d))
      file rule_name tarball w.
Proof.
  intros Hmeta Hnotes.
  unfold upload_file_to_draft, require_access_token.
  destruct (Py.truthy (token self)); [| reflexivity].
  rewrite getitem_insert_eq, (getitem_lookup _ _ _ Hmeta).
  rewrite !(getitem_insert_ne _ "metadata" "links") by done.
  cbn [bind lift]. rewrite (get_rule_hashes_default _ Hnotes).
  cbn [Py.setitem]. peel.
Qed.

Lemma download_file_from_draft_notes_default (d m : gmap string json)
    file rule_name tarball dry_run w :
  d !! "metadata" = Some (JDict m) →
  m !! "notes" = None →
  download_file_from_draft E self (JDict d) file rule_name tarball dry_run w
  = download_file_from_draft E self
      (JDict (<["metadata" := JDict (<["notes" := JStr "{}"]> m)]> d))
      file rule_name tarball dry_run w.
Proof.
  intros Hmeta Hnotes.
  unfold download_file_from_draft, require_access_token.
  destruct (Py.truthy (token self)); [| reflexivity].
  rewrite getitem_insert_eq, (getitem_lookup _ _ _ Hmeta).
  rewrite !(getitem_insert_ne _ "metadata" "links") by done.
  cbn [bind lift]. by rewrite (get_rule_hashes_default _ Hnotes).
Qed.

Lemma download_file_from_record_notes_default (d m : gmap string json)
    file rule_name tarball dry_run w :
  d !! "metadata" = Some (JDict m) →
  m !! "notes" = None →
  download_file_from_record E self (JDict d) file rule_name tarball dry_run w
  = download_file_from_record E self
      (JDict (<["metadata" := JDict (<["notes" := JStr "{}"]> m)]> d))
      file rule_name tarball dry_run w.
Proof.
  intros Hmeta Hnotes.
  unfold download_file_from_record.
  rewrite getitem_insert_eq, (getitem_lookup _ _ _ Hmeta).
  rewrite !(getitem_insert_ne _ "metadata" "files") by done.
  cbn [bind lift]. by rewrite (get_rule_hashes_default _ Hnotes).
Qed.

(** What [download_file_from_record] does once the ledger is read and
    holds no fresh entry for the rule. *)
Lemma download_file_from_record_stale (d : gmap string json) metadata
    rule_hashes entries file rule_name tarball dry_run w :
  d !! "metadata" = Some metadata →
  get_rule_hashes E metadata = inr rule_hashes →
  stale rule_hashes file rule_name →
  d !! "files" = Some (JList entries) →
  listed "key" entries →
  ∃ w', download_file_from_record E self (JDict d) file rule_name tarball dry_run w
        = (inl (FileNotFoundOnZenodo rule_name), w') ∧ quiet w w'.
Proof.
  intros Hmeta Hrh Hst Hfiles Hl.
  unfold download_file_from_record.
  rewrite (getitem_lookup _ _ _ Hmeta), (getitem_lookup _ _ _ Hfiles).
  cbn [bind lift]. rewrite Hrh. cbn [bind lift Py.iter].
  destruct (scan_record_stale E rule_hashes file rule_name tarball dry_run
              entries w Hst Hl) as (w' & Hscan & Hq).
  exists w'. by rewrite (bind_ok _ _ _ _ _ Hscan).
Qed.

(** The same for [download_file_from_draft]: the listing is fetched, and
    nothing else is sent. *)
Lemma download_file_from_draft_stale (d links : gmap string json) metadata
    rule_hashes files_url r entries file rule_name tarball dry_run w :
  Py.truthy (token self) = true →
  d !! "metadata" = Some metadata →
  get_rule_hashes E metadata = inr rule_hashes →
  stale rule_hashes file rule_name →
  d !! "links" = Some (JDict links) →
  links !! "files" = Some files_url →
  remote E (net w) (with_token self GET [files_url] None) = inr r →
  parse_request E r = inr (JList entries) →
  listed "filename" entries →
  ∃ w', download_file_from_draft E self (JDict d) file rule_name tarball dry_run w
        = (inl (FileNotFoundOnZenodo rule_name), w')
        ∧ net w' = (net w ++ [Http (with_token self GET [files_url] None)])%list
        ∧ files w' = files w.
Proof.
  intros Htok Hmeta Hrh Hst Hlinks Hfiles Hr Hparse Hl.
  unfold download_file_from_draft, require_access_token. rewrite Htok.
  rewrite (getitem_lookup _ _ _ Hmeta), (getitem_lookup _ _ _ Hlinks).
  cbn [bind lift]. rewrite Hrh. cbn [bind lift].
  rewrite (getitem_lookup _ _ _ Hfiles). cbn [bind lift].
  unfold bind at 1, http. rewrite Hr, Hparse.
  cbn [bind lift log Py.iter net logs files].
  match goal with |- context [bind _ _ ?w1] =>
    destruct (scan_draft_stale E self rule_hashes file rule_name tarball dry_run
                entries w1 Hst Hl) as (w' & Hscan & Hn & Hf) end.
  exists w'. rewrite (bind_ok _ _ _ _ _ Hscan). by rewrite Hn, Hf.
Qed.

End LedgerClaims.

(** ** Claims on the ledger *)

(** C9. When the ledger of the draft already holds the name of the local
    file for the rule, [upload_file_to_draft] returns at once: it sends
    nothing (no listing, no deletion, no upload, no metadata update), logs
    nothing and touches no local file; the world is left as it was. *)
Theorem upload_file_to_draft_up_to_date (E : env) (self : Zenodo)
    (d m h : gmap string json) (notes file rule_name : string)
    (tarball : bool) (w : world) :
  Py.truthy (token self) = true →
  d !! "metadata" = Some (JDict m) →
  m !! "notes" = Some (JStr notes) →
  json_loads E notes = Some (JDict h) →
  h !! rule_name = Some (JStr (PosixPath.name file)) →
  upload_file_to_draft E self (JDict d) file rule_name tarball w = (inr tt, w).
Proof.
  intros Htok Hmeta Hnotes Hloads Hentry.
  unfold upload_file_to_draft, require_access_token. rewrite Htok.
  rewrite (getitem_lookup _ _ _ Hmeta). cbn [bind lift].
  unfold get_rule_hashes. cbn [Py.get]. rewrite Hnotes, Hloads.
  cbn [bind lift Py.get]. rewrite Hentry, eq_str_refl. reflexivity.
Qed.

Lemma upload_file_to_draft_up_to_date_witness :
  upload_file_to_draft Demo.offline Demo.self
    (JDict (Demo.version_with (Some Demo.ledger_text) []))
    "src/data/a.csv" "make_data" true Demo.nothing
  = (inr tt, Demo.nothing).
Proof.
  apply (upload_file_to_draft_up_to_date Demo.offline Demo.self
           (Demo.version_with (Some Demo.ledger_text) [])
           (Demo.metadata_with (Some Demo.ledger_text))
           {[ "make_data" := JStr "a.csv" ]} Demo.ledger_text);
    vm_compute; reflexivity.
Defined.

(** C5. When the [notes] field of a draft or record holds a text that is
    not valid JSON, [download_file_from_record] and, for a caller with an
    access token, [upload_file_to_draft] and [download_file_from_draft] fail
    with [InvalidZenodoNotesField]; nothing is sent and nothing is written,
    so the ledger is neither reset nor read as empty. *)
Theorem corrupt_notes_rejected (E : env) (self : Zenodo)
    (d m : gmap string json) (notes file rule_name : string)
    (tarball dry_run : bool) (w : world) :
  d !! "metadata" = Some (JDict m) →
  m !! "notes" = Some (JStr notes) →
  json_loads E notes = None →
  download_file_from_record E self (JDict d) file rule_name tarball dry_run w
  = (inl InvalidZenodoNotesField, w)
  ∧ (Py.truthy (token self) = true →
     upload_file_to_draft E self (JDict d) file rule_name tarball w
     = (inl InvalidZenodoNotesField, w)
     ∧ download_file_from_draft E self (JDict d) file rule_name tarball dry_run w
       = (inl InvalidZenodoNotesField, w)).
Proof.
  intros Hmeta Hnotes Hloads.
  pose proof (get_rule_hashes_corrupt E m notes Hnotes Hloads) as Hrh.
  split; [| intros Htok; split].
  - unfold download_file_from_record.
    rewrite (getitem_lookup _ _ _ Hmeta). cbn [bind lift]. by rewrite Hrh.
  - unfold upload_file_to_draft, require_access_token. rewrite Htok.
    rewrite (getitem_lookup _ _ _ Hmeta). cbn [bind lift]. by rewrite Hrh.
  - unfold download_file_from_draft, require_access_token. rewrite Htok.
    rewrite (getitem_lookup _ _ _ Hmeta). cbn [bind lift]. by rewrite Hrh.
Qed.

Lemma corrupt_notes_rejected_witness :
  let broken := JDict (Demo.version_with (Some "make_data: a.csv") []) in
  download_file_from_record Demo.offline Demo.self broken
    "src/data/a.csv" "make_data" false false Demo.nothing
  = (inl InvalidZenodoNotesField, Demo.nothing)
  ∧ upload_file_to_draft Demo.offline Demo.self broken
      "src/data/a.csv" "make_data" false Demo.nothing
    = (inl InvalidZenodoNotesField, Demo.nothing)
  ∧ download_file_from_draft Demo.offline Demo.self broken
      "src/data/a.csv" "make_data" false false Demo.nothing
    = (inl InvalidZenodoNotesField, Demo.nothing).
Proof.
  destruct (corrupt_notes_rejected Demo.offline Demo.self
              (Demo.version_with (Some "make_data: a.csv") [])
              (Demo.metadata_with (Some "make_data: a.csv"))
              "make_data: a.csv" "src/data/a.csv" "make_data" false false
              Demo.nothing) as [Hrecord Hdraft];
    [vm_compute; reflexivity ..|].
  split; [exact Hrecord | apply Hdraft; vm_compute; reflexivity].
Defined.

(** C10. A metadata blob without a [notes] field is read as the empty
    ledger ["{}"], not as an error: each of the three methods behaves on it
    exactly as on the same blob with [notes] set to ["{}"]; the ledger read
    fails with [InvalidZenodoNotesField] only for a [notes] text that is
    present and not valid JSON; and with the field absent no rule is found:
    both download methods raise [FileNotFoundOnZenodo] without fetching any
    file. *)
Theorem absent_notes_is_empty_ledger (E : env) (self : Zenodo)
    (d m : gmap string json) (file rule_name : string)
    (tarball dry_run : bool) (w : world) :
  json_loads E "{}" = Some (JDict ∅) →
  d !! "metadata" = Some (JDict m) →
  m !! "notes" = None →
  let blank := JDict (<["metadata" := JDict (<["notes" := JStr "{}"]> m)]> d) in
  (upload_file_to_draft E self (JDict d) file rule_name tarball w
   = upload_file_to_draft E self blank file rule_name tarball w
   ∧ download_file_from_draft E self (JDict d) file rule_name tarball dry_run w
     = download_file_from_draft E self blank file rule_name tarball dry_run w
   ∧ download_file_from_record E self (JDict d) file rule_name tarball dry_run w
     = download_file_from_record E self blank file rule_name tarball dry_run w)
  ∧ get_rule_hashes E (JDict m) = inr (JDict ∅)
  ∧ (∀ metadata, get_rule_hashes E metadata = inl InvalidZenodoNotesField ↔
       ∃ (fields : gmap string json) (notes : string),
         metadata = JDict fields ∧ fields !! "notes" = Some (JStr notes)
         ∧ json_loads E notes = None)
  ∧ (∀ entries, d !! "files" = Some (JList entries) → listed "key" entries →
       ∃ w', download_file_from_record E self (JDict d) file rule_name
               tarball dry_run w
             = (inl (FileNotFoundOnZenodo rule_name), w')
             ∧ quiet w w')
  ∧ (∀ (links : gmap string json) files_url r entries,
       Py.truthy (token self) = true →
       d !! "links" = Some (JDict links) →
       links !! "files" = Some files_url →
       remote E (net w) (with_token self GET [files_url] None) = inr r →
       parse_request E r = inr (JList entries) →
       listed "filename" entries →
       ∃ w', download_file_from_draft E self (JDict d) file rule_name
               tarball dry_run w
             = (inl (FileNotFoundOnZenodo rule_name), w')
             ∧ net w' = (net w ++ [Http (with_token self GET [files_url] None)])%list
             ∧ files w' = files w).
Proof.
  intros Hloads Hmeta Hnotes blank.
  assert (Hrh : get_rule_hashes E (JDict m) = inr (JDict ∅)).
  { by rewrite (get_rule_hashes_absent E m Hnotes), Hloads. }
  assert (Hst : stale (JDict ∅) file rule_name).
  { exists JNone. by cbn. }
  split; [| split; [exact Hrh | split; [| split]]].
  - split; [| split].
    + by apply upload_file_to_draft_notes_default.
    + by apply download_file_from_draft_notes_default.
    + by apply download_file_from_record_notes_default.
  - intros metadata. split.
    + unfold get_rule_hashes.
      destruct metadata as [| | | |l|fields]; cbn; try discriminate.
      destruct (fields !! "notes") as [[| | |s| |]|] eqn:Hf; try discriminate.
      * destruct (json_loads E s) eqn:Hs; [discriminate |]. intros _. by exists fields, s.
      * by rewrite Hloads.
    + intros (fields & s & -> & Hf & Hs). by apply (get_rule_hashes_corrupt E fields s).
  - intros entries Hfiles Hl.
    by eapply download_file_from_record_stale.
  - intros links files_url r entries Htok Hlinks Hfiles Hr Hparse Hl.
    by eapply download_file_from_draft_stale.
Qed.

Lemma absent_notes_is_empty_ledger_witness :
  let E := Demo.env_with
             (Demo.answers
                [(Demo.files_request, Demo.ok (JList [Demo.draft_entry]))])
             (Demo.fetches (Blob "1,2,3")) in
  let version := JDict (Demo.version_with None [Demo.record_entry "v1"]) in
  get_rule_hashes E (JDict (Demo.metadata_with None)) = inr (JDict ∅)
  ∧ (∃ w', download_file_from_record E Demo.self version
             "src/data/a.csv" "make_data" false false Demo.nothing
           = (inl (FileNotFoundOnZenodo "make_data"), w')
           ∧ quiet Demo.nothing w')
  ∧ (∃ w', download_file_from_draft E Demo.self version
             "src/data/a.csv" "make_data" false false Demo.nothing
           = (inl (FileNotFoundOnZenodo "make_data"), w')
           ∧ net w' = [Http (with_token Demo.self GET
                               [JStr Demo.files_request] None)]
           ∧ files w' = ∅).
Proof.
  intros E version.
  destruct (absent_notes_is_empty_ledger E Demo.self
              (Demo.version_with None [Demo.record_entry "v1"])
              (Demo.metadata_with None)
              "src/data/a.csv" "make_data" false false Demo.nothing)
    as (_ & Hledger & _ & Hrecord & Hdraft); [vm_compute; reflexivity ..|].
  split; [exact Hledger | split].
  - apply (Hrecord [Demo.record_entry "v1"]); [vm_compute; reflexivity |].
    repeat constructor. eexists. vm_compute. reflexivity.
  - apply (Hdraft {[ "files" := JStr Demo.files_request;
                     "bucket" := JStr "https://sandbox.zenodo.org/bucket";
                     "latest_draft" := JStr Demo.draft_url ]}
                  (JStr Demo.files_request)
                  (Demo.ok (JList [Demo.draft_entry]))
                  [Demo.draft_entry]); try (vm_compute; reflexivity).
    repeat constructor. eexists. vm_compute. reflexivity.
Defined.

(** ** The ownership probe *)

Lemma append_inj_l (s x y : string) : s ++ x = s ++ y → x = y.
Proof. induction s as [|c s IH]; simpl; [done | intros [= H]; auto]. Qed.

Lemma cache_files_differ E self : cache_file_true E self ≠ cache_file_false E self.
Proof.
  unfold cache_file_true, cache_file_false. intros H.
  do 3 apply append_inj_l in H. discriminate H.
Qed.

(** Unfolds the monad and the primitives, leaving the answers of the
    environment to case on. *)
Ltac run :=
  cbv beta iota zeta delta
    [bind ret raise lift try_except log set_files get_files http run_curl
     curl_download r_json Fs.exists_ Fs.touch Fs.rename Fs.unlink Fs.tar_open];
  cbn [net logs files].

Section Owner.

Context (E : env) (self : Zenodo).

Lemma check_if_user_is_owner_outcomes w res w' :
  files w !! cache_file_true E self = None →
  files w !! cache_file_false E self = None →
  check_if_user_is_owner E self w = (res, w') →
  net w' = (net w ++ (if Py.truthy (token self) then [Http (owner_probe self)] else []))%list
  ∧ ((res = inr true ∧ files w' = <[cache_file_true E self := Blob EmptyString]> (files w))
     ∨ (res = inr false ∧ files w' = <[cache_file_false E self := Blob EmptyString]> (files w))
     ∨ ((∃ e, res = inl e) ∧ files w' = files w)).
Proof.
  intros Ht Hf. unfold check_if_user_is_owner.
  run. rewrite Ht. cbn. rewrite Hf. cbn.
  destruct (Py.truthy (token self)) eqn:Htok;
    [destruct (remote E (net w) (owner_probe self)) as [e|r];
       [| destruct (status_code r <=? 204)%Z;
            [destruct (body r) as [[| | | |[|x l]|]|] |]] |];
    cbn; rewrite ?Ht, ?Hf; intros [= <- <-]; cbn;
    (split; [by rewrite ?app_nil_r |]); eauto 6.
Qed.


Lemma check_if_user_is_owner_cached_true w :
  is_Some (files w !! cache_file_true E self) →
  check_if_user_is_owner E self w = (inr true, w).
Proof.
  intros [c Hc]. unfold check_if_user_is_owner. run. by rewrite Hc.
Qed.

Lemma check_if_user_is_owner_cached_false w :
  files w !! cache_file_true E self = None →
  is_Some (files w !! cache_file_false E self) →
  check_if_user_is_owner E self w = (inr false, w).
Proof.
  intros Ht [c Hc]. unfold check_if_user_is_owner. run.
  rewrite Ht. cbn. by rewrite Hc.
Qed.

End Owner.

(** C8, as the code has it.  With the [AUTH_VALID] flag of the concept set,
    [check_if_user_is_owner] returns true and sends nothing.  With neither
    flag set: a probe answered with a non-empty list of depositions sets
    [AUTH_VALID] and returns true; a probe that is not made (no token) or is
    answered otherwise (a status above 204, or a body that is not a
    non-empty list) sets [AUTH_INVALID] and returns false; when the request
    itself raises, or the body of a success does not decode, the exception
    leaves the method and neither flag is set.  In every case at most one of
    the two flags is set afterwards if at most one was set before. *)
Theorem check_if_user_is_owner_flags (E : env) (self : Zenodo) (w : world) :
  let valid := cache_file_true E self in
  let invalid := cache_file_false E self in
  (is_Some (files w !! valid) →
   check_if_user_is_owner E self w = (inr true, w))
  ∧ (files w !! valid = None → files w !! invalid = None →
     (∀ r x l,
        Py.truthy (token self) = true →
        remote E (net w) (owner_probe self) = inr r →
        (status_code r <= 204)%Z → body r = Some (JList (x :: l)) →
        ∃ w', check_if_user_is_owner E self w = (inr true, w')
              ∧ net w' = (net w ++ [Http (owner_probe self)])%list
              ∧ files w' = <[valid := Blob EmptyString]> (files w))
     ∧ (Py.truthy (token self) = false
        ∨ (∃ r, remote E (net w) (owner_probe self) = inr r
                ∧ ((status_code r > 204)%Z
                   ∨ ∃ j, body r = Some j ∧ ∀ x l, j ≠ JList (x :: l))) →
        ∃ w', check_if_user_is_owner E self w = (inr false, w')
              ∧ files w' = <[invalid := Blob EmptyString]> (files w))
     ∧ (Py.truthy (token self) = true →
        (∃ e, remote E (net w) (owner_probe self) = inl e)
        ∨ (∃ r, remote E (net w) (owner_probe self) = inr r
                ∧ (status_code r <= 204)%Z ∧ body r = None) →
        ∃ e w', check_if_user_is_owner E self w = (inl e, w')
                ∧ files w' = files w))
  ∧ (¬ (is_Some (files w !! valid) ∧ is_Some (files w !! invalid)) →
     ∀ res w', check_if_user_is_owner E self w = (res, w') →
     ¬ (is_Some (files w' !! valid) ∧ is_Some (files w' !! invalid))).
Proof.
  intros valid invalid. split; [| split].
  - apply check_if_user_is_owner_cached_true.
  - intros Ht Hf. unfold valid, invalid in *. split; [| split].
    + intros r x l Htok Hr Hs Hb. unfold check_if_user_is_owner. run.
      rewrite Ht. cbn. rewrite Hf. cbn. rewrite Htok, Hr.
      apply Z.leb_le in Hs. rewrite Hs, Hb. cbn. rewrite Ht.
      eexists. split; [reflexivity | done].
    + intros Hfail. unfold check_if_user_is_owner. run.
      rewrite Ht. cbn. rewrite Hf. cbn.
      destruct Hfail as [Htok | (r & Hr & [Hs | (j & Hb & Hj)])].
      * rewrite Htok. cbn. rewrite Hf. by eexists.
      * destruct (Py.truthy (token self)); cbn; [rewrite Hr |].
        -- apply Z.gt_lt, Z.leb_gt in Hs. rewrite Hs. cbn. rewrite Hf. by eexists.
        -- rewrite Hf. by eexists.
      * destruct (Py.truthy (token self)); cbn; [rewrite Hr |].
        -- destruct (status_code r <=? 204)%Z; [rewrite Hb |].
           ++ destruct j as [| | | |[|x l]|]; cbn; rewrite ?Hf;
                try (by eexists). by destruct (Hj x l).
           ++ cbn. rewrite Hf. by eexists.
        -- rewrite Hf. by eexists.
    + intros Htok Hraise. unfold check_if_user_is_owner. run.
      rewrite Ht. cbn. rewrite Hf. cbn. rewrite Htok.
      destruct Hraise as [[e Hr] | (r & Hr & Hs & Hb)]; rewrite Hr.
      * by do 2 eexists.
      * apply Z.leb_le in Hs. rewrite Hs, Hb. cbn. by do 2 eexists.
  - intros Hone res w' Hrun. unfold valid, invalid in *.
    destruct (files w !! cache_file_true E self) as [c|] eqn:Ht.
    { rewrite check_if_user_is_owner_cached_true in Hrun by (by rewrite Ht).
      injection Hrun as <- <-. by rewrite Ht. }
    destruct (files w !! cache_file_false E self) as [c|] eqn:Hf.
    { rewrite check_if_user_is_owner_cached_false in Hrun by (by rewrite ?Hf).
      injection Hrun as <- <-. by rewrite Ht, Hf. }
    pose proof (cache_files_differ E self) as Hne.
    destruct (check_if_user_is_owner_outcomes E self w res w' Ht Hf Hrun)
      as [_ [[_ ->] | [[_ ->] | [_ ->]]]].
    + rewrite (lookup_insert_ne _ _ _ _ Hne), Hf. by intros [_ [? ?]].
    + rewrite lookup_insert_ne, Ht by done. by intros [[? ?] _].
    + rewrite Ht. by intros [[? ?] _].
Qed.

Lemma check_if_user_is_owner_flags_witness :
  let E := Demo.env_with
             (Demo.answers
                [(Demo.depositions_request,
                  Demo.ok (JList [JDict (Demo.version_with None [])]))])
             (Demo.fetches (Blob "1,2,3")) in
  let valid := cache_file_true E Demo.self in
  let flagged := {| net := []; logs := [];
                    files := {[ valid := Blob EmptyString ]} |} in
  check_if_user_is_owner E Demo.self flagged = (inr true, flagged)
  ∧ (∃ w', check_if_user_is_owner E Demo.self Demo.nothing = (inr true, w')
           ∧ net w' = [Http (owner_probe Demo.self)]
           ∧ files w' = {[ valid := Blob EmptyString ]})
  ∧ (∃ w', check_if_user_is_owner E Demo.anonymous Demo.nothing = (inr false, w')
           ∧ files w' = {[ cache_file_false E Demo.anonymous := Blob EmptyString ]}).
Proof.
  intros E valid flagged. split; [| split].
  - apply (check_if_user_is_owner_flags E Demo.self flagged).
    vm_compute. eauto.
  - destruct (check_if_user_is_owner_flags E Demo.self Demo.nothing)
      as (_ & Hfresh & _).
    destruct Hfresh as (Hvalid & _); [vm_compute; reflexivity ..|].
    apply (Hvalid (Demo.ok (JList [JDict (Demo.version_with None [])]))
                  (JDict (Demo.version_with None [])) []);
      [vm_compute; reflexivity | vm_compute; reflexivity
      | vm_compute; discriminate | reflexivity].
  - destruct (check_if_user_is_owner_flags E Demo.anonymous Demo.nothing)
      as (_ & Hfresh & _).
    destruct Hfresh as (_ & Hinvalid & _); [vm_compute; reflexivity ..|].
    apply Hinvalid. left. reflexivity.
Defined.

(** C8 as stated fails: not every failure sets [AUTH_INVALID] and returns
    false.  When the request of the probe raises, the exception leaves
    [check_if_user_is_owner] and no flag is written. *)
Lemma check_if_user_is_owner_offline :
  let run := check_if_user_is_owner Demo.offline Demo.self Demo.nothing in
  run.1 = inl (TransportError "ConnectionError")
  ∧ run.1 ≠ inr false
  ∧ files run.2 !! cache_file_false Demo.offline Demo.self = None.
Proof. vm_compute. split; [reflexivity | split; [discriminate | reflexivity]]. Qed.

(** ** [upload_file] *)

(** X16.  What holds of the gentle failure of [upload_file].  For a caller with
    an access token, when the search for the depositions of the concept is
    answered with a status above 204 (the body not decoding, or being an
    error object with its [message]), or with a success whose body does not
    decode or is empty, [upload_file] logs the warning that the cache could
    not be uploaded and returns normally; the search is the only request it
    has sent, so nothing remote is changed, and no local file is touched. *)
Theorem upload_file_search_failure (E : env) (self : Zenodo)
    (file rule_name : string) (tarball : bool) (w : world) (r : response) :
  Py.truthy (token self) = true →
  remote E (net w) (concept_search self) = inr r →
  ((status_code r > 204)%Z
   ∧ (body r = None
      ∨ ∃ (d : gmap string json) message,
          body r = Some (JDict d) ∧ d !! "message" = Some message))
  ∨ ((status_code r <= 204)%Z
     ∧ (body r = None ∨ ∃ j, body r = Some j ∧ Py.len j = inr 0%nat)) →
  ∃ w', upload_file E self file rule_name tarball w = (inr tt, w')
        ∧ net w' = (net w ++ [Http (concept_search self)])%list
        ∧ mutates (Http (concept_search self)) = false
        ∧ files w' = files w
        ∧ (Warning,
           [JStr (service self
                  ++ " authentication failed. Unable to upload cache for rule "
                  ++ rule_name ++ ".")]) ∈ logs w'.
Proof.
  intros Htok Hr Hfail.
  unfold upload_file, require_access_token. rewrite Htok.
  unfold debug_message. run. rewrite Hr.
  destruct Hfail as [[Hs Hb] | [Hs Hb]].
  - apply Z.gt_lt, Z.gtb_lt in Hs. rewrite Hs.
    destruct Hb as [Hb | (d & message & Hb & Hm)]; rewrite Hb; cbn; rewrite ?Hm;
      (eexists; split; [reflexivity |]; cbn;
       repeat split; rewrite ?elem_of_app; set_solver).
  - assert ((status_code r >? 204)%Z = false) as -> by lia.
    destruct Hb as [Hb | (j & Hb & Hlen)]; rewrite Hb; cbn; rewrite ?Hlen; cbn;
      (eexists; split; [reflexivity |]; cbn;
       repeat split; rewrite ?elem_of_app; set_solver).
Qed.

Lemma upload_file_search_failure_witness :
  let E := Demo.env_with
             (Demo.answers
                [(Demo.depositions_request, Demo.failure 401 "Unauthorized")])
             (Demo.fetches (Blob "1,2,3")) in
  ∃ w', upload_file E Demo.self "src/data/a.csv" "make_data" false Demo.nothing
        = (inr tt, w')
        ∧ net w' = [Http (concept_search Demo.self)]
        ∧ mutates (Http (concept_search Demo.self)) = false
        ∧ files w' = ∅
        ∧ (Warning,
           [JStr "Zenodo Sandbox authentication failed. Unable to upload cache for rule make_data."])
          ∈ logs w'.
Proof.
  intros E.
  apply (upload_file_search_failure E Demo.self "src/data/a.csv" "make_data"
           false Demo.nothing (Demo.failure 401 "Unauthorized"));
    [vm_compute; reflexivity | vm_compute; reflexivity |].
  left. split; [vm_compute; reflexivity |].
  right. eexists _, (JStr "Unauthorized"). split; [reflexivity |].
  vm_compute. reflexivity.
Defined.

(** C6 fails on the code.  The debug line of the failure branch reads
    [data["message"]] outside the [try] that guards [r.json()]: when the
    search is answered with a status above 204 and a body that decodes to
    an object without [message], the warning is logged and then the call
    raises [KeyError] instead of returning. *)
Theorem upload_file_search_failure_raises :
  let answer := {| status_code := 500; body := Some (JDict ∅); text := "{}" |} in
  let E := Demo.env_with
             (Demo.answers [(Demo.depositions_request, answer)])
             (Demo.fetches (Blob "1,2,3")) in
  let run := upload_file E Demo.self "src/data/a.csv" "make_data" false
               Demo.nothing in
  remote E [] (concept_search Demo.self) = inr answer
  ∧ (status_code answer > 204)%Z
  ∧ run.1 = inl (KeyError "message")
  ∧ run.1 ≠ inr tt
  ∧ net run.2 = [Http (concept_search Demo.self)]
  ∧ logs run.2
    = [(Warning,
        [JStr "Zenodo Sandbox authentication failed. Unable to upload cache for rule make_data."])].
Proof. vm_compute. repeat split; try reflexivity. discriminate. Qed.

(** ** [delete] *)

Lemma first_unsubmitted_none versions :
  Forall submitted versions → first_unsubmitted versions = inl BareException.
Proof.
  induction 1 as [|v vs (flag & Hflag & Htrue) _ IH]; simpl; [done |].
  by rewrite Hflag, Htrue.
Qed.

Lemma first_unsubmitted_found published data rest :
  Forall submitted published → unsubmitted data →
  first_unsubmitted (published ++ data :: rest) = inr data.
Proof.
  intros Hp (flag & Hflag & Hfalse).
  induction Hp as [|v vs (f & Hf & Htrue) _ IH]; simpl.
  - by rewrite Hflag, Hfalse.
  - by rewrite Hf, Htrue.
Qed.

(** C7. For a caller with an access token whose search for the versions of
    the concept is answered: when every version listed is published,
    [delete] fails with [ZenodoRecordNotFound] having sent the search only,
    so nothing is deleted; when a version that is not published is listed
    (after published ones), the one request that follows the search deletes
    that version. *)
Theorem delete_unpublished_version (E : env) (self : Zenodo) (w : world)
    (r : response) :
  Py.truthy (token self) = true →
  remote E (net w) (concept_search self) = inr r →
  (∀ versions,
     body r = Some (JList versions) → Forall submitted versions →
     ∃ w', delete_ E self w = (inl (ZenodoRecordNotFound (deposit_id self)), w')
           ∧ net w' = (net w ++ [Http (concept_search self)])%list
           ∧ files w' = files w)
  ∧ (∀ published data rest version_id answer,
       body r = Some (JList (published ++ data :: rest)) →
       Forall submitted published → unsubmitted data →
       Py.getitem data "id" = inr version_id →
       remote E (net w ++ [Http (concept_search self)])
                (delete_request self version_id) = inr answer →
       ∃ w', delete_ E self w
             = (match parse_request E answer with
                | inl e => inl e
                | inr _ => inr tt
                end, w')
             ∧ net w' = (net w ++ [Http (concept_search self);
                                   Http (delete_request self version_id)])%list
             ∧ files w' = files w).
Proof.
  intros Htok Hr. split.
  - intros versions Hb Hall.
    unfold delete_, require_access_token. rewrite Htok. run.
    rewrite Hr, Hb. cbn. rewrite (first_unsubmitted_none _ Hall).
    eexists. split; [reflexivity | done].
  - intros published data rest version_id answer Hb Hp Hd Hid Hdel.
    unfold delete_, require_access_token. rewrite Htok. run.
    rewrite Hr, Hb. cbn. rewrite (first_unsubmitted_found _ _ _ Hp Hd), Hid.
    unfold delete_request in *. cbn [net logs files]. rewrite Hdel.
    destruct (parse_request E answer); eexists;
      (split; [reflexivity |]); cbn; by rewrite <- app_assoc.
Qed.

Lemma delete_unpublished_version_witness :
  let draft := JDict {[ "id" := JInt 1236; "submitted" := JBool false ]} in
  let v2 := JDict {[ "id" := JInt 1235; "submitted" := JBool true ]} in
  let E := Demo.env_with
             (Demo.answers
                [(Demo.depositions_request, Demo.ok (JList [v2; draft]))])
             (Demo.fetches (Blob "1,2,3")) in
  let published := Demo.env_with
             (Demo.answers
                [(Demo.depositions_request, Demo.ok (JList [v2]))])
             (Demo.fetches (Blob "1,2,3")) in
  (∃ w', delete_ published Demo.self Demo.nothing
         = (inl (ZenodoRecordNotFound "1234"), w')
         ∧ net w' = [Http (concept_search Demo.self)]
         ∧ files w' = ∅)
  ∧ (∃ w', delete_ E Demo.self Demo.nothing
           = (inr tt, w')
           ∧ net w' = [Http (concept_search Demo.self);
                       Http (delete_request Demo.self (JInt 1236))]
           ∧ files w' = ∅).
Proof.
  intros draft v2 E published. split.
  - destruct (delete_unpublished_version published Demo.self Demo.nothing
                (Demo.ok (JList [v2]))) as [Hnone _];
      [vm_compute; reflexivity ..|].
    apply (Hnone [v2]); [reflexivity |].
    repeat constructor. eexists. split; vm_compute; reflexivity.
  - destruct (delete_unpublished_version E Demo.self Demo.nothing
                (Demo.ok (JList [v2; draft]))) as [_ Hsome];
      [vm_compute; reflexivity ..|].
    apply (Hsome [v2] draft [] (JInt 1236) (Demo.ok (JDict ∅))).
    + reflexivity.
    + repeat constructor. eexists. split; vm_compute; reflexivity.
    + eexists. split; vm_compute; reflexivity.
    + vm_compute. reflexivity.
    + vm_compute. reflexivity.
Defined.

(** ** [download_file] *)

(** C4. When the draft has yielded nothing and the probe for a published
    record is answered with a status above 204: if the message of the answer
    says that the identifier is not registered, [download_file] asks for no
    list of records and ends with the cache miss [FileNotFoundOnZenodo];
    for any other such answer it raises [ZenodoError] with the status and
    message of the answer (or their defaults). *)
Theorem download_file_record_probe_failure (E : env) (self : Zenodo)
    (file rule_name : string) (tarball dry_run : bool) (w w1 : world)
    (r : response) :
  search_draft E self file rule_name tarball dry_run w = (inr false, w1) →
  remote E (net w1) (record_probe self) = inr r →
  (status_code r > 204)%Z →
  error_shaped r →
  ∃ w2,
    download_file E self file rule_name tarball dry_run w
    = (if unregistered r
       then inl (FileNotFoundOnZenodo (PosixPath.name file))
       else inl (ZenodoError
                   (default (JStr "unknown") (error_fields r !! "status"))
                   (default (JStr ("An error occurred while accessing "
                                   ++ service self ++ "."))
                            (error_fields r !! "message"))),
       w2)
    ∧ net w2 = (net w1 ++ [Http (record_probe self)])%list
    ∧ files w2 = files w1.
Proof.
  intros Hdraft Hr Hs Hshape.
  unfold download_file. rewrite (bind_ok _ _ _ _ _ Hdraft).
  unfold search_published, raise_zenodo_error. run. rewrite Hr.
  apply Z.gt_lt, Z.gtb_lt in Hs. rewrite Hs.
  unfold unregistered, error_message, error_fields, error_shaped in *.
  destruct (body r) as [[| | | | |d]|]; try done; cbn.
  - destruct (d !! "message") as [[| | |m| |]|] eqn:Hm; try done; cbn.
    + destruct (Py.substring_of _ m); cbn; eexists; (split; [reflexivity | done]).
    + destruct (d !! "status"); eexists; (split; [reflexivity | done]).
  - rewrite !lookup_empty. cbn. eexists; (split; [reflexivity | done]).
Qed.

Lemma download_file_record_probe_failure_witness :
  let E := Demo.env_with
             (Demo.answers
                [(Demo.depositions_request, Demo.failure 401 "Unauthorized")])
             (Demo.fetches (Blob "1,2,3")) in
  ∃ w2, download_file E Demo.self "src/data/a.csv" "make_data" false false
          Demo.nothing
        = (inl (FileNotFoundOnZenodo "a.csv"), w2)
        ∧ net w2 = [Http (concept_search Demo.self);
                    Http (record_probe Demo.self)]
        ∧ files w2 = ∅.
Proof.
  intros E.
  destruct (download_file_record_probe_failure E Demo.self "src/data/a.csv"
              "make_data" false false Demo.nothing
              (search_draft E Demo.self "src/data/a.csv" "make_data" false
                 false Demo.nothing).2
              (Demo.failure 404 "PID is not registered"))
    as (w2 & Hrun & Hnet & Hfiles);
    [vm_compute; reflexivity | vm_compute; reflexivity | vm_compute; reflexivity
    | vm_compute; exact I |].
  exists w2. split; [exact Hrun | split; [exact Hnet | exact Hfiles]].
Defined.

(** Any other answer of the probe is a hard failure. *)
Example download_file_service_error :
  let E := Demo.env_with
             (Demo.answers
                [(Demo.depositions_request, Demo.failure 401 "Unauthorized");
                 ("https://sandbox.zenodo.org/api/records/1234",
                  Demo.failure 500 "Internal Server Error")])
             (Demo.fetches (Blob "1,2,3")) in
  (download_file E Demo.self "src/data/a.csv" "make_data" false false
     Demo.nothing).1
  = inl (ZenodoError (JInt 500) (JStr "Internal Server Error")).
Proof. vm_compute. reflexivity. Qed.

(** C4 as stated fails: not every other answer of the probe gives
    [ZenodoError].  An answer with status 500 whose body is the JSON list
    [[]] is read with [data.get], which a list does not have: the call ends
    with [AttributeError]. *)
Lemma download_file_probe_answer_not_object :
  let answer := {| status_code := 500; body := Some (JList []); text := "[]" |} in
  let E := Demo.env_with
             (Demo.answers
                [(Demo.depositions_request, Demo.failure 401 "Unauthorized");
                 ("https://sandbox.zenodo.org/api/records/1234", answer)])
             (Demo.fetches (Blob "1,2,3")) in
  let run := download_file E Demo.self "src/data/a.csv" "make_data" false false
               Demo.nothing in
  remote E [Http (concept_search Demo.self)] (record_probe Demo.self) = inr answer
  ∧ (status_code answer > 204)%Z
  ∧ unregistered answer = false
  ∧ run.1 = inl AttributeError
  ∧ (∀ status message, run.1 ≠ inl (ZenodoError status message))
  ∧ net run.2 = [Http (concept_search Demo.self); Http (record_probe Demo.self)].
Proof.
  vm_compute. repeat split; try reflexivity. intros status message. discriminate.
Qed.

(** ** The guarded extraction *)

(** The guard runs over every member before anything is written: when it
    rejects one, no file has changed. *)
Lemma safe_extract_rejects_before_writing (E : env) members path w :
  check_members E path members = inl PathTraversal →
  safe_extract E members path w = (inl PathTraversal, w).
Proof. intros H. unfold safe_extract. run. by rewrite H. Qed.

Lemma check_members_error (E : env) path members e :
  check_members E path members = inl e → e = PathTraversal.
Proof.
  induction members as [|m ms IH]; simpl; [done |].
  destruct (is_within_directory E path (PosixPath.join path m.1)); simpl; [done |].
  by intros [= <-].
Qed.

(** A member that climbs out through [..] to an unrelated directory is
    rejected, also after members that stay within the root. *)
Example safe_extract_rejects_etc :
  safe_extract Demo.offline
    [("data.txt", "1,2,3"); ("../../etc/passed", "x")] "/tmp/foo" Demo.nothing
  = (inl PathTraversal, Demo.nothing).
Proof. vm_compute. reflexivity. Qed.

(** Called as the library documents it, [extractall] unpacks below the
    root. *)
Example extractall_by_keyword :
  extractall Demo.offline 2 "/tmp/foo" [("data.txt", "1,2,3")] Demo.nothing
  = (inr tt, {| net := []; logs := [];
                files := {[ "/tmp/foo/data.txt" := Blob "1,2,3" ]} |}).
Proof. vm_compute. reflexivity. Qed.

(** [safe_extract] never unpacks: the guard rejects the archive, or the
    call of [extractall] raises; either way no file has changed. *)
Lemma safe_extract_fails (E : env) members path w :
  safe_extract E members path w
  = (match check_members E path members with
     | inl e => inl e
     | inr _ => inl TypeError
     end, w).
Proof.
  unfold safe_extract, extractall. run.
  by destruct (check_members E path members).
Qed.

(** C2 fails on the code, in two ways.  An archive whose members all stay
    within the root passes the guard, and then [tar.extractall(path,
    members, numeric_owner)] raises [TypeError]: nothing is extracted and
    the temporary [.tar.gz] stays.  And the guard compares the two absolute
    paths character by character ([os.path.commonprefix]), so it accepts a
    member whose destination is a sibling of the root whose name starts
    with the name of the root: no path-traversal failure is raised for
    it. *)
Theorem tarball_is_not_extracted :
  let E := Demo.env_with (Demo.answers [])
             (Demo.fetches (Tarball [("data.txt", "1,2,3")])) in
  let record := JDict (Demo.version_with (Some Demo.ledger_text)
                         [Demo.record_entry "v2"]) in
  let file := "/home/u/paper/src/data/a.csv" in
  let run := download_file_from_record E Demo.self record file "make_data"
               true false Demo.nothing in
  (check_members E file [("data.txt", "1,2,3")] = inr tt
   ∧ below file (destination E file "data.txt") = true
   ∧ run.1 = inl TypeError
   ∧ files run.2 !! (file ++ ".tar.gz") = Some (Tarball [("data.txt", "1,2,3")])
   ∧ files run.2 !! destination E file "data.txt" = None)
  ∧ (destination E "/tmp/foo" "../foobar/x" = "/tmp/foobar/x"
     ∧ below "/tmp/foo" "/tmp/foobar/x" = false
     ∧ check_members E "/tmp/foo" [("../foobar/x", "payload")] = inr tt
     ∧ safe_extract E [("../foobar/x", "payload")] "/tmp/foo" Demo.nothing
       = (inl TypeError, Demo.nothing)).
Proof. vm_compute. repeat split; reflexivity. Qed.

(** ** The search through a record *)

Section Records.

Context (E : env) (self : Zenodo) (file rule_name : string).

(** The scan of a record stops at the first entry under the rule name when
    the hash is another: the entries after it are not looked at. *)
Lemma scan_record_outdated rule_hashes tarball dry_run pre entry post w :
  stale rule_hashes file rule_name →
  Forall (other "key" rule_name) pre →
  named "key" rule_name entry →
  scan_record E rule_hashes file rule_name tarball dry_run (pre ++ entry :: post) w
  = (inr false,
     {| net := net w; logs := logs w ++ [wrong_hash_line rule_name]; files := files w |}).
Proof.
  intros (h & Hget & Hne) Hpre Hentry.
  induction Hpre as [|e pre (v & Hv & Hother) _ IH]; simpl.
  - run. rewrite Hentry, eq_str_refl, Hget, Hne. reflexivity.
  - run. rewrite Hv. cbn. rewrite Hother. cbn. apply IH.
Qed.

Lemma scan_record_lacks rule_hashes tarball dry_run entries w :
  Forall (other "key" rule_name) entries →
  scan_record E rule_hashes file rule_name tarball dry_run entries w = (inr false, w).
Proof.
  induction 1 as [|e es (v & Hv & Hother) _ IH]; simpl; [done |].
  run. rewrite Hv. cbn. rewrite Hother. cbn. apply IH.
Qed.

Lemma download_file_from_record_misses record tarball dry_run w :
  misses E record file rule_name →
  ∃ w', download_file_from_record E self record file rule_name tarball dry_run w
        = (inl (FileNotFoundOnZenodo rule_name), w')
        ∧ quiet w w'.
Proof.
  intros (entries & Hfiles & Hmiss). unfold record_files in Hfiles.
  unfold download_file_from_record.
  destruct Hmiss as [(md & rh & pre & e & post & Hmd & Hrh & Hst & -> & Hpre & He)
                    | (md & rh & Hmd & Hrh & Hall)].
  - rewrite Hmd. cbn [bind lift]. rewrite Hrh, Hfiles. cbn [bind lift Py.iter].
    rewrite (bind_ok _ _ _ _ _ (scan_record_outdated rh tarball dry_run pre e post w
                                  Hst Hpre He)).
    eexists. split; [reflexivity | done].
  - rewrite Hmd. cbn [bind lift]. rewrite Hrh, Hfiles. cbn [bind lift Py.iter].
    rewrite (bind_ok _ _ _ _ _ (scan_record_lacks rh tarball dry_run entries w Hall)).
    eexists. split; [reflexivity | done].
Qed.

(** [extract_tarball] sends nothing, and never succeeds. *)
Lemma extract_tarball_net w :
  ∃ e w', extract_tarball E file w = (inl e, w') ∧ net w' = net w
          ∧ ∀ n, e ≠ FileNotFoundOnZenodo n.
Proof.
  unfold extract_tarball. run.
  destruct (files w !! file) as [c|]; cbn; [| by do 2 eexists].
  rewrite lookup_insert_eq.
  destruct c as [data|members]; [by do 2 eexists |].
  destruct (check_members E file members) as [e|] eqn:Hc; [| by do 2 eexists].
  apply check_members_error in Hc as ->. by do 2 eexists.
Qed.

Lemma scan_record_found rule_hashes tarball pre entry post
    (links : gmap string json) u got w :
  fresh rule_hashes file rule_name →
  Forall (other "key" rule_name) pre →
  named "key" rule_name entry →
  Py.getitem entry "links" = inr (JDict links) →
  links !! "self" = Some u →
  curl E (net w) (record_download E file u) = inr got →
  ∃ res w',
    scan_record E rule_hashes file rule_name tarball false (pre ++ entry :: post) w
    = (res, w')
    ∧ net w' = (net w ++ [Curl (record_download E file u)])%list
    ∧ (∀ n, res ≠ inl (FileNotFoundOnZenodo n))
    ∧ res ≠ inr false
    ∧ (tarball = false → res = inr true).
Proof.
  intros Hfresh Hpre Hentry Hlinks Hu Hcurl. unfold fresh in Hfresh.
  induction Hpre as [|e pre (v & Hv & Hother) _ IH]; simpl.
  - run. rewrite Hentry, eq_str_refl, Hfresh, eq_str_refl. cbn.
    rewrite Hlinks. cbn. rewrite Hu. unfold record_download in Hcurl.
    rewrite Hcurl.
    destruct tarball.
    + destruct got; cbn;
        match goal with |- context [extract_tarball E file ?w1] =>
          destruct (extract_tarball_net w1) as (err & w' & Hx & Hn & Hnf) end;
        rewrite Hx; (do 2 eexists);
        (split; [reflexivity |]); (split; [by rewrite Hn |]);
        (split; [intros n [= ->]; by eapply Hnf | done]).
    + destruct got; cbn; (do 2 eexists); (split; [reflexivity |]); done.
  - run. rewrite Hv. cbn. rewrite Hother. cbn. apply IH.
Qed.

Lemma download_file_from_record_matches record tarball u got w :
  matches E record file rule_name u →
  curl E (net w) (record_download E file u) = inr got →
  ∃ res w',
    download_file_from_record E self record file rule_name tarball false w
    = (res, w')
    ∧ net w' = (net w ++ [Curl (record_download E file u)])%list
    ∧ (∀ n, res ≠ inl (FileNotFoundOnZenodo n))
    ∧ (tarball = false → res = inr tt).
Proof.
  intros (entries & Hfiles & md & rh & pre & e & post & links
          & Hmd & Hrh & Hfresh & -> & Hpre & He & Hlinks & Hu) Hcurl.
  unfold record_files in Hfiles. unfold download_file_from_record.
  rewrite Hmd. cbn [bind lift]. rewrite Hrh, Hfiles. cbn [bind lift Py.iter].
  destruct (scan_record_found rh tarball pre e post links u got w
              Hfresh Hpre He Hlinks Hu Hcurl)
    as (res & w' & Hscan & Hn & Hnf & Hnb & Hok).
  unfold bind. rewrite Hscan.
  destruct res as [err|[|]]; [| | done].
  - do 2 eexists. split; [reflexivity |]. split; [done |].
    split; [| intros Ht; by specialize (Hok Ht)].
    intros n [= ->]. by eapply Hnf.
  - do 2 eexists. split; [reflexivity |]. by repeat split.
Qed.

(** [search_records] passes over the records that miss and stops at the
    first that matches. *)
Lemma search_records_first_match tarball missing record rest u got w :
  Forall (fun v => misses E v file rule_name) missing →
  matches E record file rule_name u →
  curl E (net w) (record_download E file u) = inr got →
  ∃ res w',
    search_records E self file rule_name tarball false
      (missing ++ record :: rest) w
    = (res, w')
    ∧ net w' = (net w ++ [Curl (record_download E file u)])%list
    ∧ (tarball = false → res = inr true).
Proof.
  intros Hmiss Hmatch. revert w.
  induction Hmiss as [|v vs Hv _ IH]; intros w Hcurl; simpl.
  - destruct (download_file_from_record_matches record tarball u got w
                Hmatch Hcurl) as (res & w' & Hrun & Hn & Hnf & Hok).
    unfold try_except, bind at 1. unfold bind at 1. rewrite Hrun.
    destruct res as [err|[]].
    + exists (inl err), w'. split.
      * destruct err; try reflexivity. by destruct (Hnf name).
      * split; [done | intros Ht; by specialize (Hok Ht)].
    + exists (inr true), w'. cbn. done.
  - destruct (download_file_from_record_misses v tarball false w Hv)
      as (w1 & Hrun & Hn & Hf).
    unfold try_except, bind at 1. unfold bind at 1. rewrite Hrun.
    run.
    match goal with |- context [search_records _ _ _ _ _ _ _ ?w2] =>
      destruct (IH w2) as (res & w' & Hs & Hn' & Hok) end.
    { cbn. by rewrite Hn. }
    exists res, w'. split; [exact Hs |]. cbn in Hn'. by rewrite Hn' , Hn.
Qed.

End Records.

(** ** The search through the draft *)

Section Draft.

Context (E : env) (self : Zenodo) (file rule_name : string).

(** The scan of a draft stops at the first entry under the rule name when
    the hash is another: the outcome is the same whatever entries follow. *)
Lemma scan_draft_outdated rule_hashes tarball dry_run pre entry w :
  stale rule_hashes file rule_name →
  Forall (other "filename" rule_name) pre →
  named "filename" rule_name entry →
  ∃ w', quiet w w'
        ∧ ∀ post, scan_draft E self rule_hashes file rule_name tarball dry_run
                    (pre ++ entry :: post) w = (inr false, w').
Proof.
  intros (h & Hget & Hne) Hpre Hentry. revert w.
  induction Hpre as [|e pre (v & Hv & Hother) _ IH]; intros w; simpl.
  - eexists. split; [| intros post; run;
      rewrite Hentry, Hget, eq_str_refl, Hne; reflexivity]. done.
  - match type of IH with ∀ w, _ => idtac end.
    evar (w1 : world).
    destruct (IH w1) as (w' & Hq & Hscan). subst w1.
    exists w'. split; [| intros post; run; rewrite Hv, Hget, Hother; cbn;
                         apply Hscan].
    eapply quiet_trans; [| exact Hq]. done.
Qed.


Lemma download_file_from_draft_outdated draft files_url entries tarball dry_run w :
  Py.truthy (token self) = true →
  serves_listing E self (net w) draft files_url entries →
  outdated E "filename" draft entries file rule_name →
  ∃ w', download_file_from_draft E self draft file rule_name tarball dry_run w
        = (inl (FileNotFoundOnZenodo rule_name), w')
        ∧ net w' = (net w ++ [Http (listing_request self files_url)])%list
        ∧ files w' = files w.
Proof.
  intros Htok (links & r & Hlinks & Hfiles & Hr & Hparse)
         (md & rh & pre & e & post & Hmd & Hrh & Hst & -> & Hpre & He).
  unfold download_file_from_draft, require_access_token. rewrite Htok.
  rewrite Hmd, Hlinks. cbn [bind lift]. rewrite Hrh. cbn [bind lift].
  rewrite Hfiles. cbn [bind lift].
  unfold listing_request in *.
  unfold bind at 1, http. rewrite Hr, Hparse.
  cbn [bind lift log Py.iter net logs files].
  match goal with |- context [bind _ _ ?w1] =>
    destruct (scan_draft_outdated rh tarball dry_run pre e w1 Hst Hpre He)
      as (w' & [Hn Hf] & Hscan) end.
  exists w'. rewrite (bind_ok _ _ _ _ _ (Hscan post)). by rewrite Hn, Hf.
Qed.

Lemma scan_draft_found rule_hashes tarball pre entry post
    (links : gmap string json) u got w :
  fresh rule_hashes file rule_name →
  Forall (other "filename" rule_name) pre →
  named "filename" rule_name entry →
  Py.getitem entry "links" = inr (JDict links) →
  links !! "download" = Some u →
  curl E (net w) (draft_download E self file u) = inr got →
  ∃ res w',
    scan_draft E self rule_hashes file rule_name tarball false
      (pre ++ entry :: post) w
    = (res, w')
    ∧ net w' = (net w ++ [Curl (draft_download E self file u)])%list
    ∧ (∀ n, res ≠ inl (FileNotFoundOnZenodo n))
    ∧ res ≠ inr false
    ∧ (tarball = false → res = inr true).
Proof.
  intros Hfresh Hpre Hentry Hlinks Hu Hcurl. unfold fresh in Hfresh.
  revert w Hcurl.
  induction Hpre as [|e pre (v & Hv & Hother) _ IH]; intros w Hcurl; simpl.
  - run. rewrite Hentry, Hfresh, !eq_str_refl. cbn.
    rewrite Hlinks. cbn. rewrite Hu. unfold draft_download in Hcurl.
    rewrite Hcurl.
    destruct tarball.
    + destruct got; cbn;
        match goal with |- context [extract_tarball E file ?w1] =>
          destruct (extract_tarball_net E file w1) as (err & w' & Hx & Hn & Hnf) end;
        rewrite Hx; (do 2 eexists);
        (split; [reflexivity |]); (split; [by rewrite Hn |]);
        (split; [intros n [= ->]; by eapply Hnf | done]).
    + destruct got; cbn; (do 2 eexists); (split; [reflexivity |]); done.
  - run. rewrite Hv, Hfresh, Hother. cbn.
    match goal with |- context [scan_draft _ _ _ _ _ _ _ _ ?w1] =>
      destruct (IH w1 Hcurl) as (res & w' & Hscan & Hrest) end.
    by exists res, w'.
Qed.

Lemma download_file_from_draft_holds draft files_url entries tarball u got w :
  Py.truthy (token self) = true →
  serves_listing E self (net w) draft files_url entries →
  holds E "filename" "download" draft entries file rule_name u →
  curl E (net w ++ [Http (listing_request self files_url)])
         (draft_download E self file u) = inr got →
  ∃ res w',
    download_file_from_draft E self draft file rule_name tarball false w
    = (res, w')
    ∧ net w' = (net w ++ [Http (listing_request self files_url);
                          Curl (draft_download E self file u)])%list
    ∧ (∀ n, res ≠ inl (FileNotFoundOnZenodo n))
    ∧ (tarball = false → res = inr tt).
Proof.
  intros Htok (dlinks & r & Hlinks & Hfiles & Hr & Hparse)
         (md & rh & pre & e & post & links
          & Hmd & Hrh & Hfresh & -> & Hpre & He & Helinks & Hu) Hcurl.
  unfold download_file_from_draft, require_access_token. rewrite Htok.
  rewrite Hmd, Hlinks. cbn [bind lift]. rewrite Hrh. cbn [bind lift].
  rewrite Hfiles. cbn [bind lift].
  unfold listing_request in *.
  unfold bind at 1, http. rewrite Hr, Hparse.
  cbn [bind lift log Py.iter net logs files].
  match goal with |- context [bind _ _ ?w1] =>
    destruct (scan_draft_found rh tarball pre e post links u got w1
                Hfresh Hpre He Helinks Hu Hcurl)
      as (res & w' & Hscan & Hn & Hnf & Hnb & Hok) end.
  unfold bind. rewrite Hscan. cbn in Hn.
  destruct res as [err|[|]]; [| | done].
  - do 2 eexists. split; [reflexivity |].
    split; [by rewrite Hn, <- app_assoc |].
    split; [| intros Ht; by specialize (Hok Ht)].
    intros n [= ->]. by eapply Hnf.
  - do 2 eexists. split; [reflexivity |].
    split; [by rewrite Hn, <- app_assoc |]. by split.
Qed.

End Draft.

(** ** [download_file]: draft, then records *)

Section Download.

Context (E : env) (self : Zenodo) (file rule_name : string).

(** With a latest draft served, [search_draft] is [download_file_from_draft]
    on that draft, a cache miss there being reported as "not found". *)
Lemma search_draft_served draft_url draft tarball dry_run w :
  serves_draft E self (net w) draft_url draft →
  ∃ wd,
    net wd = (net w ++ [Http (concept_search self);
                        Http (draft_request self draft_url)])%list
    ∧ files wd = files w
    ∧ ∀ res w',
        download_file_from_draft E self draft file rule_name tarball dry_run wd
        = (res, w') →
        (res = inr tt → search_draft E self file rule_name tarball dry_run w
                        = (inr true, w'))
        ∧ ((∃ n, res = inl (FileNotFoundOnZenodo n)) →
           ∃ w1, search_draft E self file rule_name tarball dry_run w
                 = (inr false, w1)
                 ∧ net w1 = net w' ∧ files w1 = files w')
        ∧ (∀ e, res = inl e → (∀ n, e ≠ FileNotFoundOnZenodo n) →
           search_draft E self file rule_name tarball dry_run w = (inl e, w')).
Proof.
  intros (r & first & links & versions & r' & Hr & Hs & Hb & Hl & Hd & Ht
          & Hr' & Hs' & Hb').
  apply Z.leb_le in Hs, Hs'. unfold draft_request in *.
  exists {| net := (net w ++ [Http (concept_search self)])
                   ++ [Http (with_token self GET [draft_url] None)];
            logs := logs w ++ [(Debug, [JStr ("Attempting to access " ++ service self
                         ++ " deposit with DOI " ++ doi self ++ "...")])];
            files := files w |}.
  split; [by rewrite <- app_assoc | split; [done |]].
  intros res w' Hrun.
  assert (search_draft E self file rule_name tarball dry_run w
          = match res with
            | inr _ => (inr true, w')
            | inl (FileNotFoundOnZenodo _) =>
                (inr false,
                 {| net := net w';
                    logs := logs w' ++ [(Debug, [JStr ("File " ++ rule_name
                           ++ " not found in deposit with DOI " ++ doi self ++ ".")])];
                    files := files w' |})
            | inl e => (inl e, w')
            end) as Heq.
  { unfold search_draft. run. rewrite Hr, Hs, Hb. cbn. rewrite Hl. cbn.
    rewrite Hd, Ht. cbn [net logs files]. rewrite Hr', Hs', Hb'.
    cbn [net logs files].
    match goal with |- context [download_file_from_draft _ _ _ _ _ _ _ ?w0] =>
      destruct (download_file_from_draft E self draft file rule_name tarball
                  dry_run w0) as [res0 w0'] eqn:Hgoal end.
    assert ((res0, w0') = (res, w')) as [= -> ->]
      by (rewrite <- Hrun, <- Hgoal; reflexivity).
    by destruct res as [[]|]. }
  rewrite Heq. split; [| split].
  - by intros ->.
  - intros [n ->]. eexists. split; [reflexivity | done].
  - intros e -> Hne. destruct e; try reflexivity. by destruct (Hne name).
Qed.


(** The published records, once the existence probe has succeeded. *)
Lemma search_published_served records tarball dry_run w :
  serves_records E self (net w) records →
  ∃ wr,
    net wr = (net w ++ [Http (record_probe self); Http (records_search self)])%list
    ∧ files wr = files w
    ∧ search_published E self file rule_name tarball dry_run w
      = search_records E self file rule_name tarball dry_run (rev records) wr.
Proof.
  intros (rp & rs & top & hits & Hrp & Hsp & Hrs & Hss & Hb & Htop & Hhits).
  assert ((status_code rp >? 204)%Z = false) as Hgt by lia.
  apply Z.leb_le in Hss.
  eexists. split; [| split]; [| | unfold search_published; run;
    rewrite Hrp, Hgt; cbn [net logs files]; rewrite Hrs, Hss, Hb; cbn;
    rewrite Htop; cbn; rewrite Hhits; reflexivity].
  - cbn. by rewrite <- app_assoc.
  - done.
Qed.

End Download.

(** C3. A draft, or a published record, that lists a file under the rule
    name while its ledger holds another hash for the rule (or none) is not a
    match: nothing is downloaded from it, the entries after the one under
    the rule name are not looked at (nothing is assumed of them), and the
    search goes on.  For the draft (of a caller with an access token), the
    three requests of the draft are sent, none of them a download, and
    [download_file] then turns to the published records: when one of them
    matches, its copy is the one fetched.  For a record, the record is given
    up without a download and the walk goes on to the records after it
    (older versions): the first of them that matches is opened and its copy
    is the one fetched. *)
Theorem stale_entry_falls_through (E : env) (self : Zenodo)
    (file rule_name : string) (tarball dry_run : bool) (w : world) :
  (∀ draft_url draft files_url entries,
     Py.truthy (token self) = true →
     serves_draft E self (net w) draft_url draft →
     serves_listing E self
       (net w ++ [Http (concept_search self); Http (draft_request self draft_url)])
       draft files_url entries →
     outdated E "filename" draft entries file rule_name →
     ∃ w1,
       search_draft E self file rule_name tarball dry_run w = (inr false, w1)
       ∧ net w1 = (net w ++ [Http (concept_search self);
                             Http (draft_request self draft_url);
                             Http (listing_request self files_url)])%list
       ∧ files w1 = files w
       ∧ ∀ older v2 newer u got,
           dry_run = false →
           serves_records E self (net w1) (older ++ v2 :: newer) →
           matches E v2 file rule_name u →
           Forall (fun v => misses E v file rule_name) newer →
           curl E (net w1 ++ [Http (record_probe self); Http (records_search self)])
                (record_download E file u) = inr got →
           ∃ res w',
             download_file E self file rule_name tarball dry_run w = (res, w')
             ∧ net w' = (net w ++ [Http (concept_search self);
                                   Http (draft_request self draft_url);
                                   Http (listing_request self files_url);
                                   Http (record_probe self);
                                   Http (records_search self);
                                   Curl (record_download E file u)])%list
             ∧ (tarball = false → res = inr tt))
  ∧ (∀ record entries,
       record_files record entries →
       outdated E "key" record entries file rule_name →
       (∃ w',
          download_file_from_record E self record file rule_name tarball dry_run w
          = (inl (FileNotFoundOnZenodo rule_name), w')
          ∧ quiet w w')
       ∧ ∀ skipped v2 older u got,
           dry_run = false →
           Forall (fun v => misses E v file rule_name) skipped →
           matches E v2 file rule_name u →
           curl E (net w) (record_download E file u) = inr got →
           ∃ res w',
             search_records E self file rule_name tarball dry_run
               (record :: skipped ++ v2 :: older) w
             = (res, w')
             ∧ net w' = (net w ++ [Curl (record_download E file u)])%list
             ∧ (tarball = false → res = inr true)).
Proof.
  split.
  - intros draft_url draft files_url entries Htok Hdraft Hlisting Hout.
    destruct (search_draft_served E self file rule_name draft_url draft tarball
                dry_run w Hdraft) as (wd & Hnd & Hfd & Hserved).
    rewrite <- Hnd in Hlisting.
    destruct (download_file_from_draft_outdated E self file rule_name draft
                files_url entries tarball dry_run wd Htok Hlisting Hout)
      as (w' & Hrun & Hn & Hf).
    destruct (Hserved _ _ Hrun) as (_ & Hmiss & _).
    destruct Hmiss as (w1 & Hsearch & Hn1 & Hf1); [by eexists |].
    assert (net w1 = (net w ++ [Http (concept_search self);
                                Http (draft_request self draft_url);
                                Http (listing_request self files_url)])%list)
      as Hnet1 by (by rewrite Hn1, Hn, Hnd, <- app_assoc).
    exists w1. split; [exact Hsearch |].
    split; [exact Hnet1 |].
    split; [by rewrite Hf1, Hf, Hfd |].
    intros older v2 newer u got -> Hrecords Hmatch Hmissing Hcurl.
    destruct (search_published_served E self file rule_name _ tarball false w1
                Hrecords) as (wr & Hnr & Hfr & Hpub).
    rewrite rev_app_distr in Hpub. simpl in Hpub. rewrite <- app_assoc in Hpub.
    simpl in Hpub. rewrite <- Hnr in Hcurl.
    destruct (search_records_first_match E self file rule_name tarball
                (rev newer) v2 (rev older) u got wr
                (Forall_rev Hmissing) Hmatch Hcurl)
      as (res & w2 & Hwalk & Hn2 & Hok).
    rewrite <- Hpub in Hwalk.
    assert (net w2 = (net w ++ [Http (concept_search self);
                                Http (draft_request self draft_url);
                                Http (listing_request self files_url);
                                Http (record_probe self);
                                Http (records_search self);
                                Curl (record_download E file u)])%list) as Hnet2
      by (by rewrite Hn2, Hnr, Hnet1, <- !app_assoc).
    unfold download_file. rewrite (bind_ok _ _ _ _ _ Hsearch).
    destruct res as [e|found].
    + exists (inl e), w2. rewrite (bind_err _ _ _ _ _ Hwalk).
      split; [done | split; [done |]]. intros Ht. by specialize (Hok Ht).
    + rewrite (bind_ok _ _ _ _ _ Hwalk).
      destruct found.
      * exists (inr tt), w2. by split.
      * eexists _, w2. split; [reflexivity |]. split; [done |].
        intros Ht. by specialize (Hok Ht).
  - intros record entries Hfiles Hout.
    assert (misses E record file rule_name) as Hrecord.
    { exists entries. split; [done | by left]. }
    split.
    + apply (download_file_from_record_misses E self file rule_name record
               tarball dry_run w Hrecord).
    + intros skipped v2 older u got -> Hskipped Hmatch Hcurl.
      apply (search_records_first_match E self file rule_name tarball
               (record :: skipped) v2 older u got w);
        [by constructor | done | done].
Qed.

(** C1. Within one [download_file] the draft comes first and the published
    records after it, last listed first (the service lists the versions of
    a concept oldest first, and the code walks [records[::-1]]).  When the
    draft of a caller with an access token holds the file, it is fetched
    from the draft and no request about published records is sent.  When
    the draft has yielded nothing, the records are gone through from the end
    of the list: the copy fetched is that of the last record listed that
    matches, whatever records come before it (so with V1 before V2, both
    matching, the copy of V2). *)
Theorem download_file_draft_then_newest (E : env) (self : Zenodo)
    (file rule_name : string) (tarball : bool) (w : world) :
  (∀ draft_url draft files_url entries u got,
     Py.truthy (token self) = true →
     serves_draft E self (net w) draft_url draft →
     serves_listing E self
       (net w ++ [Http (concept_search self); Http (draft_request self draft_url)])
       draft files_url entries →
     holds E "filename" "download" draft entries file rule_name u →
     curl E (net w ++ [Http (concept_search self);
                       Http (draft_request self draft_url);
                       Http (listing_request self files_url)])
            (draft_download E self file u) = inr got →
     ∃ res w',
       download_file E self file rule_name tarball false w = (res, w')
       ∧ net w' = (net w ++ [Http (concept_search self);
                             Http (draft_request self draft_url);
                             Http (listing_request self files_url);
                             Curl (draft_download E self file u)])%list
       ∧ (tarball = false → res = inr tt))
  ∧ (∀ w1 older v2 newer u got,
       search_draft E self file rule_name tarball false w = (inr false, w1) →
       serves_records E self (net w1) (older ++ v2 :: newer) →
       matches E v2 file rule_name u →
       Forall (fun v => misses E v file rule_name) newer →
       curl E (net w1 ++ [Http (record_probe self); Http (records_search self)])
              (record_download E file u) = inr got →
       ∃ res w',
         download_file E self file rule_name tarball false w = (res, w')
         ∧ net w' = (net w1 ++ [Http (record_probe self);
                                Http (records_search self);
                                Curl (record_download E file u)])%list
         ∧ (tarball = false → res = inr tt)).
Proof.
  split.
  - intros draft_url draft files_url entries u got Htok Hdraft Hlisting Hholds Hcurl.
    destruct (search_draft_served E self file rule_name draft_url draft tarball
                false w Hdraft) as (wd & Hnd & Hfd & Hserved).
    rewrite <- Hnd in Hlisting.
    replace (net w ++ [Http (concept_search self);
                       Http (draft_request self draft_url);
                       Http (listing_request self files_url)])%list
      with (net wd ++ [Http (listing_request self files_url)])%list in Hcurl
      by (by rewrite Hnd, <- app_assoc).
    destruct (download_file_from_draft_holds E self file rule_name draft
                files_url entries tarball u got wd Htok Hlisting Hholds Hcurl)
      as (res & w' & Hrun & Hn & Hnf & Hok).
    destruct (Hserved _ _ Hrun) as (Hfound & _ & Hraise).
    assert (net w' = (net w ++ [Http (concept_search self);
                                Http (draft_request self draft_url);
                                Http (listing_request self files_url);
                                Curl (draft_download E self file u)])%list) as Hnet
      by (by rewrite Hn, Hnd, <- app_assoc).
    unfold download_file.
    destruct res as [e|[]].
    + exists (inl e), w'.
      rewrite (bind_err _ _ _ _ _ (Hraise e eq_refl
                 (fun n He => Hnf n (f_equal inl He)))).
      split; [done | split; [done |]]. intros Ht. by specialize (Hok Ht).
    + exists (inr tt), w'. rewrite (bind_ok _ _ _ _ _ (Hfound eq_refl)).
      by split.
  - intros w1 older v2 newer u got Hdraft Hrecords Hmatch Hmiss Hcurl.
    destruct (search_published_served E self file rule_name _ tarball false w1
                Hrecords) as (wr & Hnr & Hfr & Hpub).
    rewrite rev_app_distr in Hpub. simpl in Hpub. rewrite <- app_assoc in Hpub.
    simpl in Hpub. rewrite <- Hnr in Hcurl.
    destruct (search_records_first_match E self file rule_name tarball
                (rev newer) v2 (rev older) u got wr
                (Forall_rev Hmiss) Hmatch Hcurl)
      as (res & w' & Hsearch & Hn & Hok).
    rewrite <- Hpub in Hsearch.
    assert (net w' = (net w1 ++ [Http (record_probe self);
                                 Http (records_search self);
                                 Curl (record_download E file u)])%list) as Hnet
      by (by rewrite Hn, Hnr, <- app_assoc).
    unfold download_file. rewrite (bind_ok _ _ _ _ _ Hdraft).
    destruct res as [e|found].
    + exists (inl e), w'. rewrite (bind_err _ _ _ _ _ Hsearch).
      split; [done | split; [done |]]. intros Ht. by specialize (Hok Ht).
    + rewrite (bind_ok _ _ _ _ _ Hsearch).
      destruct found.
      * exists (inr tt), w'. by split.
      * eexists _, w'. split; [reflexivity |]. split; [done |].
        intros Ht. by specialize (Hok Ht).
Qed.

Lemma download_file_draft_then_newest_witness :
  let v1 := JDict (Demo.version_with (Some Demo.ledger_text)
                     [Demo.record_entry "v1"]) in
  let v2 := JDict (Demo.version_with (Some Demo.ledger_text)
                     [Demo.record_entry "v2"]) in
  let curl := Demo.fetches (Blob "1,2,3") in
  let cached := Demo.env_with
                  (Demo.sandbox (Some Demo.ledger_text) [v1; v2]) curl in
  let empty := Demo.env_with (Demo.sandbox None [v1; v2]) curl in
  let file := "src/data/a.csv" in
  (∃ w', download_file cached Demo.self file "make_data" false false
           Demo.nothing = (inr tt, w')
         ∧ net w' = [Http (concept_search Demo.self);
                     Http (draft_request Demo.self (JStr Demo.draft_url));
                     Http (listing_request Demo.self (JStr Demo.files_request));
                     Curl (draft_download cached Demo.self file
                             (JStr "https://sandbox.zenodo.org/draft/make_data"))])
  ∧ (∃ w', download_file empty Demo.self file "make_data" false false
             Demo.nothing = (inr tt, w')
           ∧ net w' = [Http (concept_search Demo.self);
                       Http (draft_request Demo.self (JStr Demo.draft_url));
                       Http (listing_request Demo.self (JStr Demo.files_request));
                       Http (record_probe Demo.self);
                       Http (records_search Demo.self);
                       Curl (record_download empty file
                               (JStr "https://sandbox.zenodo.org/v2/make_data"))]).
Proof.
  intros v1 v2 curl cached empty file. split.
  - destruct (download_file_draft_then_newest cached Demo.self file
                "make_data" false Demo.nothing) as [Hdraft _].
    destruct (Hdraft (JStr Demo.draft_url)
                (JDict (Demo.version_with (Some Demo.ledger_text) []))
                (JStr Demo.files_request) [Demo.draft_entry]
                (JStr "https://sandbox.zenodo.org/draft/make_data")
                (Some (Blob "1,2,3")))
      as (res & w' & Hrun & Hnet & Hok).
    + vm_compute. reflexivity.
    + exists (Demo.ok (JList [JDict Demo.newest])), Demo.newest,
        {[ "latest_draft" := JStr Demo.draft_url ]}, [],
        (Demo.ok (JDict (Demo.version_with (Some Demo.ledger_text) []))).
      repeat split; try (vm_compute; reflexivity); vm_compute; discriminate.
    + eexists _, (Demo.ok (JList [Demo.draft_entry])).
      repeat split; vm_compute; reflexivity.
    + exists (JDict (Demo.metadata_with (Some Demo.ledger_text))),
        (JDict {[ "make_data" := JStr "a.csv" ]}), [], Demo.draft_entry, [],
        {[ "download" := JStr "https://sandbox.zenodo.org/draft/make_data" ]}.
      repeat split; try (vm_compute; reflexivity). constructor.
    + vm_compute. reflexivity.
    + exists w'. rewrite (Hok eq_refl) in Hrun. split; [exact Hrun | exact Hnet].
  - destruct (download_file_draft_then_newest empty Demo.self file
                "make_data" false Demo.nothing) as [_ Hrecords].
    destruct (Hrecords
                (search_draft empty Demo.self file "make_data" false false
                   Demo.nothing).2
                [v1] v2 [] (JStr "https://sandbox.zenodo.org/v2/make_data")
                (Some (Blob "1,2,3")))
      as (res & w' & Hrun & Hnet & Hok).
    + vm_compute. reflexivity.
    + exists (Demo.ok (JDict ∅)), (Demo.ok (Demo.hits [v1; v2])),
        {[ "hits" := JDict {[ "hits" := JList [v1; v2] ]} ]},
        {[ "hits" := JList [v1; v2] ]}.
      repeat split; try (vm_compute; reflexivity); vm_compute; discriminate.
    + exists [Demo.record_entry "v2"]. split; [vm_compute; reflexivity |].
      exists (JDict (Demo.metadata_with (Some Demo.ledger_text))),
        (JDict {[ "make_data" := JStr "a.csv" ]}), [], (Demo.record_entry "v2"), [],
        {[ "self" := JStr "https://sandbox.zenodo.org/v2/make_data" ]}.
      repeat split; try (vm_compute; reflexivity). constructor.
    + constructor.
    + vm_compute. reflexivity.
    + exists w'. rewrite (Hok eq_refl) in Hrun. split; [exact Hrun | exact Hnet].
Defined.

Lemma stale_entry_falls_through_witness :
  let stale := JDict (Demo.version_with None [Demo.record_entry "v2"]) in
  let v1 := JDict (Demo.version_with (Some Demo.ledger_text)
                     [Demo.record_entry "v1"]) in
  let E := Demo.env_with (Demo.sandbox None [v1; stale])
             (Demo.fetches (Blob "1,2,3")) in
  let file := "src/data/a.csv" in
  let u := JStr "https://sandbox.zenodo.org/v1/make_data" in
  (∃ w', download_file E Demo.self file "make_data" false false Demo.nothing
         = (inr tt, w')
         ∧ net w' = [Http (concept_search Demo.self);
                     Http (draft_request Demo.self (JStr Demo.draft_url));
                     Http (listing_request Demo.self (JStr Demo.files_request));
                     Http (record_probe Demo.self);
                     Http (records_search Demo.self);
                     Curl (record_download E file u)])
  ∧ (∃ w', download_file_from_record E Demo.self stale file "make_data"
             false false Demo.nothing
           = (inl (FileNotFoundOnZenodo "make_data"), w')
           ∧ quiet Demo.nothing w')
  ∧ (∃ w', search_records E Demo.self file "make_data" false false
             [stale; v1] Demo.nothing
           = (inr true, w')
           ∧ net w' = [Curl (record_download E file u)]).
Proof.
  intros stale v1 E file u.
  assert (misses E stale file "make_data") as Hstale.
  { exists [Demo.record_entry "v2"]. split; [vm_compute; reflexivity |].
    left. exists (JDict (Demo.metadata_with None)), (JDict ∅), [],
      (Demo.record_entry "v2"), [].
    repeat split; try (vm_compute; reflexivity); [| constructor].
    exists JNone. split; vm_compute; reflexivity. }
  assert (matches E v1 file "make_data" u) as Hv1.
  { exists [Demo.record_entry "v1"]. split; [vm_compute; reflexivity |].
    exists (JDict (Demo.metadata_with (Some Demo.ledger_text))),
      (JDict {[ "make_data" := JStr "a.csv" ]}), [],
      (Demo.record_entry "v1"), [],
      {[ "self" := JStr "https://sandbox.zenodo.org/v1/make_data" ]}.
    repeat split; try (vm_compute; reflexivity); constructor. }
  destruct (stale_entry_falls_through E Demo.self file "make_data" false false
              Demo.nothing) as [Hdraft Hrecord].
  split; [| split].
  - destruct (Hdraft (JStr Demo.draft_url)
                (JDict (Demo.version_with None []))
                (JStr Demo.files_request) [Demo.draft_entry])
      as (w1 & Hsearch & Hnet & Hfiles & Hgoes_on).
    + vm_compute. reflexivity.
    + exists (Demo.ok (JList [JDict Demo.newest])), Demo.newest,
        {[ "latest_draft" := JStr Demo.draft_url ]}, [],
        (Demo.ok (JDict (Demo.version_with None []))).
      repeat split; try (vm_compute; reflexivity); vm_compute; discriminate.
    + eexists _, (Demo.ok (JList [Demo.draft_entry])).
      repeat split; vm_compute; reflexivity.
    + exists (JDict (Demo.metadata_with None)), (JDict ∅), [],
        Demo.draft_entry, [].
      repeat split; try (vm_compute; reflexivity); [| constructor].
      exists JNone. split; vm_compute; reflexivity.
    + destruct (Hgoes_on [] v1 [stale] u (Some (Blob "1,2,3")))
        as (res & w' & Hrun & Hnet' & Hok).
      * reflexivity.
      * exists (Demo.ok (JDict ∅)), (Demo.ok (Demo.hits [v1; stale])),
          {[ "hits" := JDict {[ "hits" := JList [v1; stale] ]} ]},
          {[ "hits" := JList [v1; stale] ]}.
        repeat split; try (vm_compute; reflexivity); vm_compute; discriminate.
      * exact Hv1.
      * constructor; [exact Hstale | constructor].
      * reflexivity.
      * exists w'. rewrite (Hok eq_refl) in Hrun. split; [exact Hrun | exact Hnet'].
  - destruct (Hrecord stale [Demo.record_entry "v2"]) as [Hgiven_up _].
    + vm_compute. reflexivity.
    + exists (JDict (Demo.metadata_with None)), (JDict ∅), [],
        (Demo.record_entry "v2"), [].
      repeat split; try (vm_compute; reflexivity); [| constructor].
      exists JNone. split; vm_compute; reflexivity.
    + exact Hgiven_up.
  - destruct (Hrecord stale [Demo.record_entry "v2"]) as [_ Hgoes_on].
    + vm_compute. reflexivity.
    + exists (JDict (Demo.metadata_with None)), (JDict ∅), [],
        (Demo.record_entry "v2"), [].
      repeat split; try (vm_compute; reflexivity); [| constructor].
      exists JNone. split; vm_compute; reflexivity.
    + destruct (Hgoes_on [] v1 [] u (Some (Blob "1,2,3")))
        as (res & w' & Hrun & Hnet' & Hok).
      * reflexivity.
      * constructor.
      * exact Hv1.
      * reflexivity.
      * exists w'. rewrite (Hok eq_refl) in Hrun. split; [exact Hrun | exact Hnet'].
Defined.

(** * Further properties *)

(** ** A logic for runs *)

Section Logic.

Context (R : relation world) `{!PreOrder R}.

Lemma obeys_ret {A} (Q : A → Prop) a : Q a → obeys R Q (ret a).
Proof. intros Ha w. split; [reflexivity | by intros ? [= <-]]. Qed.

Lemma obeys_raise {A} (Q : A → Prop) e : obeys R Q (raise e).
Proof. intros w. split; [reflexivity | done]. Qed.

Lemma obeys_lift {A} (Q : A → Prop) (r : result A) :
  (∀ a, r = inr a → Q a) → obeys R Q (lift r).
Proof. intros Hr w. split; [reflexivity | exact (Hr)]. Qed.

Lemma obeys_lift_any {A} (r : result A) : obeys R (fun _ => True) (lift r).
Proof. by apply obeys_lift. Qed.

Lemma obeys_bind {A B} (Q1 : A → Prop) (Q : B → Prop) (m : M A) (k : A → M B) :
  obeys R Q1 m → (∀ a, Q1 a → obeys R Q (k a)) → obeys R Q (bind m k).
Proof.
  intros Hm Hk w. destruct (Hm w) as [HR HQ]. unfold bind.
  destruct (m w) as [[e|a] w1]; simpl in *; [done |].
  destruct (Hk a (HQ a eq_refl) w1) as [HR' HQ'].
  split; [by etrans | done].
Qed.

Lemma obeys_try_except {A} (Q : A → Prop) (m : M A) (h : exn → M A) :
  obeys R Q m → (∀ e, obeys R Q (h e)) → obeys R Q (try_except m h).
Proof.
  intros Hm Hh w. destruct (Hm w) as [HR HQ]. unfold try_except.
  destruct (m w) as [[e|a] w1]; simpl in *; [| done].
  destruct (Hh e w1) as [HR' HQ']. split; [by etrans | done].
Qed.

Lemma obeys_weaken {A} (Q Q' : A → Prop) (m : M A) :
  obeys R Q m → (∀ a, Q a → Q' a) → obeys R Q' m.
Proof. intros Hm HQ w. destruct (Hm w) as [HR Ha]. split; [done | auto]. Qed.

Lemma obeys_log l msg : allows_log R → obeys R (fun _ => True) (log l msg).
Proof. intros H w. split; [apply H | done]. Qed.

Lemma obeys_http E rq : allows R (Http rq) → obeys R (fun _ => True) (http E rq).
Proof. intros H w. split; [apply H | done]. Qed.

Lemma obeys_run_curl E c : allows R (Curl c) → obeys R (fun _ => True) (run_curl E c).
Proof. intros H w. split; [apply H | done]. Qed.

Lemma obeys_set_files f : allows_files R → obeys R (fun _ => True) (set_files f).
Proof. intros H w. split; [apply H | done]. Qed.

Lemma obeys_get_files : obeys R (fun _ => True) get_files.
Proof. intros w. split; [reflexivity | done]. Qed.

(** Runs of which only the effect matters. *)
Lemma keeps_bind {A B} (m : M A) (k : A → M B) :
  obeys R (fun _ => True) m → (∀ a, obeys R (fun _ => True) (k a)) →
  obeys R (fun _ => True) (bind m k).
Proof. intros Hm Hk. eapply obeys_bind; [exact Hm | auto]. Qed.

Lemma keeps_any {A} (Q : A → Prop) (m : M A) :
  obeys R Q m → obeys R (fun _ => True) m.
Proof. intros H. by eapply obeys_weaken. Qed.

End Logic.

Global Instance sent_only_preorder P : PreOrder (sent_only P).
Proof.
  split.
  - intros w. exists []. by rewrite app_nil_r.
  - intros w1 w2 w3 (e1 & H1 & F1) (e2 & H2 & F2).
    exists (e1 ++ e2)%list. split; [by rewrite H2, H1, app_assoc | by apply Forall_app].
Qed.

Global Instance left_remote_preorder : PreOrder left_remote.
Proof. unfold left_remote. apply _. Qed.

Global Instance looked_only_preorder : PreOrder looked_only.
Proof.
  split.
  - intros w. split; [reflexivity | done].
  - intros w1 w2 w3 [H1 F1] [H2 F2]. split; [by etrans | congruence].
Qed.

Lemma sent_only_allows_log P : allows_log (sent_only P).
Proof. intros w lg. exists []. by rewrite app_nil_r. Qed.

Lemma sent_only_allows_files P : allows_files (sent_only P).
Proof. intros w fs. exists []. by rewrite app_nil_r. Qed.

Lemma sent_only_allows P e : P e → allows (sent_only P) e.
Proof. intros He w. exists [e]. split; [done | by constructor]. Qed.

Lemma looked_only_allows_log : allows_log looked_only.
Proof. intros w lg. split; [apply sent_only_allows_log | done]. Qed.

Lemma looked_only_allows e : reads e → allows looked_only e.
Proof. intros He w. split; [by apply sent_only_allows | done]. Qed.

Create HintDb runs discriminated.

#[export] Hint Resolve sent_only_allows_log sent_only_allows_files
  looked_only_allows_log : runs.
#[export] Hint Extern 1 (allows left_remote _) =>
  apply sent_only_allows; reflexivity : runs.
#[export] Hint Extern 1 (allows looked_only _) =>
  apply looked_only_allows; eexists; split; reflexivity : runs.
#[export] Hint Extern 1 (allows_log left_remote) =>
  apply sent_only_allows_log : runs.
#[export] Hint Extern 1 (allows_files left_remote) =>
  apply sent_only_allows_files : runs.

Ltac order := try match goal with |- PreOrder _ => apply _ end.

(** Takes a run apart along its [bind]s, branches and handlers. *)
Ltac obey :=
  repeat first
    [ assumption
    | apply keeps_bind; order; [| intros ?]
    | apply obeys_try_except; order; [| intros ?]
    | apply obeys_ret; order; exact I
    | apply obeys_raise; order
    | apply obeys_lift_any; order
    | apply obeys_get_files; order
    | apply obeys_log; order; solve [auto with runs]
    | apply obeys_http; order; solve [auto with runs]
    | apply obeys_run_curl; order; solve [auto with runs]
    | apply obeys_set_files; order; solve [auto with runs]
    | match goal with
      | |- obeys _ _ (if ?b then _ else _) => destruct b
      | |- obeys _ _ (match ?x with _ => _ end) => destruct x
      end ].

Section ReadsOnly.

Context (E : env) (self : Zenodo).

Lemma extract_tarball_left_remote file :
  obeys left_remote (fun _ => True) (extract_tarball E file).
Proof.
  unfold extract_tarball, Fs.rename, Fs.tar_open, Fs.unlink, safe_extract, extractall.
  simpl. obey.
Qed.


Lemma scan_draft_left_remote rule_hashes file rule_name tarball dry_run data :
  obeys left_remote (fun _ => True)
    (scan_draft E self rule_hashes file rule_name tarball dry_run data).
Proof.
  induction data as [|entry rest IH]; simpl; [obey |].
  unfold curl_download. pose proof (extract_tarball_left_remote file). obey.
Qed.

Lemma scan_record_left_remote rule_hashes file rule_name tarball dry_run entries :
  obeys left_remote (fun _ => True)
    (scan_record E rule_hashes file rule_name tarball dry_run entries).
Proof.
  induction entries as [|entry rest IH]; simpl; [obey |].
  unfold curl_download. pose proof (extract_tarball_left_remote file). obey.
Qed.

Lemma download_file_from_record_left_remote record file rule_name tarball dry_run :
  obeys left_remote (fun _ => True)
    (download_file_from_record E self record file rule_name tarball dry_run).
Proof.
  unfold download_file_from_record.
  pose proof (scan_record_left_remote) as Hscan. obey. apply Hscan.
Qed.

Lemma search_records_left_remote file rule_name tarball dry_run records :
  obeys left_remote (fun _ => True)
    (search_records E self file rule_name tarball dry_run records).
Proof.
  induction records as [|record rest IH]; simpl; [obey |].
  pose proof (download_file_from_record_left_remote record file rule_name
                tarball dry_run). obey.
Qed.

Lemma download_file_left_remote file rule_name tarball dry_run :
  obeys left_remote (fun _ => True)
    (download_file E self file rule_name tarball dry_run).
Proof.
  unfold download_file, search_draft, search_published, debug_message,
    raise_zenodo_error, download_file_from_draft, require_access_token, r_json.
  pose proof scan_draft_left_remote as Hdraft.
  pose proof search_records_left_remote as Hrecords.
  obey; first [apply Hdraft | apply Hrecords].
Qed.

End ReadsOnly.

(** X1.  Whatever the service and [curl] answer, and whether it returns or
    raises, [download_file] only adds to the exchange, and nothing it adds
    changes the remote deposit: no POST, PUT or DELETE and no upload, only
    GET requests and downloads. *)
Theorem download_file_sends_reads_only (E : env) (self : Zenodo)
    (file rule_name : string) (tarball dry_run : bool) (w : world) :
  ∃ events,
    net (download_file E self file rule_name tarball dry_run w).2
    = (net w ++ events)%list
    ∧ Forall (fun e => mutates e = false) events.
Proof. apply (download_file_left_remote E self file rule_name tarball dry_run w). Qed.

Section DryRun.

Context (E : env) (self : Zenodo).

Lemma scan_draft_dry_run rule_hashes file rule_name tarball data :
  obeys looked_only (fun _ => True)
    (scan_draft E self rule_hashes file rule_name tarball true data).
Proof. induction data as [|entry rest IH]; simpl; obey. Qed.

Lemma scan_record_dry_run rule_hashes file rule_name tarball entries :
  obeys looked_only (fun _ => True)
    (scan_record E rule_hashes file rule_name tarball true entries).
Proof. induction entries as [|entry rest IH]; simpl; obey. Qed.

Lemma search_records_dry_run file rule_name tarball records :
  obeys looked_only (fun _ => True)
    (search_records E self file rule_name tarball true records).
Proof.
  induction records as [|record rest IH]; simpl; [obey |].
  unfold download_file_from_record.
  pose proof scan_record_dry_run as Hscan. obey. apply Hscan.
Qed.

Lemma download_file_dry_run_looks file rule_name tarball :
  obeys looked_only (fun _ => True)
    (download_file E self file rule_name tarball true).
Proof.
  unfold download_file, search_draft, search_published, debug_message,
    raise_zenodo_error, download_file_from_draft, require_access_token, r_json.
  pose proof scan_draft_dry_run as Hdraft.
  pose proof search_records_dry_run as Hrecords.
  obey; first [apply Hdraft | apply Hrecords].
Qed.

End DryRun.

(** X2.  With [dry_run] set, [download_file] sends GET requests only ([curl]
    is not run) and leaves every local file as it was, whatever the service
    answers and whether the method returns or raises. *)
Theorem download_file_dry_run (E : env) (self : Zenodo)
    (file rule_name : string) (tarball : bool) (w : world) :
  let w' := (download_file E self file rule_name tarball true w).2 in
  (∃ events, net w' = (net w ++ events)%list ∧ Forall reads events)
  ∧ files w' = files w.
Proof. apply (download_file_dry_run_looks E self file rule_name tarball w). Qed.

(** ** Downloads of directories *)

Global Instance any_world_preorder : PreOrder any_world.
Proof. by split. Qed.

#[export] Hint Extern 1 (allows any_world _) => intros ?; exact I : runs.
#[export] Hint Extern 1 (allows_log any_world) => intros ? ?; exact I : runs.
#[export] Hint Extern 1 (allows_files any_world) => intros ? ?; exact I : runs.

(** One step through a [bind] whose first part may return anything. *)
Ltac through :=
  apply (obeys_bind _ (fun _ => True)); order; [obey | intros ? _].

Section Tarball.

Context (E : env) (self : Zenodo).

Lemma extract_tarball_raises file :
  obeys any_world (fun _ => False) (extract_tarball E file).
Proof.
  intros w. split; [done |].
  destruct (extract_tarball_net E file w) as (e & w' & -> & _). done.
Qed.

Lemma scan_record_tarball rule_hashes file rule_name entries :
  obeys any_world (fun found => found = false)
    (scan_record E rule_hashes file rule_name true false entries).
Proof.
  induction entries as [|entry rest IH]; simpl.
  - by apply obeys_ret; order.
  - do 2 through. destruct a0.
    + through. apply (obeys_bind _ (fun _ => False)); order; [| by intros ? []].
      unfold curl_download. do 4 through. apply extract_tarball_raises.
    + destruct (Py.eq_str a rule_name); [| exact IH].
      through. by apply obeys_ret; order.
Qed.


Lemma scan_draft_tarball rule_hashes file rule_name data :
  obeys any_world (fun found => found = false)
    (scan_draft E self rule_hashes file rule_name true false data).
Proof.
  induction data as [|entry rest IH]; simpl.
  - by apply obeys_ret; order.
  - do 3 through.
    destruct (Py.eq_str a rule_name && Py.eq_str a0 (PosixPath.name file)).
    + through. apply (obeys_bind _ (fun _ => False)); order; [| by intros ? []].
      unfold curl_download. do 4 through. apply extract_tarball_raises.
    + destruct (Py.eq_str a rule_name).
      * through. by apply obeys_ret; order.
      * through. exact IH.
Qed.

Lemma download_file_from_record_tarball record file rule_name :
  obeys any_world (fun _ => False)
    (download_file_from_record E self record file rule_name true false).
Proof.
  unfold download_file_from_record. do 4 through.
  apply (obeys_bind _ (fun found => found = false)); order;
    [apply scan_record_tarball | intros ? ->].
  apply obeys_raise; order.
Qed.

Lemma download_file_from_draft_tarball draft file rule_name :
  obeys any_world (fun _ => False)
    (download_file_from_draft E self draft file rule_name true false).
Proof.
  unfold download_file_from_draft, require_access_token.
  destruct (Py.truthy (token self)); [| apply obeys_raise; order].
  do 8 through.
  apply (obeys_bind _ (fun found => found = false)); order;
    [apply scan_draft_tarball | intros ? ->].
  apply obeys_raise; order.
Qed.

Lemma search_records_tarball file rule_name records :
  obeys any_world (fun found => found = false)
    (search_records E self file rule_name true false records).
Proof.
  induction records as [|record rest IH]; simpl.
  - by apply obeys_ret; order.
  - apply (obeys_bind _ (fun found => found = false)); order;
      [| by intros ? ->].
    apply obeys_try_except; order.
    + apply (obeys_bind _ (fun _ => False)); order; [| by intros ? []].
      apply download_file_from_record_tarball.
    + intros e. destruct e; try (apply obeys_raise; order).
      through. by apply obeys_ret; order.
Qed.

Lemma search_draft_tarball file rule_name :
  obeys any_world (fun found => found = false)
    (search_draft E self file rule_name true false).
Proof.
  unfold search_draft, debug_message, r_json. do 2 through.
  destruct (status_code a0 <=? 204)%Z.
  - do 2 through. destruct (negb (a2 =? 0)%nat).
    + do 3 through. destruct (Py.truthy a5).
      * through. destruct (status_code a6 <=? 204)%Z.
        -- apply obeys_try_except; order.
           ++ through.
              apply (obeys_bind _ (fun _ => False)); order; [| by intros ? []].
              apply download_file_from_draft_tarball.
           ++ intros e. destruct e; try (apply obeys_raise; order).
              through. by apply obeys_ret; order.
        -- do 2 through. by apply obeys_ret; order.
      * by apply obeys_ret; order.
    + through. by apply obeys_ret; order.
  - do 2 through. by apply obeys_ret; order.
Qed.

Lemma search_published_tarball file rule_name :
  obeys any_world (fun found => found = false)
    (search_published E self file rule_name true false).
Proof.
  unfold search_published, raise_zenodo_error, r_json. do 2 through.
  destruct (status_code a0 >? 204)%Z.
  - do 3 through. destruct a3; [by apply obeys_ret; order |].
    do 2 through. apply obeys_raise; order.
  - through. destruct (status_code a1 <=? 204)%Z.
    + do 3 through. apply search_records_tarball.
    + do 3 through. apply obeys_raise; order.
Qed.

End Tarball.

(** X3.  A download with [tarball] set (and no [dry_run]) never returns:
    whatever the service and [curl] answer, [download_file] ends with an
    exception.  A cache hit leads to [safe_extract], which raises; a miss
    is [FileNotFoundOnZenodo]. *)
Theorem download_file_tarball_always_raises (E : env) (self : Zenodo)
    (file rule_name : string) (w : world) :
  ∃ e, (download_file E self file rule_name true false w).1 = inl e.
Proof.
  assert (obeys any_world (fun _ => False)
            (download_file E self file rule_name true false)) as H.
  { unfold download_file.
    apply (obeys_bind _ (fun found => found = false)); order;
      [apply search_draft_tarball | intros ? ->].
    apply (obeys_bind _ (fun found => found = false)); order;
      [apply search_published_tarball | intros ? ->].
    apply obeys_raise; order. }
  destruct (H w) as [_ Hnever].
  destruct (download_file E self file rule_name true false w).1 as [e|[]] eqn:Hrun;
    [by exists e | by destruct (Hnever tt)].
Qed.

(** ** The ownership probe, asked again *)

(** X4.  Once [check_if_user_is_owner] has returned an answer, asking again
    in the world it left returns the same answer and changes nothing: no
    request is sent and no file is written.  The answer is read back from
    the flag file the first call left (or found). *)
Theorem check_if_user_is_owner_repeats (E : env) (self : Zenodo)
    (w w' : world) (answer : bool) :
  check_if_user_is_owner E self w = (inr answer, w') →
  check_if_user_is_owner E self w' = (inr answer, w').
Proof.
  intros Hrun.
  destruct (files w !! cache_file_true E self) as [c|] eqn:Ht.
  { rewrite check_if_user_is_owner_cached_true in Hrun by (by rewrite Ht).
    injection Hrun as <- <-.
    apply check_if_user_is_owner_cached_true. by rewrite Ht. }
  destruct (files w !! cache_file_false E self) as [c|] eqn:Hf.
  { rewrite check_if_user_is_owner_cached_false in Hrun by (by rewrite ?Hf).
    injection Hrun as <- <-.
    apply check_if_user_is_owner_cached_false; [done | by rewrite Hf]. }
  pose proof (cache_files_differ E self) as Hne.
  destruct (check_if_user_is_owner_outcomes E self w _ w' Ht Hf Hrun)
    as [_ [[[= ->] Hfiles] | [[[= ->] Hfiles] | [[e [=]] _]]]].
  - apply check_if_user_is_owner_cached_true.
    rewrite Hfiles, lookup_insert_eq. by eexists.
  - apply check_if_user_is_owner_cached_false.
    + by rewrite Hfiles, lookup_insert_ne.
    + rewrite Hfiles, lookup_insert_eq. by eexists.
Qed.

Lemma check_if_user_is_owner_repeats_witness :
  let E := Demo.env_with
             (Demo.answers
                [(Demo.depositions_request,
                  Demo.ok (JList [JDict (Demo.version_with None [])]))])
             (Demo.fetches (Blob "1,2,3")) in
  let asked := (check_if_user_is_owner E Demo.self Demo.nothing).2 in
  net asked = [Http (owner_probe Demo.self)]
  ∧ check_if_user_is_owner E Demo.self asked = (inr true, asked)
  ∧ let refused := (check_if_user_is_owner E Demo.anonymous Demo.nothing).2 in
    check_if_user_is_owner E Demo.anonymous refused = (inr false, refused).
Proof.
  intros E asked. split; [vm_compute; reflexivity | split].
  - apply (check_if_user_is_owner_repeats E Demo.self Demo.nothing asked true).
    vm_compute. reflexivity.
  - intros refused.
    apply (check_if_user_is_owner_repeats E Demo.anonymous Demo.nothing refused false).
    vm_compute. reflexivity.
Defined.

(** ** What [publish] and [delete] act on *)

Lemma first_unsubmitted_split versions data :
  first_unsubmitted versions = inr data →
  ∃ published rest,
    versions = (published ++ data :: rest)%list
    ∧ Forall submitted published ∧ unsubmitted data.
Proof.
  induction versions as [|v vs IH]; simpl; [done |].
  destruct (Py.getitem v "submitted") as [e|flag] eqn:Hflag; [done |].
  destruct (Py.truthy flag) eqn:Htruth; simpl.
  - intros Hrest. destruct (IH Hrest) as (published & rest & -> & Hp & Hd).
    exists (v :: published), rest. split; [done | split; [| done]].
    constructor; [by exists flag | done].
  - intros [= ->]. exists [], vs. split; [done | split; [constructor |]].
    by exists flag.
Qed.

(** X5.  Whatever the service answers, [publish] sends nothing, or the
    search for the versions of the concept alone, or that search followed
    by one request: the POST that publishes a version the search listed as
    not submitted, every version listed before it being submitted. *)
Theorem publish_only_unsubmitted (E : env) (self : Zenodo) (w : world) :
  let sent := net (publish E self w).2 in
  sent = net w
  ∨ sent = (net w ++ [Http (concept_search self)])%list
  ∨ ∃ r j published data rest version_id,
      remote E (net w) (concept_search self) = inr r
      ∧ body r = Some j
      ∧ Py.iter j = inr (published ++ data :: rest)%list
      ∧ Forall submitted published ∧ unsubmitted data
      ∧ Py.getitem data "id" = inr version_id
      ∧ sent = (net w ++ [Http (concept_search self);
                          Http (publish_request self version_id)])%list.
Proof.
  unfold publish, require_access_token.
  destruct (Py.truthy (token self)); [| by left].
  run. destruct (remote E (net w) (concept_search self)) as [e|r] eqn:Hr;
    [right; by left |].
  destruct (body r) as [j|] eqn:Hj; cbn; [| right; by left].
  destruct (Py.iter j) as [e|versions] eqn:Hiter; cbn; [right; by left |].
  destruct (first_unsubmitted versions) as [e|data] eqn:Hfirst; cbn;
    [right; by left |].
  destruct (first_unsubmitted_split _ _ Hfirst) as (published & rest & -> & Hp & Hd).
  destruct (Py.getitem data "id") as [e|version_id] eqn:Hid; cbn;
    [right; by left |].
  right; right. exists r, j, published, data, rest, version_id.
  repeat (split; [done |]).
  unfold publish_request.
  destruct (remote E (net w ++ _)%list _) as [e|answer]; cbn; [by rewrite <- app_assoc |].
  destruct (parse_request E answer); cbn; by rewrite <- app_assoc.
Qed.

(** X6.  Whatever the service answers, [delete] sends nothing, or the
    search for the versions of the concept alone, or that search followed
    by one request: the DELETE of a version the search listed as not
    submitted, every version listed before it being submitted.  A version
    listed as submitted is never deleted. *)
Theorem delete_only_unsubmitted (E : env) (self : Zenodo) (w : world) :
  let sent := net (delete_ E self w).2 in
  sent = net w
  ∨ sent = (net w ++ [Http (concept_search self)])%list
  ∨ ∃ r j published data rest version_id,
      remote E (net w) (concept_search self) = inr r
      ∧ body r = Some j
      ∧ Py.iter j = inr (published ++ data :: rest)%list
      ∧ Forall submitted published ∧ unsubmitted data
      ∧ Py.getitem data "id" = inr version_id
      ∧ sent = (net w ++ [Http (concept_search self);
                          Http (delete_request self version_id)])%list.
Proof.
  unfold delete_, require_access_token.
  destruct (Py.truthy (token self)); [| by left].
  run. destruct (remote E (net w) (concept_search self)) as [e|r] eqn:Hr;
    [right; by left |].
  destruct (body r) as [j|] eqn:Hj; cbn; [| right; by left].
  destruct (Py.iter j) as [e|versions] eqn:Hiter; cbn; [right; by left |].
  destruct (first_unsubmitted versions) as [e|data] eqn:Hfirst; cbn;
    [right; by left |].
  destruct (first_unsubmitted_split _ _ Hfirst) as (published & rest & -> & Hp & Hd).
  destruct (Py.getitem data "id") as [e|version_id] eqn:Hid; cbn;
    [right; by left |].
  right; right. exists r, j, published, data, rest, version_id.
  repeat (split; [done |]).
  unfold delete_request.
  destruct (remote E (net w ++ _)%list _) as [e|answer]; cbn; [by rewrite <- app_assoc |].
  destruct (parse_request E answer); cbn; by rewrite <- app_assoc.
Qed.

(** ** What the guard of [safe_extract] accepts *)

Lemma commonprefix_is_left a b :
  PosixPath.commonprefix a b = a ↔ ∃ suffix, b = a ++ suffix.
Proof.
  revert b. induction a as [|c a IH]; intros b; simpl.
  - split; [by exists b | done].
  - destruct b as [|d b].
    + split; [done | by intros [suffix ?]].
    + destruct (Ascii.eqb c d) eqn:Hcd.
      * apply Ascii.eqb_eq in Hcd as ->. split.
        -- intros [= Hpre]. apply IH in Hpre as [suffix ->]. by exists suffix.
        -- intros [suffix [= ->]]. f_equal. apply IH. by exists suffix.
      * split; [done |]. intros [suffix [= -> _]].
        by rewrite Ascii.eqb_refl in Hcd.
Qed.

Lemma is_within_directory_prefix (E : env) directory target :
  is_within_directory E directory target = true
  ↔ ∃ suffix, PosixPath.abspath (getcwd E) target
              = PosixPath.abspath (getcwd E) directory ++ suffix.
Proof.
  unfold is_within_directory. cbv zeta.
  rewrite String.eqb_eq. apply commonprefix_is_left.
Qed.

(** X7.  What the guard of [safe_extract] lets through: [check_members]
    accepts an archive exactly when, for every member, the absolute
    extraction root is a leading run of characters of the absolute path of
    the member.  The comparison is on text: nothing asks that the run end at
    a path separator. *)
Theorem check_members_accepts (E : env) (path : string)
    (members : list (string * string)) :
  check_members E path members = inr tt
  ↔ Forall (fun member =>
              ∃ suffix, destination E path member.1
                        = PosixPath.abspath (getcwd E) path ++ suffix)
           members.
Proof.
  induction members as [|member rest IH]; simpl.
  - split; [constructor | done].
  - destruct (is_within_directory E path (PosixPath.join path member.1)) eqn:Hin;
      simpl.
    + rewrite IH. split.
      * intros Hrest. constructor; [| done].
        by apply is_within_directory_prefix.
      * by intros [_ Hrest]%Forall_cons.
    + split; [done |]. intros [Hhead _]%Forall_cons.
      apply is_within_directory_prefix in Hhead. congruence.
Qed.

(** ** What a finished upload leaves on the draft *)

Ltac run_in H :=
  cbv beta iota zeta delta
    [bind ret raise lift try_except log set_files get_files http run_curl
     curl_download r_json Fs.exists_ Fs.touch Fs.rename Fs.unlink Fs.tar_open] in H;
  cbn [net logs files] in H.

(** The innermost term a stuck run is waiting on. *)
Ltac scrutinee t :=
  lazymatch t with
  | context [match ?x with _ => _ end] => scrutinee x
  | _ => t
  end.

Ltac step H :=
  match type of H with
  | context [match ?x with _ => _ end] =>
      let y := scrutinee x in destruct y eqn:?
  end;
  cbv beta iota in H; cbn [net logs files] in H; try discriminate H.

#[export] Hint Extern 1 (allows (sent_only (fun _ => True)) _) =>
  apply sent_only_allows; exact I : runs.

Lemma delete_existing_extends (E : env) self files_url rule_name data w :
  ∃ events, sent_between w (delete_existing E self files_url rule_name data w).2 events.
Proof.
  assert (obeys (sent_only (fun _ => True)) (fun _ => True)
            (delete_existing E self files_url rule_name data)) as H.
  { induction data as [|entry rest IH]; simpl; obey. }
  destruct (H w) as [(events & Hnet & _) _]. by exists events.
Qed.

Lemma setitem_get d k v d' default :
  Py.setitem d k v = inr d' → Py.get d' k default = inr v.
Proof.
  destruct d; simpl; try discriminate. intros [= <-].
  simpl. by rewrite lookup_insert_eq.
Qed.

(** The metadata an upload writes names the file in its ledger, when the
    ledger survives [json.dumps] followed by [json.loads]. *)
Lemma written_metadata_up_to_date (E : env) (self : Zenodo)
    ledger ledger' metadata metadata' draft file rule_name tarball w :
  Py.truthy (token self) = true →
  Py.setitem ledger rule_name (JStr (PosixPath.name file)) = inr ledger' →
  Py.setitem metadata "notes" (JStr (json_dumps E ledger')) = inr metadata' →
  json_loads E (json_dumps E ledger') = Some ledger' →
  Py.getitem draft "metadata" = inr metadata' →
  upload_file_to_draft E self draft file rule_name tarball w = (inr tt, w).
Proof.
  intros Htok Hledger Hmeta Hround Hdraft.
  unfold upload_file_to_draft, require_access_token. rewrite Htok, Hdraft.
  cbn [bind lift]. unfold get_rule_hashes.
  rewrite (setitem_get _ _ _ _ (JStr "{}") Hmeta), Hround. cbn [bind lift].
  rewrite (setitem_get _ _ _ _ JNone Hledger), eq_str_refl. reflexivity.
Qed.

(** X8.  When [upload_file_to_draft] returns, the ledger of the draft names
    the file under the rule.  Either it did already, and nothing was sent;
    or the run ended with the upload of the file to the bucket followed at
    once by the PUT of the metadata, whose notes are the ledger with the
    name of the file written under the rule (the other fields of the
    metadata are as they were), and nothing was sent before the upload
    unless the ledger held another hash for the rule.  A draft that carries
    the metadata so written is up to date: uploading the file to it again
    sends nothing, provided [json.loads] reads back the ledger that
    [json.dumps] wrote. *)
Theorem upload_file_to_draft_records (E : env) (self : Zenodo) (draft : json)
    (file rule_name : string) (tarball : bool) (w w' : world) :
  upload_file_to_draft E self draft file rule_name tarball w = (inr tt, w') →
  ∃ metadata ledger hash,
    Py.getitem draft "metadata" = inr metadata
    ∧ get_rule_hashes E metadata = inr ledger
    ∧ Py.get ledger rule_name JNone = inr hash
    ∧ ((hash = JStr (PosixPath.name file) ∧ w' = w)
       ∨ ∃ earlier ledger' metadata' links bucket_url latest_draft,
           Py.setitem ledger rule_name (JStr (PosixPath.name file)) = inr ledger'
           ∧ Py.setitem metadata "notes" (JStr (json_dumps E ledger')) = inr metadata'
           ∧ Py.getitem draft "links" = inr links
           ∧ Py.getitem links "bucket" = inr bucket_url
           ∧ Py.getitem links "latest_draft" = inr latest_draft
           ∧ sent_between w w'
               (earlier ++
                [Curl (upload_call E self
                         (if tarball then file ++ ".tar.gz" else file)
                         bucket_url rule_name);
                 Http (ledger_update self latest_draft metadata')])
           ∧ (Py.truthy hash = false → earlier = [])
           ∧ ∀ draft' tarball' w2,
               json_loads E (json_dumps E ledger') = Some ledger' →
               Py.getitem draft' "metadata" = inr metadata' →
               upload_file_to_draft E self draft' file rule_name tarball' w2
               = (inr tt, w2)).
Proof.
  intros Hrun. unfold upload_file_to_draft, require_access_token in Hrun.
  run_in Hrun. repeat step Hrun.
  all: injection Hrun as <-.
  all: eexists _, _, _; do 3 (split; [first [eassumption | reflexivity] |]).
  { left. split; [by apply eq_str_true | done]. }
  all: right.
  all: match goal with
       | H : delete_existing _ _ ?u _ ?l ?w0 = _ |- _ =>
           destruct (delete_existing_extends E self u rule_name l w0)
             as [events Hevents];
           rewrite H in Hevents; unfold sent_between in Hevents;
           cbn [net snd] in Hevents;
           exists (Http (with_token self GET [u] None) :: events)
       | _ => exists []
       end.
  all: eexists _, _, _, _, _; do 5 (split; [first [eassumption | reflexivity] |]).
  all: split; [unfold sent_between, upload_call, ledger_update; cbn [net];
               rewrite ?Hevents, <- ?app_assoc; reflexivity |].
  all: split; [try done; congruence |].
  all: intros draft' tarball' w2 Hround Hdraft';
       by eapply written_metadata_up_to_date.
Qed.

Lemma upload_file_to_draft_records_witness :
  let E := Demo.env_with (Demo.answers [(Demo.draft_url, Demo.ok (JDict ∅))])
             (Demo.fetches (Blob EmptyString)) in
  let draft := JDict (Demo.version_with None []) in
  let file := "src/data/a.csv" in
  let w' := (upload_file_to_draft E Demo.self draft file "make_data" false
               Demo.nothing).2 in
  net w' = [Curl (upload_call E Demo.self file
                    (JStr "https://sandbox.zenodo.org/bucket") "make_data");
            Http (ledger_update Demo.self (JStr Demo.draft_url)
                    (JDict (<["notes" := JStr Demo.ledger_text]>
                              (Demo.metadata_with None))))]
  ∧ ∃ metadata ledger hash,
      Py.getitem draft "metadata" = inr metadata
      ∧ get_rule_hashes E metadata = inr ledger
      ∧ Py.get ledger "make_data" JNone = inr hash
      ∧ ((hash = JStr (PosixPath.name file) ∧ w' = Demo.nothing)
         ∨ ∃ earlier ledger' metadata' links bucket_url latest_draft,
             Py.setitem ledger "make_data" (JStr (PosixPath.name file)) = inr ledger'
             ∧ Py.setitem metadata "notes" (JStr (json_dumps E ledger')) = inr metadata'
             ∧ Py.getitem draft "links" = inr links
             ∧ Py.getitem links "bucket" = inr bucket_url
             ∧ Py.getitem links "latest_draft" = inr latest_draft
             ∧ sent_between Demo.nothing w'
                 (earlier ++
                  [Curl (upload_call E Demo.self file bucket_url "make_data");
                   Http (ledger_update Demo.self latest_draft metadata')])
             ∧ (Py.truthy hash = false → earlier = [])
             ∧ ∀ draft' tarball' w2,
                 json_loads E (json_dumps E ledger') = Some ledger' →
                 Py.getitem draft' "metadata" = inr metadata' →
                 upload_file_to_draft E Demo.self draft' file "make_data" tarball' w2
                 = (inr tt, w2)).
Proof.
  intros E draft file w'. split; [vm_compute; reflexivity |].
  apply (upload_file_to_draft_records E Demo.self draft file "make_data" false
           Demo.nothing w').
  vm_compute. reflexivity.
Defined.

(** ** The constructor *)

Lemma string_app_cons c (s t : string) : String c s ++ t = String c (s ++ t).
Proof. reflexivity. Qed.

Lemma string_app_nil_r (s : string) : s ++ EmptyString = s.
Proof.
  induction s as [|c s IH]; [done |]. by rewrite string_app_cons, IH.
Qed.

Lemma string_app_assoc (a b c : string) : (a ++ b) ++ c = a ++ b ++ c.
Proof.
  induction a as [|x a IH]; [done |]. by rewrite !string_app_cons, IH.
Qed.

Lemma prefix_app (a b : string) : String.prefix a (a ++ b) = true.
Proof.
  induction a as [|c a IH]; [by destruct b |].
  rewrite string_app_cons. cbn [String.prefix].
  by destruct (ascii_dec c c).
Qed.

Lemma split_from_skip sep piece (a s : string) :
  Str.split_from sep (String.length a) piece (a ++ s)
  = Str.split_from sep 0 piece s.
Proof.
  induction a as [|c a IH]; [done |].
  rewrite string_app_cons. cbn [String.length Str.split_from]. apply IH.
Qed.

Lemma split_after_separator (sep s : string) :
  sep ≠ EmptyString →
  Str.split (sep ++ s) sep = EmptyString :: Str.split s sep.
Proof.
  destruct sep as [|c sep]; [done | intros _].
  unfold Str.split. rewrite string_app_cons.
  cbn [Str.split_from String.length].
  pose proof (prefix_app (String c sep) s) as Hpre.
  rewrite string_app_cons in Hpre. rewrite Hpre.
  rewrite Nat.sub_succ, Nat.sub_0_r. f_equal.
  apply split_from_skip.
Qed.

(** The first piece of a split is a leading part of the text. *)
Lemma split_from_first sep piece s :
  ∃ first rest tail,
    Str.split_from sep 0 piece s = (piece ++ first) :: tail
    ∧ s = first ++ rest
    ∧ (Py.substring_of sep s = false → rest = EmptyString).
Proof.
  revert piece. induction s as [|c s IH]; intros piece.
  - exists EmptyString, EmptyString, []. cbn [Str.split_from].
    by rewrite string_app_nil_r.
  - cbn [Str.split_from].
    destruct (String.prefix sep (String c s)) eqn:Hpre.
    + exists EmptyString, (String c s), (Str.split_from sep (String.length sep - 1) EmptyString s).
      rewrite string_app_nil_r. split; [done | split; [done |]].
      cbn [Py.substring_of]. by rewrite Hpre.
    + destruct (IH (piece ++ String c EmptyString)) as (first & rest & tail & Hsplit & -> & Hnone).
      exists (String c first), rest, tail. rewrite Hsplit.
      split; [by rewrite string_app_assoc | split; [done |]].
      cbn [Py.substring_of]. rewrite Hpre. apply Hnone.
Qed.

Lemma after_prefix_follows (prefix rest : string) :
  prefix ≠ EmptyString →
  ∃ deposit_id tail,
    after_prefix (prefix ++ rest) prefix = inr deposit_id
    ∧ rest = deposit_id ++ tail
    ∧ (Py.substring_of prefix rest = false → tail = EmptyString).
Proof.
  intros Hsep. unfold after_prefix. rewrite split_after_separator by done.
  unfold Str.split.
  destruct (split_from_first prefix EmptyString rest)
    as (first & tail' & tail & -> & -> & Hnone).
  by exists first, tail'.
Qed.

Lemma prefix_split (a b : string) :
  String.prefix a b = true → ∃ rest, b = a ++ rest.
Proof.
  revert b. induction a as [|c a IH]; intros b; [by exists b |].
  destruct b as [|d b]; cbn [String.prefix]; [done |].
  destruct (ascii_dec c d) as [->|]; [| done].
  intros [rest ->]%IH. by exists rest.
Qed.

Lemma services_prefix_not_empty sys entry :
  In entry (services sys).*2 → entry_doi_prefix entry ≠ EmptyString.
Proof. intros [<- | [<- | []]]; done. Qed.

Lemma owner_true_flagged (E : env) self w w' :
  check_if_user_is_owner E self w = (inr true, w') →
  is_Some (files w' !! cache_file_true E self).
Proof.
  intros Hrun.
  destruct (files w !! cache_file_true E self) as [c|] eqn:Ht.
  { rewrite check_if_user_is_owner_cached_true in Hrun by (by rewrite Ht).
    injection Hrun as <-. by rewrite Ht. }
  destruct (files w !! cache_file_false E self) as [c|] eqn:Hf.
  { rewrite check_if_user_is_owner_cached_false in Hrun by (by rewrite ?Hf).
    done. }
  destruct (check_if_user_is_owner_outcomes E self w _ w' Ht Hf Hrun)
    as [_ [[_ ->] | [[[=] _] | [[e [=]] _]]]].
  by rewrite lookup_insert_eq.
Qed.

Ltac run_up :=
  cbv beta iota zeta delta [bindN retN raiseN liftN up].

Ltac run_up_in H :=
  cbv beta iota zeta delta [bindN retN raiseN liftN up] in H.

(** X9.  Given a text that is not the name of a service, [Zenodo(doi)]
    either returns or raises [InvalidZenodoDOI(doi)], nothing else.  It
    raises when the text starts with the DOI prefix of no service, before
    anything is sent or written.  Otherwise the attributes are those of the
    first such service, and [deposit_id] is what follows the prefix (all of
    it unless the prefix occurs again); whatever the ownership probe
    raises is swallowed, and [user_is_owner] is true only when the
    [AUTH_VALID] flag of the deposit is on disk. *)
Theorem init_parses_doi (E : env) (sys : host) (doi : string)
    (slug branch : option string) (w : world) :
  existsb (String.eqb (Str.lower doi)) (services sys).*1 = false →
  (∃ entry deposit_id tail owner w',
      In entry (services sys).*2
      ∧ doi = entry_doi_prefix entry ++ deposit_id ++ tail
      ∧ (Py.substring_of (entry_doi_prefix entry) (deposit_id ++ tail) = false
         → tail = EmptyString)
      ∧ __init__ E sys doi slug branch w
        = (inr {| this := attributes sys entry doi deposit_id;
                  path := entry_path entry;
                  user_is_owner := owner |}, w')
      ∧ (owner = true
         → is_Some (files w' !! cache_file_true E (attributes sys entry doi deposit_id))))
  ∨ (__init__ E sys doi slug branch w = (inl (InvalidZenodoDOI doi), w)
     ∧ Forall (fun entry => String.prefix (entry_doi_prefix entry) doi = false)
              (services sys).*2).
Proof.
  intros Hname. unfold __init__. rewrite Hname.
  destruct (List.find _ _) as [entry|] eqn:Hfind.
  - left. apply find_some in Hfind as [Hin Hpre].
    apply prefix_split in Hpre as [rest ->].
    destruct (after_prefix_follows (entry_doi_prefix entry) rest
                (services_prefix_not_empty sys entry Hin))
      as (deposit_id & tail & Hafter & -> & Hnone).
    rewrite Hafter.
    set (self := attributes sys entry _ deposit_id).
    destruct (check_if_user_is_owner E self w) as [[e|owner] w1] eqn:Hrun.
    + eexists entry, deposit_id, tail, false, _.
      repeat (split; [done |]). split; [| done].
      run_up. unfold try_except. rewrite Hrun. reflexivity.
    + exists entry, deposit_id, tail, owner, w1.
      repeat (split; [done |]). split.
      * run_up. unfold try_except. by rewrite Hrun.
      * intros ->. by eapply owner_true_flagged.
  - right. split; [done |].
    apply Forall_forall. intros entry Hin%list_elem_of_In.
    by apply (find_none _ _ Hfind).
Qed.

Lemma init_parses_doi_witness :
  let E := Demo.offline in
  let sys := Site.host_with (Some "s3cr3t") in
  let doi := "10.5072/zenodo.1234" in
  (∃ entry deposit_id tail owner w',
      In entry (services sys).*2
      ∧ doi = entry_doi_prefix entry ++ deposit_id ++ tail
      ∧ (Py.substring_of (entry_doi_prefix entry) (deposit_id ++ tail) = false
         → tail = EmptyString)
      ∧ __init__ E sys doi None None Demo.nothing
        = (inr {| this := attributes sys entry doi deposit_id;
                  path := entry_path entry;
                  user_is_owner := owner |}, w')
      ∧ (owner = true
         → is_Some (files w' !! cache_file_true E (attributes sys entry doi deposit_id))))
  ∨ (__init__ E sys doi None None Demo.nothing
     = (inl (InvalidZenodoDOI doi), Demo.nothing)
     ∧ Forall (fun entry => String.prefix (entry_doi_prefix entry) doi = false)
              (services sys).*2).
Proof.
  intros E sys doi.
  apply (init_parses_doi E sys doi None None Demo.nothing). reflexivity.
Defined.

(** X10.  The name of a service is recognised whatever its case, but
    looked up as it was given: [Zenodo(name)] with a name that differs from
    the key by case alone raises [KeyError(name)], and no draft is
    created. *)
Theorem init_service_name_case (E : env) (sys : host) (name : string)
    (slug branch : option string) (w : world) :
  existsb (String.eqb (Str.lower name)) (services sys).*1 = true →
  existsb (String.eqb name) (services sys).*1 = false →
  __init__ E sys name slug branch w = (inl (Exn (KeyError name)), w).
Proof.
  intros Hlower Hname. unfold __init__. rewrite Hlower.
  cbn in Hname. apply orb_false_elim in Hname as [Hz Hs].
  apply orb_false_elim in Hs as [Hs _].
  unfold services_getitem. cbn [services List.find fst].
  rewrite (String.eqb_sym "zenodo"), Hz, (String.eqb_sym "sandbox"), Hs.
  reflexivity.
Qed.

Lemma init_service_name_case_witness :
  __init__ Demo.offline (Site.host_with None) "Sandbox" None None Demo.nothing
  = (inl (Exn (KeyError "Sandbox")), Demo.nothing).
Proof.
  apply (init_service_name_case Demo.offline (Site.host_with None) "Sandbox"
           None None Demo.nothing); reflexivity.
Defined.




(** ** The kind of an identifier, remembered *)

Lemma get_id_type_cached (E : env) (sys : host) (self : instance) (w : world)
    (data : string) :
  files w !! id_type_file self = Some (Blob data) →
  get_id_type E sys self w
  = (inr (Str.without_newlines (Str.readline data)), w).
Proof.
  intros Hfile. unfold get_id_type, read_first_line. run_up. run.
  rewrite Hfile. cbn. by rewrite Hfile.
Qed.

(** X12.  An answer of [get_id_type] is remembered, unless it stands for a
    failure.  When the method returns, either asking again in the world it
    left returns the same answer and changes nothing (the answer is read
    from [id_type.txt]: no request is sent), or the answer is [unknown]
    because the request for the public record raised, was refused (a status
    above 204) or had a body that does not decode; then that request is all
    that was sent and no file was written. *)
Theorem get_id_type_remembers (E : env) (sys : host) (self : instance)
    (w w' : world) (id_type : string) :
  get_id_type E sys self w = (inr id_type, w') →
  get_id_type E sys self w' = (inr id_type, w')
  ∨ (id_type = "unknown"
     ∧ probe_failed E self w
     ∧ sent_between w w' [Http (record_probe (this self))]
     ∧ files w' = files w).
Proof.
  intros Hrun. pose proof Hrun as Hagain.
  unfold get_id_type, read_first_line, classify in Hrun.
  run_up_in Hrun. run_in Hrun.
  unfold probe_failed.
  repeat step Hrun.
  all: injection Hrun as <- <-.
  all: first
    [ (* read from the file *)
      left; by erewrite get_id_type_cached
    | (* the probe failed *)
      right; split; [done |]; split; [| done];
      first [done | by left | right; by apply Z.gtb_gt]
    | (* written to the file *)
      left; erewrite get_id_type_cached by (cbn [files]; apply lookup_insert_eq);
      reflexivity ].
Qed.

Lemma get_id_type_remembers_witness :
  let E := Demo.env_with
             (Demo.answers
                [("https://sandbox.zenodo.org/api/records/1234",
                  Demo.ok (JDict {[ "conceptrecid" := JStr "1234";
                                    "id" := JInt 1236 ]}))])
             (Demo.fetches (Blob EmptyString)) in
  let sys := Site.host_with None in
  let self := {| this := Demo.self;
                 path := fun _ => sandbox_path sys;
                 user_is_owner := false |} in
  let w' := (get_id_type E sys self Demo.nothing).2 in
  files w' !! "/home/u/.showyourwork/sandbox/1234/id_type.txt"
  = Some (Blob ("concept" ++ Str.newline))
  ∧ (get_id_type E sys self w' = (inr "concept", w')
     ∨ ("concept" = "unknown"
        ∧ probe_failed E self Demo.nothing
        ∧ sent_between Demo.nothing w' [Http (record_probe (this self))]
        ∧ files w' = files Demo.nothing)).
Proof.
  intros E sys self w'. split; [vm_compute; reflexivity |].
  apply (get_id_type_remembers E sys self Demo.nothing w' "concept").
  vm_compute. reflexivity.
Defined.

(** ** The datasets of a list of files *)

Lemma in_values_spec file (d : list (string * string)) :
  in_values file d = true ↔ file ∈ d.*2.
Proof.
  unfold in_values. rewrite existsb_exists. split.
  - intros (x & Hin & ->%String.eqb_eq). by apply list_elem_of_In.
  - intros Hin. exists file. split; [by apply list_elem_of_In |].
    apply String.eqb_refl.
Qed.

Lemma in_zip_files_spec file zips :
  in_zip_files file zips = true
  ↔ ∃ zip_file, zip_file ∈ zips ∧ file ∈ zip_file.2.*2.
Proof.
  induction zips as [|zip_file rest IH]; simpl.
  - split; [done | by intros (? & ?%elem_of_nil & _)].
  - destruct (in_values file zip_file.2) eqn:Hin.
    + split; [intros _ | done]. exists zip_file.
      split; [left | by apply in_values_spec].
    + rewrite IH. split.
      * intros (z & Hz & Hfile). exists z. split; [by right | done].
      * intros (z & [-> | Hz]%elem_of_cons & Hfile).
        -- apply in_values_spec in Hfile. congruence.
        -- by exists z.
Qed.

Lemma appended_spec label entry files x :
  x ∈ appended label entry files
  ↔ x = label ∧ ∃ file, file ∈ files ∧ holds_file entry file.
Proof.
  induction files as [|file rest IH]; simpl.
  - split; [by intros ?%elem_of_nil | by intros (_ & ? & ?%elem_of_nil & _)].
  - assert (holds_file entry file
            ↔ in_values file (contents entry) = true
              ∨ in_zip_files file (zip_files entry) = true) as Hholds.
    { unfold holds_file. by rewrite in_values_spec, in_zip_files_spec. }
    destruct (in_values file (contents entry)) eqn:Hc;
      [| destruct (in_zip_files file (zip_files entry)) eqn:Hz].
    1, 2: rewrite elem_of_cons, IH; split;
      [ intros [-> | (-> & f & Hf & Hh)];
          [split; [done |]; exists file; split; [left | apply Hholds; auto]
          | split; [done |]; exists f; split; [by right | done]]
      | intros (-> & _); by left ].
    rewrite IH. split.
    + intros (-> & f & Hf & Hh). split; [done |]. exists f. split; [by right | done].
    + intros (-> & f & [-> | Hf]%elem_of_cons & Hh).
      * apply Hholds in Hh as [? | ?]; congruence.
      * split; [done |]. by exists f.
Qed.

Lemma init_returns_valid (E : env) (sys : host) doi slug branch w deposit w' :
  __init__ E sys doi slug branch w = (inr deposit, w') →
  names_service sys doi = true ∨ under_service sys doi.
Proof.
  unfold __init__, names_service.
  destruct (existsb _ _); [by left |]. intros Hrun. right.
  destruct (List.find _ _) as [entry|] eqn:Hfind; [| done].
  apply find_some in Hfind as [Hin Hpre]. by exists entry.
Qed.

Lemma get_dataset_dois_loop_spec (E : env) (sys : host) files datasets :
  ∀ result w found w',
    get_dataset_dois_loop E sys files datasets result w = (inr found, w') →
    (∀ x, x ∈ found
          ↔ x ∈ result
            ∨ ∃ entry file, (x, entry) ∈ datasets ∧ file ∈ files
                            ∧ holds_file entry file)
    ∧ Forall (fun row => names_service sys row.1 = true ∨ under_service sys row.1)
             datasets.
Proof.
  induction datasets as [|[doi entry] rest IH]; intros result w found w' Hrun.
  - injection Hrun as <- <-. split; [| constructor]. intros x. split; [by left |].
    by intros [? | (? & ? & ?%elem_of_nil & _)].
  - cbn [get_dataset_dois_loop] in Hrun. unfold bindN at 1 in Hrun.
    destruct (__init__ E sys doi None None w) as [[e|deposit] w1] eqn:Hinit;
      [done |].
    apply IH in Hrun as [Hfound Hall]. split.
    + intros x. rewrite Hfound, elem_of_app, appended_spec. split.
      * intros [[? | (-> & file & Hf & Hh)] | (e & file & He & Hf & Hh)].
        -- by left.
        -- right. exists entry, file. split; [left | done].
        -- right. exists e, file. split; [by right | done].
      * intros [? | (e & file & [[= -> ->] | He]%elem_of_cons & Hf & Hh)].
        -- left; by left.
        -- left; right. split; [done |]. by exists file.
        -- right. by exists e, file.
    + constructor; [| done]. by eapply init_returns_valid.
Qed.

Lemma list_set_spec (result : list string) :
  NoDup (list_set result) ∧ ∀ x, x ∈ list_set result ↔ x ∈ result.
Proof.
  unfold list_set. split; [apply NoDup_elements |].
  intros x. by rewrite elem_of_elements, elem_of_list_to_set.
Qed.

(** X13.  When [get_dataset_dois] returns, its result holds each DOI at
    most once, and holds exactly the keys of [datasets] whose dataset holds
    one of the [files], among its contents or in one of its zip files.
    Every key of [datasets] names a service or starts with the DOI prefix
    of one: any other key makes the call raise, even when no file is held
    anywhere. *)
Theorem get_dataset_dois_spec (E : env) (sys : host) (files : list string)
    (datasets : list (string * dataset)) (w w' : world) (result : list string) :
  get_dataset_dois E sys files datasets w = (inr result, w') →
  NoDup result
  ∧ (∀ doi, doi ∈ result
            ↔ ∃ entry file, (doi, entry) ∈ datasets ∧ file ∈ files
                            ∧ holds_file entry file)
  ∧ Forall (fun row => names_service sys row.1 = true ∨ under_service sys row.1)
           datasets.
Proof.
  unfold get_dataset_dois, bindN, retN. intros Hrun.
  destruct (get_dataset_dois_loop E sys files datasets [] w)
    as [[e|found] w1] eqn:Hloop; [done |].
  injection Hrun as <- <-.
  apply get_dataset_dois_loop_spec in Hloop as [Hfound Hall].
  destruct (list_set_spec found) as [Hdup Hset].
  split; [done | split; [| done]].
  intros doi. rewrite Hset, Hfound. split; [| by right].
  by intros [?%elem_of_nil | ?].
Qed.

Lemma get_dataset_dois_spec_witness :
  let doi := "10.5072/zenodo.1234" in
  let file := "src/data/a.csv" in
  let datasets :=
    [(doi, {| contents := [("a.csv", file)]; zip_files := [] |});
     ("10.5281/zenodo.77",
      {| contents := []; zip_files := [("b.zip", [("b.csv", "src/data/b.csv")])] |})] in
  let E := Demo.offline in
  let sys := Site.host_with None in
  let w' := (get_dataset_dois E sys [file; file] datasets Demo.nothing).2 in
  NoDup [doi]
  ∧ (∀ x, x ∈ [doi]
          ↔ ∃ entry f, (x, entry) ∈ datasets ∧ f ∈ [file; file]
                       ∧ holds_file entry f)
  ∧ Forall (fun row => names_service sys row.1 = true ∨ under_service sys row.1)
           datasets.
Proof.
  intros doi file datasets E sys w'.
  apply (get_dataset_dois_spec E sys [file; file] datasets Demo.nothing w' [doi]).
  vm_compute. reflexivity.
Defined.

Lemma init_doi_shape (E : env) (sys : host) doi slug branch w deposit w' :
  names_service sys doi = false →
  __init__ E sys doi slug branch w = (inr deposit, w') →
  ∃ service id,
    In service (services sys).*2
    ∧ String.prefix (entry_doi_prefix service) doi = true
    ∧ after_prefix doi (entry_doi_prefix service) = inr id
    ∧ this deposit = attributes sys service doi id.
Proof.
  unfold __init__, names_service. intros -> Hrun.
  destruct (List.find _ _) as [service|] eqn:Hfind; [| done].
  apply find_some in Hfind as [Hin Hpre].
  destruct (after_prefix doi (entry_doi_prefix service)) as [e|id] eqn:Hid;
    [done |].
  exists service, id. repeat (split; [done |]).
  run_up_in Hrun.
  destruct (try_except _ _ w) as [[e|owner] w1]; [done |].
  by injection Hrun as <- <-.
Qed.

(** No text starts with the DOI prefixes of two services. *)
Lemma service_of_doi_unique sys service service' doi :
  In service (services sys).*2 → In service' (services sys).*2 →
  String.prefix (entry_doi_prefix service) doi = true →
  String.prefix (entry_doi_prefix service') doi = true →
  service = service'.
Proof.
  intros [<- | [<- | []]] [<- | [<- | []]]; try done;
    cbn [entry_doi_prefix]; intros H1 H2;
    apply prefix_split in H1 as [rest1 ->];
    apply prefix_split in H2 as [rest2 H2]; discriminate H2.
Qed.

Lemma init_record_url (E : env) (sys : host) doi slug branch w deposit w' :
  names_service sys doi = false →
  __init__ E sys doi slug branch w = (inr deposit, w') →
  ∀ url, record_of sys doi url ↔ url = record_url deposit.
Proof.
  intros Hname Hrun.
  destruct (init_doi_shape _ _ _ _ _ _ _ _ Hname Hrun)
    as (service & id & Hin & Hpre & Hid & Hthis).
  assert (record_url deposit
          = "https://" ++ entry_url service ++ "/record/" ++ id) as ->.
  { unfold record_url. by rewrite Hthis. }
  intros url. split.
  - intros (service' & id' & Hin' & Hpre' & Hid' & ->).
    assert (service' = service) as -> by by eapply service_of_doi_unique.
    congruence.
  - intros ->. by exists service, id.
Qed.

Lemma get_dataset_urls_loop_spec (E : env) (sys : host) files datasets :
  Forall (fun row => names_service sys row.1 = false) datasets →
  ∀ result w found w',
    get_dataset_urls_loop E sys files datasets result w = (inr found, w') →
    ∀ url, url ∈ found
           ↔ url ∈ result
             ∨ ∃ doi entry file, (doi, entry) ∈ datasets ∧ record_of sys doi url
                                 ∧ file ∈ files ∧ holds_file entry file.
Proof.
  induction 1 as [|[doi entry] rest Hname _ IH]; intros result w found w' Hrun.
  - injection Hrun as <- <-. intros url. split; [by left |].
    by intros [? | (? & ? & ? & ?%elem_of_nil & _)].
  - cbn [get_dataset_urls_loop] in Hrun. unfold bindN at 1 in Hrun.
    destruct (__init__ E sys doi None None w) as [[e|deposit] w1] eqn:Hinit;
      [done |].
    pose proof (init_record_url _ _ _ _ _ _ _ _ Hname Hinit) as Hurl.
    intros url. rewrite (IH _ _ _ _ Hrun), elem_of_app, appended_spec. split.
    + intros [[? | (-> & file & Hf & Hh)] | (d & e & file & He & Hrec & Hf & Hh)].
      * by left.
      * right. exists doi, entry, file. split; [left |].
        split; [by apply Hurl | done].
      * right. exists d, e, file. split; [by right | done].
    + intros [? | (d & e & file & [[= -> ->] | He]%elem_of_cons & Hrec & Hf & Hh)].
      * left; by left.
      * left; right. split; [by apply Hurl |]. by exists file.
      * right. by exists d, e, file.
Qed.

(** X14.  For datasets whose keys are DOIs, when [get_dataset_urls]
    returns, its result holds each address at most once, and holds exactly
    the addresses [https://<service>/record/<id>] of the datasets that hold
    one of the [files]: the service is the one whose DOI prefix starts the
    key, and the identifier is what follows the prefix. *)
Theorem get_dataset_urls_spec (E : env) (sys : host) (files : list string)
    (datasets : list (string * dataset)) (w w' : world) (result : list string) :
  Forall (fun row => names_service sys row.1 = false) datasets →
  get_dataset_urls E sys files datasets w = (inr result, w') →
  NoDup result
  ∧ ∀ url, url ∈ result
           ↔ ∃ doi entry file, (doi, entry) ∈ datasets ∧ record_of sys doi url
                               ∧ file ∈ files ∧ holds_file entry file.
Proof.
  unfold get_dataset_urls, bindN, retN. intros Hnames Hrun.
  destruct (get_dataset_urls_loop E sys files datasets [] w)
    as [[e|found] w1] eqn:Hloop; [done |].
  injection Hrun as <- <-.
  pose proof (get_dataset_urls_loop_spec E sys files datasets Hnames _ _ _ _ Hloop)
    as Hfound.
  destruct (list_set_spec found) as [Hdup Hset].
  split; [done |].
  intros url. rewrite Hset, Hfound. split; [| by right].
  by intros [?%elem_of_nil | ?].
Qed.

Lemma get_dataset_urls_spec_witness :
  let file := "src/data/b.csv" in
  let datasets :=
    [("10.5072/zenodo.1234",
      {| contents := [("a.csv", "src/data/a.csv")]; zip_files := [] |});
     ("10.5281/zenodo.77",
      {| contents := [];
         zip_files := [("a.zip", []); ("b.zip", [("b.csv", file)])] |})] in
  let E := Demo.offline in
  let sys := Site.host_with None in
  let w' := (get_dataset_urls E sys [file] datasets Demo.nothing).2 in
  let result := ["https://zenodo.org/record/77"] in
  NoDup result
  ∧ ∀ url, url ∈ result
           ↔ ∃ doi entry f, (doi, entry) ∈ datasets ∧ record_of sys doi url
                            ∧ f ∈ [file] ∧ holds_file entry f.
Proof.
  intros file datasets E sys w' result.
  apply (get_dataset_urls_spec E sys [file] datasets Demo.nothing w' result).
  - do 2 (constructor; [reflexivity |]). constructor.
  - vm_compute. reflexivity.
Defined.

(** ** When an upload opens a new version *)

#[export] Hint Extern 1 (allows (sent_only (fun e => ¬ posts e)) _) =>
  apply sent_only_allows; intros (? & [= <-] & [=]) : runs.

Lemma delete_existing_no_post (E : env) self files_url rule_name data :
  obeys (sent_only (fun e => ¬ posts e)) (fun _ => True)
    (delete_existing E self files_url rule_name data).
Proof. induction data as [|entry rest IH]; simpl; obey. Qed.

Lemma upload_file_to_draft_no_post (E : env) self draft file rule_name tarball w :
  ∃ events,
    sent_between w (upload_file_to_draft E self draft file rule_name tarball w).2 events
    ∧ Forall (fun e => ¬ posts e) events.
Proof.
  assert (obeys (sent_only (fun e => ¬ posts e)) (fun _ => True)
            (upload_file_to_draft E self draft file rule_name tarball)) as H.
  { unfold upload_file_to_draft, require_access_token, Fs.unlink.
    pose proof (delete_existing_no_post E self) as Hdel.
    obey; apply Hdel. }
  apply H.
Qed.

(** X15.  [upload_file] opens a new version of the deposit only when the
    newest deposition carries no link to a draft.  Whenever a POST is among
    the requests of a run, the search was answered, the first deposition it
    lists has no (or an empty) [latest_draft] link, and the POST is the
    [newversion] action on that deposition; moreover the deposition is
    submitted, or it is not and its own link is empty. *)
Theorem upload_file_new_version (E : env) (self : Zenodo) (file rule_name : string)
    (tarball : bool) (w : world) (events : list net_event) (rq : request) :
  sent_between w (upload_file E self file rule_name tarball w).2 events →
  In (Http rq) events → req_method rq = POST →
  ∃ r data first links draft_url id,
    remote E (net w) (concept_search self) = inr r
    ∧ body r = Some data
    ∧ Py.getitem0 data = inr first
    ∧ Py.get first "links" (JDict ∅) = inr links
    ∧ Py.get links "latest_draft" JNone = inr draft_url
    ∧ Py.truthy draft_url = false
    ∧ Py.getitem first "id" = inr id
    ∧ rq = new_version_request self id
    ∧ (submitted first
       ∨ unsubmitted first
         ∧ ∃ own self_link,
             Py.getitem first "links" = inr own
             ∧ Py.getitem own "self" = inr self_link
             ∧ Py.truthy self_link = false).
Proof.
  unfold sent_between. intros Hsent Hin Hpost.
  destruct (upload_file E self file rule_name tarball w) as [res w'] eqn:Hrun.
  cbn [snd] in Hsent.
  unfold upload_file, require_access_token, debug_message in Hrun. run_in Hrun.
  repeat step Hrun.
  all: try match goal with
       | H : Py.len (JList []) = inr _, H' : Nat.eqb _ 0 = false |- _ =>
           injection H as <-; discriminate H'
       end.
  all: try match goal with
       | H : negb false = false |- _ => discriminate H
       | H : negb true = true |- _ => discriminate H
       end.
  all: try (injection Hrun as <- <-).
  all: cbn [net] in Hsent.
  all: try match goal with
       | H : upload_file_to_draft ?E ?s ?d ?f ?r ?t ?w0 = _ |- _ =>
           destruct (upload_file_to_draft_no_post E s d f r t w0)
             as (ev & Hev & Hno);
           rewrite H in Hev; unfold sent_between in Hev; cbn [snd net] in Hev;
           rewrite Hev in Hsent
       end.
  all: rewrite <- ?app_assoc in Hsent;
       first [ apply app_inv_head in Hsent
             | rewrite <- (app_nil_r (net w)) in Hsent at 1;
               apply app_inv_head in Hsent ];
       subst events; simpl in Hin.
  all: repeat (destruct Hin as [Hin | Hin]).
  all: try (destruct Hin; fail).
  all: try (injection Hin as <-; discriminate Hpost).
  all: try (rewrite Forall_forall in Hno;
            destruct (Hno _ (proj2 (list_elem_of_In _ _) Hin)); by exists rq).
  all: injection Hin as <-.
  all: eexists _, _, _, _, _, _.
  all: do 5 (split; [first [eassumption | reflexivity] |]).
  all: split; [first [eassumption | by apply negb_true_iff] |].
  all: split; [eassumption |].
  all: split; [reflexivity |].
  all: first
    [ left; eexists; split; [eassumption |];
      first [eassumption | by apply negb_false_iff]
    | right; split;
      [ eexists; split; [eassumption |];
        first [eassumption | by apply negb_true_iff]
      | eexists _, _; split; [eassumption |]; split; eassumption ] ].
Qed.

Lemma upload_file_new_version_witness :
  let published := JDict {[ "id" := JInt 1236; "submitted" := JBool true ]} in
  let E := Demo.env_with
             (Demo.answers [(Demo.depositions_request, Demo.ok (JList [published]))])
             (Demo.fetches (Blob EmptyString)) in
  let rq := new_version_request Demo.self (JInt 1236) in
  ∃ r data first links draft_url id,
    remote E (net Demo.nothing) (concept_search Demo.self) = inr r
    ∧ body r = Some data
    ∧ Py.getitem0 data = inr first
    ∧ Py.get first "links" (JDict ∅) = inr links
    ∧ Py.get links "latest_draft" JNone = inr draft_url
    ∧ Py.truthy draft_url = false
    ∧ Py.getitem first "id" = inr id
    ∧ rq = new_version_request Demo.self id
    ∧ (submitted first
       ∨ unsubmitted first
         ∧ ∃ own self_link,
             Py.getitem first "links" = inr own
             ∧ Py.getitem own "self" = inr self_link
             ∧ Py.truthy self_link = false).
Proof.
  intros published E rq.
  apply (upload_file_new_version E Demo.self "src/data/a.csv" "make_data" false
           Demo.nothing [Http (concept_search Demo.self); Http rq] rq).
  - vm_compute. reflexivity.
  - simpl. right. left. reflexivity.
  - reflexivity.
Defined.

(** ** No success without a download *)












